(** * Crop-protection imagery pipeline: index computation, classification,
    segmentation and orchestration

  A shallow embedding of the processing core of the repository:

  - [processing/ndvi_calculator.py]   (module [NdviCalculator])
  - [ai_models/health_classifier.py]  (module [HealthClassifier])
  - [ai_models/segmentation.py]       (module [Segmentation])
  - [data_ingestion/pipeline_scheduler.py] together with the
    [pipeline_runs] table of [database/db_manager.py]
    (module [PipelineScheduler])
  - the thresholds of [config.py]     (module [Config])
  - the colour map [ndvi_to_rgb] of [processing/ndvi_calculator.py]
    (module [NdviToRgb])
  - the agricultural alerts and the live weather dict of
    [data_ingestion/weather_fetcher.py] (module [WeatherFetcher])
  - the run statistics of [database/db_manager.py]
    (module [DatabaseManager])

  Numbers are modelled as the code has them.  A numpy [float32] sample is an
  IEEE 754 binary32 value and a Python [float] a binary64 value, both as
  [spec_float] with the operations of the Standard Library's [SpecFloat]
  (round to nearest even, signed zeros, infinities, NaN).  Python
  exceptions are values of [pyexn] carried by the [result] type. *)

From stdpp Require Import gmap strings list.
From Stdlib Require Import ZArith QArith Qabs Qpower Lia Lqa Sorted SpecFloat.

#[local] Open Scope Z_scope.

(* ===================================================================== *)
(** * IEEE 754 layer                                                       *)
(* ===================================================================== *)

Module IEEE.

Definition float := spec_float.

Definition is_nan (x : float) : bool :=
  match x with S754_nan => true | _ => false end.

Definition is_finite (x : float) : bool :=
  match x with S754_zero _ | S754_finite _ _ _ => true | _ => false end.

Definition is_infinite (x : float) : bool :=
  match x with S754_infinity _ => true | _ => false end.

(** The number a finite float stands for; [0] for infinities and NaN. *)
Definition F2Q (x : float) : Q :=
  match x with
  | S754_finite s m e => inject_Z (cond_Zopp s (Zpos m)) * 2 ^ e
  | _ => 0
  end%Q.

(** Comparison operators [<], [<=], [>]: false as soon as one side is NaN. *)
Definition flt (x y : float) : bool := SFltb x y.
Definition fle (x y : float) : bool := SFleb x y.
Definition fgt (x y : float) : bool := SFltb y x.

(** binary32: numpy's [float32]. *)
Module F32.
Definition prec := 24.
Definition emax := 128.
Definition valid (x : float) : bool := valid_binary prec emax x.
Definition of_Z (z : Z) : float := binary_normalize prec emax z 0 false.
Definition add := SFadd prec emax.
Definition sub := SFsub prec emax.
Definition mul := SFmul prec emax.
Definition div := SFdiv prec emax.
(** The cast [float64 -> float32] applied to a Python scalar that meets a
    [float32] array. *)
Definition of_f64 (x : float) : float :=
  match x with
  | S754_finite s m e => binary_normalize prec emax (cond_Zopp s (Zpos m)) e s
  | _ => x
  end.
End F32.

(** binary64: Python's [float] and numpy's [float64]. *)
Module F64.
Definition prec := 53.
Definition emax := 1024.
Definition valid (x : float) : bool := valid_binary prec emax x.
Definition of_Z (z : Z) : float := binary_normalize prec emax z 0 false.
Definition add := SFadd prec emax.
Definition sub := SFsub prec emax.
Definition mul := SFmul prec emax.
Definition div := SFdiv prec emax.
(** The literal [n/d] written in decimal in the source ([0.6] is
    [lit 6 10]): the binary64 value nearest to the rational. *)
Definition lit (n d : Z) : float := div (of_Z n) (of_Z d).
(** [float(x)] of a numpy [float32] scalar: the same number, in binary64. *)
Definition of_f32 (x : float) : float :=
  match x with
  | S754_finite s m e => binary_normalize prec emax (cond_Zopp s (Zpos m)) e s
  | _ => x
  end.
End F64.

(** numpy's [clip] on floating point arrays is
    [_NPY_MIN(_NPY_MAX(x, lo), hi)], where both helpers return their first
    argument when it is NaN. *)
Definition npy_max (a b : float) : float :=
  if is_nan a then a else if fgt a b then a else b.
Definition npy_min (a b : float) : float :=
  if is_nan a then a else if flt a b then a else b.
Definition clip (x lo hi : float) : float := npy_min (npy_max x lo) hi.

End IEEE.

Import IEEE.

(* ===================================================================== *)
(** * Python results and exceptions                                        *)
(* ===================================================================== *)

(** An exception derived from Python's [Exception] (what
    [except Exception] catches): its class name and [str(e)]. *)
Record pyexn := PyExn { exn_class : string; exn_str : string }.

Inductive result (A : Type) : Type :=
| Ok (a : A)
| Raise (e : pyexn).
Arguments Ok {A} a.
Arguments Raise {A} e.

#[global] Instance result_ret : MRet result := fun A a => Ok a.
#[global] Instance result_bind : MBind result :=
  fun A B k r =>
    match r with
    | Ok a => k a
    | Raise e => Raise e
    end.

(** [np.min] / [np.max] of a one-dimensional array: a zero-size array has no
    identity for the reduction and raises [ValueError]. *)
Definition np_minimum (a b : float) : float :=
  if is_nan a then a else if is_nan b then b else if flt a b then a else b.
Definition np_maximum (a b : float) : float :=
  if is_nan a then a else if is_nan b then b else if fgt a b then a else b.

Definition np_min (a : list float) : result float :=
  match a with
  | [] => Raise (PyExn "ValueError"
            "zero-size array to reduction operation minimum which has no identity")
  | x :: xs => Ok (fold_left np_minimum xs x)
  end.

Definition np_max (a : list float) : result float :=
  match a with
  | [] => Raise (PyExn "ValueError"
            "zero-size array to reduction operation maximum which has no identity")
  | x :: xs => Ok (fold_left np_maximum xs x)
  end.

(** [mask.sum()] and [arr.size]. *)
Definition np_count (mask : list bool) : Z :=
  Z.of_nat (length (filter (fun b => b = true) mask)).
Definition np_size {A} (a : list A) : Z := Z.of_nat (length a).

(* ===================================================================== *)
(** * config.py                                                            *)
(* ===================================================================== *)

Module Config.

(** The three thresholds are Python floats read from the environment. *)
Record t := Build {
  NDVI_HEALTHY : float;
  NDVI_MODERATE : float;
  NDVI_SEVERE : float;
}.

(** Defaults: ["0.6"], ["0.3"], ["0.1"]. *)
Definition default : t :=
  {| NDVI_HEALTHY := F64.lit 6 10;
     NDVI_MODERATE := F64.lit 3 10;
     NDVI_SEVERE := F64.lit 1 10 |}.

End Config.

(* ===================================================================== *)
(** * processing/ndvi_calculator.py                                        *)
(* ===================================================================== *)

Module NdviCalculator.

(** The two bands read from the source raster, [src.read(3)] and
    [src.read(4)], after [.astype(np.float32)], flattened in row-major
    order.  Both come from one dataset and have one shape. *)
Record bands := Bands {
  red : list float;
  nir : list float;
}.

Record statistics := Statistics {
  stat_min : float;
  stat_max : float;
  stat_mean : float;
  stat_std : float;
  stat_median : float;
  stat_p25 : float;
  stat_p75 : float;
  healthy_pct : float;
  moderate_stress_pct : float;
  severe_stress_pct : float;
  critical_pct : float;
  total_pixels : Z;
}.

(** What [calculate_ndvi] produces: the array written to the output file and
    the ["statistics"] entry of the returned dict. *)
Record ndvi_result := NdviResult {
  ndvi_array : list float;
  stats : statistics;
}.

(** The no-data marker of the output profile. *)
Definition NODATA : float := F32.of_Z (-9999).

(** One cell of
    [np.where(denominator > 0, (nir - red) / denominator, 0.0)
       .clip(-1.0, 1.0).astype(np.float32)].
    The quotient is a [float32]; [np.where] and [clip] may carry it as a
    [float64], which holds every [float32] exactly, so the final cast gives
    back the [float32] computed here. *)
Definition ndvi_raw (nir red : float) : float :=
  let denominator := F32.add nir red in
  if fgt denominator (S754_zero false)
  then F32.div (F32.sub nir red) denominator
  else S754_zero false.

Definition ndvi_pixel (nir red : float) : float :=
  clip (ndvi_raw nir red) (F32.of_Z (-1)) (F32.of_Z 1).

Definition compute_ndvi (b : bands) : list float :=
  zip_with ndvi_pixel (nir b) (red b).

(** [ndvi[ndvi > -9999]] *)
Definition valid_pixels (ndvi : list float) : list float :=
  List.filter (fun v => fgt v NODATA) ndvi.

(** [mask.mean() * 100]: the mean of a boolean array is the float64 quotient
    of the count of [True] by the size. *)
Definition pct_of (count size : Z) : float :=
  F64.mul (F64.div (F64.of_Z count) (F64.of_Z size)) (F64.of_Z 100).

Definition pct (mask : list bool) : float :=
  pct_of (np_count mask) (np_size mask).

Section Calculator.

(** numpy reductions whose numeric value no property below depends on. *)
Variables np_mean np_std np_median : list float -> float.
Variable np_percentile : list float -> Z -> float.

Variable cfg : Config.t.

(** The thresholds as they meet the [float32] array [valid]. *)
Definition T_healthy : float := F32.of_f64 (Config.NDVI_HEALTHY cfg).
Definition T_moderate : float := F32.of_f64 (Config.NDVI_MODERATE cfg).
Definition T_severe : float := F32.of_f64 (Config.NDVI_SEVERE cfg).

Definition healthy_mask (valid : list float) : list bool :=
  map (fun v => fgt v T_healthy) valid.
Definition moderate_mask (valid : list float) : list bool :=
  map (fun v => fgt v T_moderate && fle v T_healthy) valid.
Definition severe_mask (valid : list float) : list bool :=
  map (fun v => fgt v T_severe && fle v T_moderate) valid.
Definition critical_mask (valid : list float) : list bool :=
  map (fun v => fle v T_severe) valid.

Definition compute_statistics (ndvi : list float) : result statistics :=
  let valid := valid_pixels ndvi in
  mn ← np_min valid;
  mx ← np_max valid;
  mret {|
    stat_min := F64.of_f32 mn;
    stat_max := F64.of_f32 mx;
    stat_mean := np_mean valid;
    stat_std := np_std valid;
    stat_median := np_median valid;
    stat_p25 := np_percentile valid 25;
    stat_p75 := np_percentile valid 75;
    healthy_pct := pct (healthy_mask valid);
    moderate_stress_pct := pct (moderate_mask valid);
    severe_stress_pct := pct (severe_mask valid);
    critical_pct := pct (critical_mask valid);
    total_pixels := np_size valid;
  |}.

(** [calculate_ndvi] after the source raster has been read.  Writing the
    index raster to the output GeoTIFF, with [nodata=-9999] in its profile,
    changes neither the array nor the statistics.  The function with the
    reading and the writing of its files is [calculate_ndvi_file] below. *)
Definition calculate_ndvi (b : bands) : result ndvi_result :=
  let ndvi := compute_ndvi b in
  st ← compute_statistics ndvi;
  mret {| ndvi_array := ndvi; stats := st |}.

End Calculator.

(** ** The function with its files *)

(** A sample of the source raster in the dtype of the dataset: of an integer
    dtype, or of a floating-point one (a [float32] sample is held as the
    [float64] of the same value). *)
Inductive sample :=
| IntSample (z : Z)
| FloatSample (x : float).

(** [.astype(np.float32)]: the nearest [float32]; a number beyond the range
    of [float32] becomes an infinity. *)
Definition astype_float32 (s : sample) : float :=
  match s with
  | IntSample z => F32.of_Z z
  | FloatSample x => F32.of_f64 x
  end.

(** The profile of the output file: that of the source after
    [profile.update(dtype="float32", count=1, compress="deflate",
    nodata=-9999)]. *)
Record output_profile (profile : Type) := OutputProfile {
  source_profile : profile;
  dtype : string;
  count : Z;
  compress : string;
  nodata : Z;
}.
Arguments OutputProfile {profile} _ _ _ _ _.

(** The dict that [calculate_ndvi] returns. *)
Record ndvi_dict := NdviDict {
  input_file : string;
  output_file : string;
  timestamp : string;
  statistics_of : statistics;
  crs : string;
}.

Section File.

Variables np_mean np_std np_median : list float -> float.
Variable np_percentile : list float -> Z -> float.
Variable cfg : Config.t.

(** The file system and the clock. *)
Variable world : Type.
(** An open dataset and its profile, as [rasterio] holds them. *)
Variables dataset profile : Type.

(** [config.PROCESSED_DIR / f"ndvi_{input_path.stem}.tif"] *)
Variable default_output_path : string -> string.
(** [output_path.parent.mkdir(parents=True, exist_ok=True)] *)
Variable mkdir_parent : string -> world -> result unit * world.
(** [rasterio.open(str(input_path))] *)
Variable rasterio_open : string -> world -> result dataset.
(** [src.read(i)]: band [i] of the dataset, bands counted from 1, in the
    dtype of the dataset and flattened in row-major order; it raises for a
    band that the dataset does not have or cannot read. *)
Variable src_read : dataset -> Z -> result (list sample).
(** [src.profile.copy()] and [src.crs] *)
Variable src_profile : dataset -> profile.
Variable src_crs : dataset -> string.
(** The block [with rasterio.open(str(output_path), "w", **profile) as dst]:
    [dst.write(ndvi, 1)], the band description and the tags, among them the
    source file. *)
Variable write_geotiff :
  string -> output_profile profile -> list float -> string ->
  world -> result unit * world.
(** [datetime.utcnow().isoformat()] *)
Variable utcnow : world -> string.

(** A step on the files: it may change the world and may raise. *)
Definition fio (A : Type) : Type := world -> result A * world.

#[local] Instance fio_ret : MRet fio := fun A a w => (Ok a, w).
#[local] Instance fio_bind : MBind fio :=
  fun A B k c w =>
    match c w with
    | (Ok a, w') => k a w'
    | (Raise e, w') => (Raise e, w')
    end.

(** A step that reads the world, and one that does not touch it. *)
Definition reading {A} (f : world -> result A) : fio A := fun w => (f w, w).
Definition pure {A} (r : result A) : fio A := fun w => (r, w).

(** [calculate_ndvi(input_path, output_path=None)] *)
Definition calculate_ndvi_file (input_path : string) (output_path : option string)
  : fio ndvi_dict :=
  let output_path := default (default_output_path input_path) output_path in
  _ ← mkdir_parent output_path;
  src ← reading (rasterio_open input_path);
  (* Band order: 1=Blue, 2=Green, 3=Red, 4=NIR *)
  red ← pure (src_read src 3);
  nir ← pure (src_read src 4);
  (* Calculate NDVI *)
  let ndvi :=
    compute_ndvi (Bands (map astype_float32 red) (map astype_float32 nir)) in
  (* Write NDVI GeoTIFF *)
  let profile := OutputProfile (src_profile src) "float32" 1 "deflate" (-9999) in
  _ ← write_geotiff output_path profile ndvi input_path;
  (* Compute statistics *)
  stats ← pure (compute_statistics np_mean np_std np_median np_percentile cfg ndvi);
  now ← reading (fun w => Ok (utcnow w));
  mret {| input_file := input_path;
          output_file := output_path;
          timestamp := now;
          statistics_of := stats;
          crs := src_crs src |}.

End File.

End NdviCalculator.

(* ===================================================================== *)
(** * ai_models/health_classifier.py                                       *)
(* ===================================================================== *)

Module HealthClassifier.

(** The weather dict: a dict of dicts of numbers, e.g.
    [{"soil": {"moisture": 0.31}, "current": {"humidity_pct": 64, ...}}]. *)
Abbreviation weather := (gmap string (gmap string float)).

Record pixel_counts := PixelCounts {
  pc_healthy : Z;
  pc_moderate_stress : Z;
  pc_severe_stress : Z;
  pc_critical : Z;
  pc_total : Z;
}.

Record percentages := Percentages {
  healthy : float;
  moderate_stress : float;
  severe_stress : float;
  critical : float;
}.

Record overall_ndvi := OverallNdvi {
  ndvi_mean : float;
  ndvi_std : float;
  ndvi_min : float;
  ndvi_max : float;
}.

Record alert := Alert {
  alert_type : string;
  alert_title : string;
  alert_message : string;
  alert_icon : string;
}.

Record recommendation := Recommendation {
  priority : string;
  action : string;
  detail : string;
}.

Record classification := Classification {
  timestamp : string;
  source_file : string;
  counts : pixel_counts;
  pcts : percentages;
  overall : overall_ndvi;
  overall_health : string;
  alerts : list alert;
  recommendations : list recommendation;
}.

Definition set_alerts (c : classification) (a : list alert) : classification :=
  {| timestamp := timestamp c; source_file := source_file c;
     counts := counts c; pcts := pcts c; overall := overall c;
     overall_health := overall_health c;
     alerts := a; recommendations := recommendations c |}.

Definition set_recommendations (c : classification) (r : list recommendation)
  : classification :=
  {| timestamp := timestamp c; source_file := source_file c;
     counts := counts c; pcts := pcts c; overall := overall c;
     overall_health := overall_health c;
     alerts := alerts c; recommendations := r |}.

(** [healthy / total] of a numpy integer by a Python int: a float64. *)
Definition int_div (a b : Z) : float := F64.div (F64.of_Z a) (F64.of_Z b).

Definition _overall_health (healthy moderate severe critical total : Z) : string :=
  if total =? 0 then "No Data"
  else
    let healthy_pct := int_div healthy total in
    if fgt healthy_pct (F64.lit 7 10) then "Good"
    else if fgt healthy_pct (F64.lit 5 10) then "Fair"
    else if fgt healthy_pct (F64.lit 3 10) then "Poor"
    else "Critical".

Section Classifier.

(** Number formatting of the f-strings: [{:.0%}], [{:.0f}], [{:.1f}]. *)
Variables fmt_pct0 fmt_f0 fmt_f1 : float -> string.
(** Python's [round(x, 1)]. *)
Variable round1 : float -> float.
(** [datetime.utcnow().isoformat()] at the time of the call. *)
Variable utcnow : string.
(** numpy reductions whose numeric value no property below depends on. *)
Variables np_mean np_std : list float -> float.

Variable cfg : Config.t.

Definition _weather_correlated_alerts
    (classification : classification) (weather : weather) : list alert :=
  let alerts := [] in
  let soil := default ∅ (weather !! "soil") in
  let current := default ∅ (weather !! "current") in
  let pcts := pcts classification in
  (* Drought + low NDVI *)
  let soil_moisture := default (F64.lit 5 10) (soil !! "moisture") in
  let alerts :=
    if flt soil_moisture (F64.lit 2 10)
       && fgt (F64.add (severe_stress pcts) (critical pcts)) (F64.of_Z 30)
    then alerts ++ [ {|
      alert_type := "CRITICAL";
      alert_title := "Drought Stress Detected";
      alert_message :=
        "Soil moisture at " +:+ fmt_pct0 soil_moisture +:+ " combined with "
        +:+ fmt_f0 (F64.add (severe_stress pcts) (critical pcts))
        +:+ "% stressed vegetation. " +:+ "Immediate irrigation required.";
      alert_icon := "🚨" |} ]
    else alerts in
  (* High humidity + stressed plants = disease risk *)
  let humidity := default (F64.of_Z 50) (current !! "humidity_pct") in
  let temp := default (F64.of_Z 20) (current !! "temperature_c") in
  let alerts :=
    if fgt humidity (F64.of_Z 80) && fgt temp (F64.of_Z 18)
       && fgt (moderate_stress pcts) (F64.of_Z 20)
    then alerts ++ [ {|
      alert_type := "WARNING";
      alert_title := "Disease Risk Elevated";
      alert_message :=
        "Humidity at " +:+ fmt_f0 humidity +:+ "% and temp at " +:+ fmt_f1 temp
        +:+ "°C with " +:+ fmt_f0 (moderate_stress pcts)
        +:+ "% moderately stressed vegetation. " +:+ "Scout for fungal pathogens.";
      alert_icon := "⚠️" |} ]
    else alerts in
  (* Frost after green-up *)
  let alerts :=
    if flt temp (F64.of_Z 2) && fgt (healthy pcts) (F64.of_Z 30)
    then alerts ++ [ {|
      alert_type := "WARNING";
      alert_title := "Frost Damage Risk";
      alert_message :=
        "Temperature at " +:+ fmt_f1 temp +:+ "°C with active vegetation. "
        +:+ "Risk of frost damage to growing crop.";
      alert_icon := "🥶" |} ]
    else alerts in
  alerts.

Definition _generate_recommendations (classification : classification)
  : list recommendation :=
  let recs := [] in
  let pcts := pcts classification in
  let recs :=
    if fgt (critical pcts) (F64.of_Z 15)
    then recs ++ [ {|
      priority := "HIGH";
      action := "Field Inspection";
      detail := fmt_f0 (critical pcts) +:+ "% of field is in critical condition. "
                +:+ "Deploy ground crew for immediate visual inspection." |} ]
    else recs in
  let recs :=
    if fgt (severe_stress pcts) (F64.of_Z 25)
    then recs ++ [ {|
      priority := "HIGH";
      action := "Soil & Nutrient Test";
      detail := "Significant stress detected. Recommend soil sampling to "
                +:+ "identify possible nutrient deficiency or pH imbalance." |} ]
    else recs in
  let recs :=
    if fgt (moderate_stress pcts) (F64.of_Z 30)
    then recs ++ [ {|
      priority := "MEDIUM";
      action := "Targeted Treatment";
      detail := "Apply variable-rate fertilizer or irrigation to "
                +:+ "moderately stressed zones to prevent further decline." |} ]
    else recs in
  let recs :=
    if fgt (healthy pcts) (F64.of_Z 70)
    then recs ++ [ {|
      priority := "LOW";
      action := "Routine Monitoring";
      detail := "Field is predominantly healthy. Continue scheduled "
                +:+ "monitoring and maintain current management practices." |} ]
    else recs in
  let recs :=
    match recs with
    | [] => recs ++ [ {|
        priority := "MEDIUM";
        action := "Schedule Next Scan";
        detail := "Re-scan in 3-5 days to track vegetation trends." |} ]
    | _ :: _ => recs
    end in
  recs.

(** [round(n / total * 100, 1) if total > 0 else 0] *)
Definition percentage (n total : Z) : float :=
  if 0 <? total
  then round1 (F64.mul (int_div n total) (F64.of_Z 100))
  else S754_zero false.

(** The truth value of [weather_data]: [None] and the empty dict are false. *)
Definition truthy (weather_data : option weather) : option weather :=
  match weather_data with
  | Some w => if decide (w = ∅) then None else Some w
  | None => None
  end.

(** [classify_health] after the index raster [ndvi] has been read from
    [ndvi_path]. *)
Definition classify_health (ndvi_path : string) (ndvi : list float)
    (weather_data : option weather) : result classification :=
  let valid := List.filter (fun v => fgt v (F32.of_Z (-9999))) ndvi in
  (* Per-class pixel counts *)
  let healthy :=
    np_count (map (fun v => fgt v (F32.of_f64 (Config.NDVI_HEALTHY cfg))) valid) in
  let moderate :=
    np_count (map (fun v => fgt v (F32.of_f64 (Config.NDVI_MODERATE cfg))
                            && fle v (F32.of_f64 (Config.NDVI_HEALTHY cfg))) valid) in
  let severe :=
    np_count (map (fun v => fgt v (F32.of_f64 (Config.NDVI_SEVERE cfg))
                            && fle v (F32.of_f64 (Config.NDVI_MODERATE cfg))) valid) in
  let critical :=
    np_count (map (fun v => fle v (F32.of_f64 (Config.NDVI_SEVERE cfg))) valid) in
  let total := np_size valid in
  let pixel_counts := PixelCounts healthy moderate severe critical total in
  let percentages :=
    Percentages (percentage healthy total) (percentage moderate total)
                (percentage severe total) (percentage critical total) in
  let mean := np_mean valid in
  let std := np_std valid in
  mn ← np_min valid;
  mx ← np_max valid;
  let classification := {|
    timestamp := utcnow;
    source_file := ndvi_path;
    counts := pixel_counts;
    pcts := percentages;
    overall := OverallNdvi mean std (F64.of_f32 mn) (F64.of_f32 mx);
    overall_health := _overall_health healthy moderate severe critical total;
    alerts := [];
    recommendations := [] |} in
  (* Weather-correlated alerts *)
  let classification :=
    match truthy weather_data with
    | Some w =>
        set_alerts classification (_weather_correlated_alerts classification w)
    | None => classification
    end in
  (* Actionable recommendations *)
  let classification :=
    set_recommendations classification (_generate_recommendations classification) in
  mret classification.

End Classifier.

End HealthClassifier.

(* ===================================================================== *)
(** * ai_models/segmentation.py                                            *)
(* ===================================================================== *)

Module Segmentation.

(** A two-dimensional array, row by row. *)
Abbreviation array2 A := (list (list A)).

(** What [skimage.measure.regionprops] reports for one labelled region. *)
Record region := Region {
  label : Z;
  area : Z;
  bbox : Z * Z * Z * Z;            (* minr, minc, maxr, maxc *)
  centroid : float * float;
  mean_intensity : float;
  min_intensity : float;
  max_intensity : float;
  eccentricity : float;
  solidity : float;
}.

Record bbox_geo := BboxGeo {
  south : float;
  west : float;
  north : float;
  east : float;
}.

Record ndvi_stats := NdviStats {
  mean : float;
  min : float;
  max : float;
}.

Record plot := Plot {
  id : Z;
  area_pixels : Z;
  plot_bbox_geo : bbox_geo;
  centroid_pixel : Z * Z;           (* row, col *)
  plot_ndvi_stats : ndvi_stats;
  health_class : string;
  health_color : string;
  plot_eccentricity : float;
  plot_solidity : float;
}.

Inductive summary :=
| SummaryEmpty (total : Z)
| Summary (total_plots healthy_count moderate_stress_count
           severe_stress_count critical_count : Z)
          (overall_mean_ndvi : float) (overall_health : string).

Record segmentation_result := SegmentationResult {
  seg_timestamp : string;
  seg_source_file : string;
  seg_crs : string;
  total_plots : Z;
  plots : list plot;
  seg_summary : summary;
  segmentation_mask_shape : list Z;
}.

(** GeoJSON output of [plots_to_geojson]. *)
Record geometry := Geometry {
  geometry_type : string;
  coordinates : list (list (list float));
}.

Record properties := Properties {
  plot_id : Z;
  prop_health_class : string;
  prop_health_color : string;
  mean_ndvi : float;
  prop_area_pixels : Z;
}.

Record feature := Feature {
  feature_type : string;
  feature_geometry : geometry;
  feature_properties : properties;
}.

Record feature_collection := FeatureCollection {
  collection_type : string;
  features : list feature;
}.

(** [int(x)] of a float: truncation toward zero. *)
Definition py_int (x : float) : Z :=
  match x with
  | S754_finite s m (Zneg p) => cond_Zopp s (Zpos m / 2 ^ Zpos p)
  | S754_finite s m e => cond_Zopp s (Zpos m * 2 ^ e)
  | _ => 0
  end.

(** [classes.count(c)] *)
Definition count_class (c : string) (classes : list string) : Z :=
  Z.of_nat (length (List.filter (String.eqb c) classes)).

(** The dtype of a numpy floating-point scalar. *)
Inductive np_dtype := np_float32 | np_float64.

(** [value > threshold] for a numpy scalar and a Python [float]: the Python
    number takes the dtype of the scalar (the promotion rules of NumPy 2),
    so that a [float32] scalar meets the threshold cast to [float32], as an
    array does. *)
Definition gt_threshold (dtype : np_dtype) (value threshold : float) : bool :=
  match dtype with
  | np_float32 => fgt value (F32.of_f64 threshold)
  | np_float64 => fgt value threshold
  end.

Section Segmenter.

(** The image-processing library: [skimage.morphology.disk], [opening],
    [closing], [scipy.ndimage.label], [skimage.measure.regionprops], and
    [rasterio.transform.xy] with [offset="center"]. *)
Variable selem : Type.
Variable transform : Type.
Variable disk : Z -> selem.
Variables opening closing : array2 Z -> selem -> array2 Z.
Variable ndimage_label : array2 Z -> array2 Z * Z.
Variable regionprops : array2 Z -> array2 float -> list region.
Variable xy : transform -> Z -> Z -> float * float.
Variable np_mean : list float -> float.
(** [datetime.utcnow().isoformat()] at the time of the call. *)
Variable utcnow : string.

Variable cfg : Config.t.

(** [_classify_ndvi] receives a numpy scalar of the given dtype: the
    [float32] mean of a region, or the [float64] mean of a list. *)
Definition _classify_ndvi (dtype : np_dtype) (ndvi_value : float)
  : string * string :=
  if gt_threshold dtype ndvi_value (Config.NDVI_HEALTHY cfg)
  then ("Healthy", "#2ecc71")
  else if gt_threshold dtype ndvi_value (Config.NDVI_MODERATE cfg)
  then ("Moderate Stress", "#f39c12")
  else if gt_threshold dtype ndvi_value (Config.NDVI_SEVERE cfg)
  then ("Severe Stress", "#e74c3c")
  else ("Critical", "#8e44ad").

Definition _summarize_plots (plots : list plot) : summary :=
  match plots with
  | [] => SummaryEmpty 0
  | _ :: _ =>
      let classes := map health_class plots in
      let ndvi_values := map (fun p => mean (plot_ndvi_stats p)) plots in
      Summary (Z.of_nat (length plots))
              (count_class "Healthy" classes)
              (count_class "Moderate Stress" classes)
              (count_class "Severe Stress" classes)
              (count_class "Critical" classes)
              (np_mean ndvi_values)
              (fst (_classify_ndvi np_float64 (np_mean ndvi_values)))
  end.

(** The body of the loop [for region in regions] for a region that passes
    the area test. *)
Definition make_plot (tr : transform) (region : region) : plot :=
  let '(minr, minc, maxr, maxc) := bbox region in
  let geo_min := xy tr maxr minc in
  let geo_max := xy tr minr maxc in
  let mean_ndvi := mean_intensity region in
  let health_class := _classify_ndvi np_float32 mean_ndvi in
  {| id := label region;
     area_pixels := area region;
     plot_bbox_geo := {| south := snd geo_min; west := fst geo_min;
                         north := snd geo_max; east := fst geo_max |};
     centroid_pixel := (py_int (fst (centroid region)),
                        py_int (snd (centroid region)));
     plot_ndvi_stats := {| mean := mean_ndvi;
                           min := min_intensity region;
                           max := max_intensity region |};
     health_class := fst health_class;
     health_color := snd health_class;
     plot_eccentricity := eccentricity region;
     plot_solidity := solidity region |}.

(** [plots = []; for region in regions: if region.area < min_plot_area:
    continue; ...; plots.append(plot)] *)
Definition collect_plots (tr : transform) (min_plot_area : Z)
    (regions : list region) : list plot :=
  fold_left
    (fun plots region =>
       if area region <? min_plot_area then plots
       else plots ++ [make_plot tr region])
    regions [].

(** The first half of [segment_plots]: from the index raster to the labelled
    image and its regions. *)
Definition detect_regions (ndvi : array2 float) : array2 Z * list region :=
  (* Create vegetation mask (NDVI > threshold for any vegetation) *)
  let veg_mask :=
    map (map (fun v => if fgt v (F32.of_f64 (Config.NDVI_SEVERE cfg))
                       then 1 else 0)) ndvi in
  (* Morphological cleaning *)
  let selem := disk 3 in
  let cleaned := closing (opening veg_mask selem) selem in
  (* Label connected components *)
  let '(labeled, n_features) := ndimage_label cleaned in
  (* Extract region properties *)
  let regions := regionprops labeled ndvi in
  (labeled, regions).

(** [segment_plots] after the index raster [ndvi], its transform and its
    CRS have been read from [ndvi_path]. *)
Definition segment_plots (ndvi_path : string) (ndvi : array2 float)
    (tr : transform) (crs : string) (min_plot_area : Z) : segmentation_result :=
  let '(labeled, regions) := detect_regions ndvi in
  let plots := collect_plots tr min_plot_area regions in
  {| seg_timestamp := utcnow;
     seg_source_file := ndvi_path;
     seg_crs := crs;
     total_plots := Z.of_nat (length plots);
     plots := plots;
     seg_summary := _summarize_plots plots;
     segmentation_mask_shape :=
       [Z.of_nat (length labeled); Z.of_nat (length (hd [] labeled))] |}.

End Segmenter.

Definition feature_of_plot (plot : plot) : feature :=
  let bbox := plot_bbox_geo plot in
  (* Create a bounding box polygon *)
  let coords := [[
    [west bbox; south bbox];
    [east bbox; south bbox];
    [east bbox; north bbox];
    [west bbox; north bbox];
    [west bbox; south bbox]
  ]] in
  {| feature_type := "Feature";
     feature_geometry := {| geometry_type := "Polygon"; coordinates := coords |};
     feature_properties := {|
       plot_id := id plot;
       prop_health_class := health_class plot;
       prop_health_color := health_color plot;
       mean_ndvi := mean (plot_ndvi_stats plot);
       prop_area_pixels := area_pixels plot |} |}.

(** [features = []; for plot in segmentation_result.get("plots", []):
    ...; features.append(feature)] *)
Definition plots_to_geojson (segmentation_result : segmentation_result)
  : feature_collection :=
  let features :=
    fold_left (fun features plot => features ++ [feature_of_plot plot])
              (plots segmentation_result) [] in
  {| collection_type := "FeatureCollection"; features := features |}.

End Segmentation.

(* ===================================================================== *)
(** * data_ingestion/pipeline_scheduler.py and the [pipeline_runs] table   *)
(* ===================================================================== *)

Module PipelineScheduler.

(** One row of [pipeline_runs]; [None] is SQL [NULL]. *)
Record run_row := RunRow {
  start_time : string;
  end_time : option string;
  status : string;
  imagery_id : option Z;
  processing_time_s : option float;
  steps_completed : option string;
  error_message : option string;
}.

(** The table with its [AUTOINCREMENT] sequence. *)
Record runs_table := RunsTable {
  rows : gmap Z run_row;
  seq : Z;
}.

Record metadata := Metadata {
  file_path : string;
  source : string;
  meta_timestamp : string;
  meta_bbox : Segmentation.bbox_geo;
  meta_crs : string;
  bands : list string;
  size_px : Z;
}.

(** The dict returned by [calculate_ndvi]: the keys the orchestrator reads. *)
Record ndvi_output := NdviOutput {
  output_file : string;
  statistics : NdviCalculator.statistics;
}.

(** The dict returned to the caller. *)
Inductive run_result :=
| Completed (run_id : Z) (processing_time_s : float) (ndvi_mean : float)
            (overall_health : string) (plots_found : Z)
            (alerts : list HealthClassifier.alert)
| Failed (error : string) (run_id : Z).

Definition result_status (r : run_result) : string :=
  match r with
  | Completed _ _ _ _ _ _ => "completed"
  | Failed _ _ => "failed"
  end.

Section Orchestrator.

(** Everything outside the [pipeline_runs] table: the file system, the
    network, the clock and the other tables. *)
Variable world : Type.

Record state := State {
  st_world : world;
  pipeline_runs : runs_table;
}.

(** A computation that reads and writes the state and may raise; what it
    wrote before raising stays written. *)
Definition io (A : Type) : Type := state -> result A * state.

Definition io_ret {A} (a : A) : io A := fun s => (Ok a, s).
Definition io_bind {A B} (c : io A) (k : A -> io B) : io B :=
  fun s =>
    match c s with
    | (Ok a, s') => k a s'
    | (Raise e, s') => (Raise e, s')
    end.

(** [try: body except Exception as e: handler(e)] *)
Definition try_except {A} (body : io A) (handler : pyexn -> io A) : io A :=
  fun s =>
    match body s with
    | (Ok a, s') => (Ok a, s')
    | (Raise e, s') => handler e s'
    end.

(** A collaborator acts on the world only. *)
Definition lift {A} (f : world -> result A * world) : io A :=
  fun s =>
    let '(r, w) := f (st_world s) in
    (r, {| st_world := w; pipeline_runs := pipeline_runs s |}).

Definition read {A} (f : world -> A) : io A :=
  fun s => (Ok (f (st_world s)), s).

(** External collaborators. *)
Variable time_time : world -> float.
Variable utcnow : world -> string.
Variable FIELD_BBOX : Segmentation.bbox_geo.
Variable IMAGE_SIZE_PX : Z.
Variable fetch_sentinel_imagery : world -> result metadata * world.
Variable fetch_weather : world -> result HealthClassifier.weather * world.
Variable calculate_ndvi : string -> world -> result ndvi_output * world.
Variable ndvi_to_rgb : string -> world -> result string * world.
Variable create_rgb_composite : string -> world -> result string * world.
Variable classify_health :
  string -> HealthClassifier.weather ->
  world -> result HealthClassifier.classification * world.
Variable segment_plots :
  string -> world -> result Segmentation.segmentation_result * world.
Variable write_geojson :
  Segmentation.feature_collection -> world -> result unit * world.
Variable insert_imagery : metadata -> world -> result Z * world.
Variable insert_weather : HealthClassifier.weather -> world -> result Z * world.
Variable insert_ndvi_result : Z -> ndvi_output -> world -> result Z * world.
Variable insert_health_assessment :
  Z -> HealthClassifier.classification -> world -> result Z * world.
(** Python's [round(x, 1)]. *)
Variable round1 : float -> float.

(** [DatabaseManager.start_pipeline_run].  The table is modelled with its
    statements carried out: an [sqlite3] error of the [INSERT] here, or of
    the [UPDATE] of [complete_pipeline_run], is not part of the model, and
    what is proved of [run_pipeline] is about the calls in which the two
    statements are carried out. *)
Definition start_pipeline_run : io Z :=
  fun s =>
    let t := pipeline_runs s in
    let lastrowid := seq t + 1 in
    let row := {| start_time := utcnow (st_world s); end_time := None;
                  status := "running"; imagery_id := None;
                  processing_time_s := None; steps_completed := None;
                  error_message := None |} in
    (Ok lastrowid,
     {| st_world := st_world s;
        pipeline_runs := {| rows := <[lastrowid := row]> (rows t);
                            seq := lastrowid |} |}).

(** The truth value of a Python [str] or [None]. *)
Definition str_truthy (x : option string) : bool :=
  match x with
  | Some s => negb (String.eqb s "")
  | None => false
  end.

(** [DatabaseManager.complete_pipeline_run(run_id, imagery_id=None,
    processing_time=0, steps="", error=None)] *)
Definition complete_pipeline_run (run_id : Z) (imagery_id : option Z)
    (processing_time : float) (steps : string) (error : option string)
  : io unit :=
  fun s =>
    let status := if str_truthy error then "failed" else "completed" in
    let t := pipeline_runs s in
    let update row :=
      {| start_time := start_time row;
         end_time := Some (utcnow (st_world s));
         status := status;
         imagery_id := imagery_id;
         processing_time_s := Some processing_time;
         steps_completed := Some steps;
         error_message := error |} in
    (Ok (),
     {| st_world := st_world s;
        pipeline_runs := {| rows := alter update run_id (rows t);
                            seq := seq t |} |}).

#[local] Instance io_mret : MRet io := @io_ret.
#[local] Instance io_mbind : MBind io := fun A B k c => io_bind c k.

(** The body of the [try] block. *)
Definition pipeline_body (image_path : option string) (run_id : Z)
    (start_time : float) : io run_result :=
  (* Step 1: Ingest *)
  metadata ←
    match image_path with
    | Some path =>
        if String.eqb path "" then lift fetch_sentinel_imagery
        else
          now ← read utcnow;
          mret {| file_path := path; source := "upload";
                    meta_timestamp := now; meta_bbox := FIELD_BBOX;
                    meta_crs := "EPSG:4326";
                    bands := ["B02"; "B03"; "B04"; "B08"];
                    size_px := IMAGE_SIZE_PX |}
    | None => lift fetch_sentinel_imagery
    end;
  img_id ← lift (insert_imagery metadata);
  (* Step 2: Weather *)
  weather ← lift fetch_weather;
  _ ← lift (insert_weather weather);
  (* Step 3: NDVI *)
  ndvi_result ← lift (calculate_ndvi (file_path metadata));
  ndvi_id ← lift (insert_ndvi_result img_id ndvi_result);
  _ ← lift (ndvi_to_rgb (output_file ndvi_result));
  _ ← lift (create_rgb_composite (file_path metadata));
  (* Step 4: Classify & Segment *)
  classification ← lift (classify_health (output_file ndvi_result) weather);
  _ ← lift (insert_health_assessment ndvi_id classification);
  segmentation ← lift (segment_plots (output_file ndvi_result));
  let geojson := Segmentation.plots_to_geojson segmentation in
  _ ← lift (write_geojson geojson);
  (* Complete *)
  now ← read time_time;
  let elapsed := F64.sub now start_time in
  _ ← complete_pipeline_run run_id (Some img_id) elapsed
        "ingest,weather,ndvi,classify,segment" None;
  mret (Completed run_id (round1 elapsed)
            (NdviCalculator.stat_mean (statistics ndvi_result))
            (HealthClassifier.overall_health classification)
            (Segmentation.total_plots segmentation)
            (HealthClassifier.alerts classification)).

(** The [except Exception as e] handler. *)
Definition pipeline_handler (run_id : Z) (start_time : float) (e : pyexn)
  : io run_result :=
  now ← read time_time;
  let elapsed := F64.sub now start_time in
  _ ← complete_pipeline_run run_id None elapsed "" (Some (exn_str e));
  mret (Failed (exn_str e) run_id).

Definition run_pipeline (image_path : option string) : io run_result :=
  run_id ← start_pipeline_run;
  start_time ← read time_time;
  try_except (pipeline_body image_path run_id start_time)
             (pipeline_handler run_id start_time).

End Orchestrator.

End PipelineScheduler.

(* ===================================================================== *)
(** * processing/ndvi_calculator.py: the colour map                        *)
(* ===================================================================== *)

Module NdviToRgb.

Section Colormap.

Variable cfg : Config.t.

(** What [.astype(np.uint8)] makes of NaN, which the C conversion leaves to
    the platform. *)
Variable uint8_of_nan : Z.

(** [.astype(np.uint8)] of a [float32] of [[0, 255]]: truncation. *)
Definition astype_uint8 (x : float) : Z :=
  match x with
  | S754_nan => uint8_of_nan
  | _ => Segmentation.py_int x
  end.

(** The colour that [ndvi_to_rgb] gives to one pixel of the index raster
    read from the file: [rgb] starts as zeros and the four masks are applied
    one after the other.  The raster is a [float32] array, so the thresholds
    meet it as [float32] values and the blend is computed in [float32]; the
    divisor [NDVI_HEALTHY - NDVI_MODERATE + 1e-8] is a Python float. *)
Definition ndvi_to_rgb_pixel (v : float) : Z * Z * Z :=
  let rgb := (0, 0, 0) in
  (* Critical (purple) *)
  let rgb :=
    if fle v (NdviCalculator.T_severe cfg) then (142, 68, 173) else rgb in
  (* Severe stress (red-orange) *)
  let rgb :=
    if fgt v (NdviCalculator.T_severe cfg) && fle v (NdviCalculator.T_moderate cfg)
    then (231, 76, 60) else rgb in
  (* Moderate stress (yellow-orange) *)
  let rgb :=
    if fgt v (NdviCalculator.T_moderate cfg) && fle v (NdviCalculator.T_healthy cfg)
    then
      let t :=
        F32.div (F32.sub v (NdviCalculator.T_moderate cfg))
          (F32.of_f64
             (F64.add (F64.sub (Config.NDVI_HEALTHY cfg) (Config.NDVI_MODERATE cfg))
                (F64.lit 1 100000000))) in
      let blend a b :=
        astype_uint8
          (clip (F32.add (F32.mul (F32.of_Z a) (F32.sub (F32.of_Z 1) t))
                   (F32.mul (F32.of_Z b) t))
             (F32.of_Z 0) (F32.of_Z 255)) in
      (blend 243 46, blend 156 204, blend 18 113)
    else rgb in
  (* Healthy (green) *)
  let rgb :=
    if fgt v (NdviCalculator.T_healthy cfg) then (46, 204, 113) else rgb in
  rgb.

(** The image that [ndvi_to_rgb] saves, row by row. *)
Definition ndvi_to_rgb (ndvi : list (list float)) : list (list (Z * Z * Z)) :=
  map (map ndvi_to_rgb_pixel) ndvi.

End Colormap.

End NdviToRgb.

(* ===================================================================== *)
(** * data_ingestion/weather_fetcher.py: alerts and the live weather dict  *)
(* ===================================================================== *)

Module WeatherFetcher.

Record ag_alert := AgAlert {
  ag_type : string;
  category : string;
  message : string;
  severity : Z;
}.

(** The JSON document of an OpenWeatherMap response, as far as
    [_fetch_live_weather] reads it; [None] is an entry that the document
    does not have.  The entries that are there hold numbers, as the API
    gives them, and a string for the description. *)
Record owm_main := OwmMain {
  j_temp : option float;
  j_feels_like : option float;
  j_humidity : option float;
  j_pressure : option float;
}.

Record owm_wind := OwmWind {
  j_speed : option float;
  j_deg : option float;
}.

Record owm_json := OwmJson {
  j_main : option owm_main;
  j_wind : option owm_wind;
  j_clouds_all : option (option float);      (* ["clouds"], then ["all"] *)
  j_visibility : option float;
  j_weather : option (list (option string)); (* the ["description"] of each item *)
  j_rain_1h : option (option float);         (* ["rain"], then ["1h"] *)
}.

Record current_weather := CurrentWeather {
  temperature_c : float;
  feels_like_c : float;
  humidity_pct : float;
  pressure_hpa : float;
  wind_speed_ms : float;
  wind_direction_deg : float;
  cloud_cover_pct : float;
  visibility_m : float;
  uv_index : float;
  description : string;
}.

(** The weather dict that the fetcher returns. *)
Record weather_report := WeatherReport {
  timestamp : string;
  source : string;
  coordinates : float * float;          (* lat, lon *)
  current : current_weather;
  rain_mm : float;
  rain_probability_pct : float;
  soil_moisture : float;
  soil_temperature_c : float;
  agricultural_alerts : list ag_alert;
  dew_point_c : float;
}.

(** The weather dict as the classifier reads it: its dicts of numbers, among
    them ["current"] and ["soil"]. *)
Definition weather_dict (w : weather_report) : HealthClassifier.weather :=
  {[ "coordinates" := {[ "lat" := fst (coordinates w); "lon" := snd (coordinates w) ]};
     "current" :=
       {[ "temperature_c" := temperature_c (current w);
          "feels_like_c" := feels_like_c (current w);
          "humidity_pct" := humidity_pct (current w);
          "pressure_hpa" := pressure_hpa (current w);
          "wind_speed_ms" := wind_speed_ms (current w);
          "wind_direction_deg" := wind_direction_deg (current w);
          "cloud_cover_pct" := cloud_cover_pct (current w);
          "visibility_m" := visibility_m (current w);
          "uv_index" := uv_index (current w) ]};
     "precipitation" :=
       {[ "rain_mm" := rain_mm w;
          "rain_probability_pct" := rain_probability_pct w ]};
     "soil" :=
       {[ "moisture" := soil_moisture w;
          "temperature_c" := soil_temperature_c w ]} ]}.

Section Alerts.

(** Number formatting of the f-strings: [{:.1f}]. *)
Variable fmt_f1 : float -> string.

Definition _generate_ag_alerts (temp humidity soil_moisture wind : float)
  : list ag_alert :=
  let alerts := [] in
  let alerts :=
    if flt soil_moisture (F64.lit 15 100)
    then alerts ++ [ {|
      ag_type := "CRITICAL";
      category := "irrigation";
      message := "Critical soil moisture deficit — immediate irrigation recommended";
      severity := 5 |} ]
    else if flt soil_moisture (F64.lit 25 100)
    then alerts ++ [ {|
      ag_type := "WARNING";
      category := "irrigation";
      message := "Low soil moisture — schedule irrigation within 24 hours";
      severity := 3 |} ]
    else alerts in
  let alerts :=
    if flt temp (F64.of_Z 2)
    then alerts ++ [ {|
      ag_type := "CRITICAL";
      category := "frost";
      message := "Frost risk — temperature at " +:+ fmt_f1 temp +:+ "°C";
      severity := 5 |} ]
    else alerts in
  let alerts :=
    if fgt humidity (F64.of_Z 85) && fgt temp (F64.of_Z 15)
    then alerts ++ [ {|
      ag_type := "WARNING";
      category := "disease";
      message := "High humidity may promote fungal disease — monitor closely";
      severity := 3 |} ]
    else alerts in
  let alerts :=
    if fgt wind (F64.of_Z 10)
    then alerts ++ [ {|
      ag_type := "WARNING";
      category := "spray";
      message := "Wind speed " +:+ fmt_f1 wind
                 +:+ " m/s — unsuitable for pesticide application";
      severity := 2 |} ]
    else alerts in
  let alerts :=
    match alerts with
    | [] => alerts ++ [ {|
        ag_type := "INFO";
        category := "general";
        message := "Conditions favorable for crop growth";
        severity := 0 |} ]
    | _ :: _ => alerts
    end in
  alerts.

(** [d[key]] on a dict: [KeyError] for a key that is not there. *)
Definition getitem {A} (key : string) (entry : option A) : result A :=
  match entry with
  | Some a => Ok a
  | None => Raise (PyExn "KeyError" ("'" +:+ key +:+ "'"))
  end.

(** [l[0]] on a list: [IndexError] for the empty list. *)
Definition first_item {A} (l : list A) : result A :=
  match l with
  | a :: _ => Ok a
  | [] => Raise (PyExn "IndexError" "list index out of range")
  end.

(** The body of the [try] block of [_fetch_live_weather], from the document
    [data] of the response, at the time [now]. *)
Definition live_weather (now : string) (lat lon : float) (data : owm_json)
  : result weather_report :=
  main ← getitem "main" (j_main data);
  temp ← getitem "temp" (j_temp main);
  feels_like ← getitem "feels_like" (j_feels_like main);
  humidity ← getitem "humidity" (j_humidity main);
  pressure ← getitem "pressure" (j_pressure main);
  wind ← getitem "wind" (j_wind data);
  speed ← getitem "speed" (j_speed wind);
  clouds ← getitem "clouds" (j_clouds_all data);
  clouds_all ← getitem "all" clouds;
  items ← getitem "weather" (j_weather data);
  item ← first_item items;
  description ← getitem "description" item;
  let weather := {|
    timestamp := now;
    source := "openweathermap";
    coordinates := (lat, lon);
    current := {|
      temperature_c := temp;
      feels_like_c := feels_like;
      humidity_pct := humidity;
      pressure_hpa := pressure;
      wind_speed_ms := speed;
      wind_direction_deg := default (F64.of_Z 0) (j_deg wind);
      cloud_cover_pct := clouds_all;
      visibility_m := default (F64.of_Z 10000) (j_visibility data);
      uv_index := F64.of_Z 0;
      description := description |};
    rain_mm := default (F64.of_Z 0) (default None (j_rain_1h data));
    rain_probability_pct := F64.of_Z 0;
    soil_moisture := F64.lit 4 10;
    soil_temperature_c := F64.sub temp (F64.of_Z 3);
    agricultural_alerts := [];
    dew_point_c :=
      F64.sub temp (F64.div (F64.sub (F64.of_Z 100) humidity) (F64.of_Z 5)) |} in
  (* Generate alerts from real data *)
  mret {| timestamp := timestamp weather;
          source := source weather;
          coordinates := coordinates weather;
          current := current weather;
          rain_mm := rain_mm weather;
          rain_probability_pct := rain_probability_pct weather;
          soil_moisture := soil_moisture weather;
          soil_temperature_c := soil_temperature_c weather;
          agricultural_alerts :=
            _generate_ag_alerts
              (temperature_c (current weather)) (humidity_pct (current weather))
              (soil_moisture weather) (wind_speed_ms (current weather));
          dew_point_c := dew_point_c weather |}.

(** [_generate_synthetic_weather(lat, lon)] at the time of the call, with
    the random numbers it draws. *)
Variable _generate_synthetic_weather : float -> float -> weather_report.

(** [_fetch_live_weather(lat, lon)].  [response] is what [requests.get],
    [resp.raise_for_status()] and [resp.json()] give: the document, or the
    exception that one of the three raises. *)
Definition _fetch_live_weather (now : string) (lat lon : float)
    (response : result owm_json) : weather_report :=
  match data ← response; live_weather now lat lon data with
  | Ok weather => weather
  | Raise e =>
      (* falling back to synthetic *)
      _generate_synthetic_weather lat lon
  end.

End Alerts.

End WeatherFetcher.

(* ===================================================================== *)
(** * database/db_manager.py: the statistics of the [pipeline_runs] table  *)
(* ===================================================================== *)

Module DatabaseManager.

Import PipelineScheduler.

(** The dict returned by [get_pipeline_stats]. *)
Record pipeline_stats := PipelineStats {
  total_runs : Z;
  completed : Z;
  failed : Z;
  avg_processing_time_s : float;
  success_rate : float;
}.

(** The truth value of a Python [float]: false for the zeros only. *)
Definition float_truthy (x : float) : bool :=
  match x with
  | S754_zero _ => false
  | _ => true
  end.

(** The rows that [WHERE status='completed'] selects. *)
Definition completed_rows (t : runs_table) : gmap Z run_row :=
  filter (fun kv => status kv.2 = "completed") (rows t).

Section Stats.

(** SQLite's [AVG] of a column over the rows where it is not NULL, when
    there is such a row, and Python's [round(x, 2)] and [round(x, 1)]. *)
Variable sql_avg : list float -> float.
Variables round2 round1 : float -> float.

Definition get_pipeline_stats (t : runs_table) : pipeline_stats :=
  let total := Z.of_nat (size (rows t)) in
  let completed := Z.of_nat (size (completed_rows t)) in
  let avg_time :=
    match omap processing_time_s (map_to_list (completed_rows t)).*2 with
    | [] => None
    | x :: xs => Some (sql_avg (x :: xs))
    end in
  {| total_runs := total;
     completed := completed;
     failed := total - completed;
     avg_processing_time_s :=
       match avg_time with
       | Some a => if float_truthy a then round2 a else S754_zero false
       | None => S754_zero false
       end;
     success_rate :=
       if 0 <? total
       then round1 (F64.mul (HealthClassifier.int_div completed total) (F64.of_Z 100))
       else S754_zero false |}.

End Stats.

End DatabaseManager.

(* ===================================================================== *)
(** * Vocabulary of the properties                                         *)
(* ===================================================================== *)

(** A value of the closed interval [[-1, 1]]; NaN is not one. *)
Definition in_unit_range (v : float) : bool :=
  fle (F32.of_Z (-1)) v && fle v (F32.of_Z 1).

(** The recommendation added when no threshold rule fires. *)
Definition schedule_next_scan : HealthClassifier.recommendation :=
  {| HealthClassifier.priority := "MEDIUM";
     HealthClassifier.action := "Schedule Next Scan";
     HealthClassifier.detail := "Re-scan in 3-5 days to track vegetation trends." |}.

(** The [(priority, action)] pairs of a recommendation list. *)
Definition rec_labels (recs : list HealthClassifier.recommendation)
  : list (string * string) :=
  map (fun r => (HealthClassifier.priority r, HealthClassifier.action r)) recs.

(** The weather dict has no soil moisture, humidity and temperature entry. *)
Definition lacks_weather_keys (w : HealthClassifier.weather) : Prop :=
  default ∅ (w !! "soil") !! "moisture" = None
  /\ default ∅ (w !! "current") !! "humidity_pct" = None
  /\ default ∅ (w !! "current") !! "temperature_c" = None.

(** The regions that pass the area test of [segment_plots]. *)
Definition kept_regions (min_plot_area : Z) (regions : list Segmentation.region)
  : list Segmentation.region :=
  List.filter (fun r => min_plot_area <=? Segmentation.area r) regions.

(** A closed rectangular ring: five points, the corners of the bounding box
    from the south-west one counter-clockwise and back to it. *)
Definition is_bbox_ring (b : Segmentation.bbox_geo) (ring : list (list float)) : Prop :=
  ring = [ [Segmentation.west b; Segmentation.south b];
           [Segmentation.east b; Segmentation.south b];
           [Segmentation.east b; Segmentation.north b];
           [Segmentation.west b; Segmentation.north b];
           [Segmentation.west b; Segmentation.south b] ]
  /\ length ring = 5%nat
  /\ ring !! 0%nat = ring !! 4%nat.

(** The feature that stands for a plot. *)
Definition feature_matches (p : Segmentation.plot) (f : Segmentation.feature) : Prop :=
  Segmentation.feature_type f = "Feature"
  /\ Segmentation.geometry_type (Segmentation.feature_geometry f) = "Polygon"
  /\ (exists ring,
        Segmentation.coordinates (Segmentation.feature_geometry f) = [ring]
        /\ is_bbox_ring (Segmentation.plot_bbox_geo p) ring)
  /\ Segmentation.feature_properties f =
       {| Segmentation.plot_id := Segmentation.id p;
          Segmentation.prop_health_class := Segmentation.health_class p;
          Segmentation.prop_health_color := Segmentation.health_color p;
          Segmentation.mean_ndvi :=
            Segmentation.mean (Segmentation.plot_ndvi_stats p);
          Segmentation.prop_area_pixels := Segmentation.area_pixels p |}.

(** The row that the [except] handler of [run_pipeline] leaves for a run
    started at [start] whose step raised an exception with message [msg], as
    [complete_pipeline_run] writes it. *)
Definition handled_row (start finish : string) (elapsed : float) (msg : string)
  : PipelineScheduler.run_row :=
  {| PipelineScheduler.start_time := start;
     PipelineScheduler.end_time := Some finish;
     PipelineScheduler.status :=
       if String.eqb msg "" then "completed" else "failed";
     PipelineScheduler.imagery_id := None;
     PipelineScheduler.processing_time_s := Some elapsed;
     PipelineScheduler.steps_completed := Some "";
     PipelineScheduler.error_message := Some msg |}.

(** The number of health classes a value is counted in, for thresholds
    [ts], [tm], [th]. *)
Definition class_count (ts tm th v : float) : Z :=
  Z.b2z (fgt v th) + Z.b2z (fgt v tm && fle v th)
  + Z.b2z (fgt v ts && fle v tm) + Z.b2z (fle v ts).

(** A band sample that is not infinite: NaN, a zero or a finite binary32
    number (in canonical form, as every binary32 value is). *)
Definition not_infinite32 (x : float) : bool := negb (is_infinite x) && F32.valid x.

(** Every id of the table has been issued by its [AUTOINCREMENT] sequence. *)
Definition ids_issued (t : PipelineScheduler.runs_table) : Prop :=
  forall k, is_Some (PipelineScheduler.rows t !! k) -> k <= PipelineScheduler.seq t.

(** The row of a run that went through all its steps, as
    [complete_pipeline_run] writes it at the end of the [try] block. *)
Definition completed_row (start finish : string) (img : Z) (elapsed : float)
  : PipelineScheduler.run_row :=
  {| PipelineScheduler.start_time := start;
     PipelineScheduler.end_time := Some finish;
     PipelineScheduler.status := "completed";
     PipelineScheduler.imagery_id := Some img;
     PipelineScheduler.processing_time_s := Some elapsed;
     PipelineScheduler.steps_completed := Some "ingest,weather,ndvi,classify,segment";
     PipelineScheduler.error_message := None |}.

(** [x] is a binary32 rounding of the integer [K]: the zero for 0, otherwise
    a normal number of the sign of [K] whose magnitude is that of [K] within
    the relative error [2^-23]. *)
Definition rounded32 (K : Z) (x : float) : Prop :=
  match K with
  | Z0 => x = S754_zero false
  | _ =>
      exists m e,
        x = S754_finite (K <? 0) m e
        /\ Zdigits2 (Zpos m) = 24 /\ -23 <= e <= 2
        /\ (- inject_Z (Z.abs K)
            <= (inject_Z (Zpos m) * 2 ^ e - inject_Z (Z.abs K)) * (8388608 # 1)
            <= inject_Z (Z.abs K))%Q
  end.

(** The document of a response has the entries that [_fetch_live_weather]
    reads with [[...]]: [main.temp], [main.feels_like], [main.humidity],
    [main.pressure], [wind.speed], [clouds.all] and
    [weather[0].description]. *)
Definition has_required_entries (data : WeatherFetcher.owm_json) : bool :=
  match WeatherFetcher.j_main data, WeatherFetcher.j_wind data,
        WeatherFetcher.j_clouds_all data, WeatherFetcher.j_weather data with
  | Some main, Some wind, Some (Some _), Some (Some _ :: _) =>
      bool_decide (is_Some (WeatherFetcher.j_temp main))
      && bool_decide (is_Some (WeatherFetcher.j_feels_like main))
      && bool_decide (is_Some (WeatherFetcher.j_humidity main))
      && bool_decide (is_Some (WeatherFetcher.j_pressure main))
      && bool_decide (is_Some (WeatherFetcher.j_speed wind))
  | _, _, _, _ => false
  end.

(** ** Concrete collaborators for the worked examples *)

Module Example.

Definition fmt (x : float) : string := "".
Definition round1 (x : float) : float := x.
Definition utcnow : string := "2024-06-01T12:00:00".
Definition np_mean (a : list float) : float := hd (S754_zero false) a.
Definition np_std (a : list float) : float := S754_zero false.
Definition np_median (a : list float) : float := hd (S754_zero false) a.
Definition np_percentile (a : list float) (q : Z) : float := hd (S754_zero false) a.

(** A raster of five pixels: two healthy, one at the Healthy threshold, one
    with both bands 0 and one with more Red than NIR. *)
Definition five_pixels : NdviCalculator.bands :=
  {| NdviCalculator.red :=
       [F32.of_Z 1000; F32.of_Z 500; F32.of_Z 2000; F32.of_Z 0; F32.of_Z 3000];
     NdviCalculator.nir :=
       [F32.of_Z 9000; F32.of_Z 7000; F32.of_Z 8000; F32.of_Z 0; F32.of_Z 1000] |}.

(** A weather dict without soil moisture, humidity and temperature. *)
Definition weather_no_keys : HealthClassifier.weather :=
  {[ "current" := {[ "wind_speed_ms" := F64.of_Z 3 ]};
     "precipitation" := {[ "rain_mm" := F64.of_Z 0 ]} ]}.

Definition some_classification : HealthClassifier.classification :=
  {| HealthClassifier.timestamp := utcnow;
     HealthClassifier.source_file := "ndvi.tif";
     HealthClassifier.counts := HealthClassifier.PixelCounts 40 25 20 15 100;
     HealthClassifier.pcts :=
       HealthClassifier.Percentages (F64.of_Z 40) (F64.of_Z 25)
                                    (F64.of_Z 20) (F64.of_Z 15);
     HealthClassifier.overall :=
       HealthClassifier.OverallNdvi (F64.lit 4 10) (F64.lit 2 10)
                                    (F64.of_Z 0) (F64.lit 9 10);
     HealthClassifier.overall_health := "Poor";
     HealthClassifier.alerts := [];
     HealthClassifier.recommendations := [] |}.

(** Three labelled regions of 150, 40 and 100 pixels. *)
Definition region_of (label area : Z) : Segmentation.region :=
  {| Segmentation.label := label;
     Segmentation.area := area;
     Segmentation.bbox := (0, 0, 10, 15);
     Segmentation.centroid := (F64.of_Z 5, F64.of_Z 7);
     Segmentation.mean_intensity := F64.lit 5 10;
     Segmentation.min_intensity := F64.lit 2 10;
     Segmentation.max_intensity := F64.lit 8 10;
     Segmentation.eccentricity := F64.lit 5 10;
     Segmentation.solidity := F64.of_Z 1 |}.

Definition regions : list Segmentation.region :=
  [region_of 1 150; region_of 2 40; region_of 3 100].

Definition disk (r : Z) : unit := tt.
Definition morph (m : list (list Z)) (selem : unit) : list (list Z) := m.
Definition ndimage_label (m : list (list Z)) : list (list Z) * Z := (m, 3).
Definition regionprops (labeled : list (list Z)) (img : list (list float))
  : list Segmentation.region := regions.
Definition xy (tr : unit) (row col : Z) : float * float :=
  (F64.of_Z col, F64.of_Z row).

(** A world in which the weather service fails with an empty message. *)
Definition metadata : PipelineScheduler.metadata :=
  {| PipelineScheduler.file_path := "raw.tif";
     PipelineScheduler.source := "synthetic";
     PipelineScheduler.meta_timestamp := utcnow;
     PipelineScheduler.meta_bbox :=
       Segmentation.BboxGeo (F64.of_Z 41) (F64.of_Z (-94)) (F64.of_Z 42) (F64.of_Z (-93));
     PipelineScheduler.meta_crs := "EPSG:4326";
     PipelineScheduler.bands := ["B02"; "B03"; "B04"; "B08"];
     PipelineScheduler.size_px := 512 |}.

Definition clock (w : unit) : float := F64.of_Z 1700000000.
Definition now (w : unit) : string := utcnow.
Definition fetch_sentinel_imagery (w : unit)
  : result PipelineScheduler.metadata * unit := (Ok metadata, w).
Definition insert_row {A} (x : A) (w : unit) : result Z * unit := (Ok 1, w).
Definition fetch_weather (w : unit) : result HealthClassifier.weather * unit :=
  (Raise (PyExn "AssertionError" ""), w).
Definition unreached {A B} (x : A) (w : unit) : result B * unit :=
  (Raise (PyExn "RuntimeError" "not reached"), w).
Definition unreached2 {A B C} (x : A) (y : B) (w : unit) : result C * unit :=
  (Raise (PyExn "RuntimeError" "not reached"), w).

Definition empty_state : PipelineScheduler.state unit :=
  PipelineScheduler.State unit tt (PipelineScheduler.RunsTable ∅ 0).

Definition run_pipeline (image_path : option string)
  : PipelineScheduler.io unit PipelineScheduler.run_result :=
  PipelineScheduler.run_pipeline unit clock now (PipelineScheduler.meta_bbox metadata)
    512 fetch_sentinel_imagery fetch_weather unreached unreached unreached
    unreached2 unreached unreached insert_row insert_row unreached2 unreached2
    round1 image_path.

(** The index raster of [five_pixels]. *)
Definition five_indices : list float := NdviCalculator.compute_ndvi five_pixels.

Definition sql_avg (a : list float) : float := hd (S754_zero false) a.
Definition round2 (x : float) : float := x.

(** A dataset of four bands and five pixels, of dtype [uint16]. *)
Definition five_pixel_dataset : list (list NdviCalculator.sample) :=
  map (map NdviCalculator.IntSample)
    [ [300; 250; 400; 0; 900];
      [600; 500; 700; 0; 1100];
      [1000; 500; 2000; 0; 3000];
      [9000; 7000; 8000; 0; 1000] ].

(** A dataset of dtype [float64] whose one pixel holds [1e39], a finite
    number beyond the range of [float32], in every band. *)
Definition overflow_dataset : list (list NdviCalculator.sample) :=
  replicate 4 [NdviCalculator.FloatSample (F64.of_Z (10 ^ 39))].

(** Reading a band of a dataset held as the list of its bands. *)
Definition read_band (src : list (list NdviCalculator.sample)) (i : Z)
  : result (list NdviCalculator.sample) :=
  match src !! Z.to_nat (i - 1) with
  | Some band => Ok band
  | None => Raise (PyExn "IndexError" "band index out of range")
  end.

(** A file system in which every step succeeds and that holds the given
    dataset under every name. *)
Definition calculate_ndvi_file (src : list (list NdviCalculator.sample))
  : string -> option string -> unit -> result NdviCalculator.ndvi_dict * unit :=
  NdviCalculator.calculate_ndvi_file np_mean np_std
    np_median np_percentile Config.default unit
    (list (list NdviCalculator.sample)) unit
    (fun input => "ndvi_" +:+ input)
    (fun _ w => (Ok (), w))
    (fun _ _ => Ok src)
    read_band (fun _ => tt) (fun _ => "EPSG:4326")
    (fun _ _ _ _ w => (Ok (), w))
    (fun _ => utcnow).

(** A table with a completed run and a run that is still going on. *)
Definition busy_state : PipelineScheduler.state unit :=
  PipelineScheduler.State unit tt
    (PipelineScheduler.RunsTable
       (<[1 := completed_row "2024-05-31T12:00:00" "2024-05-31T12:00:09" 1 (F64.of_Z 9)]>
          (<[2 := {| PipelineScheduler.start_time := "2024-06-01T11:59:00";
                     PipelineScheduler.end_time := None;
                     PipelineScheduler.status := "running";
                     PipelineScheduler.imagery_id := None;
                     PipelineScheduler.processing_time_s := None;
                     PipelineScheduler.steps_completed := None;
                     PipelineScheduler.error_message := None |}]> ∅))
       2).

End Example.

(* ===================================================================== *)
(** * Properties                                                           *)
(* ===================================================================== *)

(** ** Order facts on IEEE values *)

Ltac cmp_cases :=
  repeat match goal with
  | H : context [Pos.compare_cont Eq ?a ?b] |- _ =>
      change (Pos.compare_cont Eq a b) with (a ?= b)%positive in H
  | |- context [Pos.compare_cont Eq ?a ?b] =>
      change (Pos.compare_cont Eq a b) with (a ?= b)%positive
  end;
  repeat match goal with
  | H : context [Z.compare ?a ?b] |- _ => destruct (Z.compare_spec a b); simpl in H
  | H : context [Pos.compare ?a ?b] |- _ => destruct (Pos.compare_spec a b); simpl in H
  | |- context [Z.compare ?a ?b] => destruct (Z.compare_spec a b); simpl
  | |- context [Pos.compare ?a ?b] => destruct (Pos.compare_spec a b); simpl
  end; try done; try lia.

Section FloatOrder.

Lemma SFcompare_refl (x : float) :
  is_nan x = false -> SFcompare x x = Some Eq.
Proof.
  destruct x as [[]|[]| |[] m e]; simpl; try done;
    rewrite Z.compare_refl, Pos.compare_cont_refl; done.
Qed.

Lemma SFcompare_total (x y : float) :
  is_nan x = false -> is_nan y = false -> is_Some (SFcompare x y).
Proof. destruct x, y; simpl; intros; try done; eauto. Qed.

Lemma SFcompare_antisym (x y : float) :
  SFcompare y x = CompOpp <$> SFcompare x y.
Proof.
  destruct x as [[]|[]| |[] m1 e1], y as [[]|[]| |[] m2 e2]; simpl; try done;
    change (Pos.compare_cont Eq m2 m1) with (m2 ?= m1)%positive;
    change (Pos.compare_cont Eq m1 m2) with (m1 ?= m2)%positive;
    rewrite (Z.compare_antisym e1 e2), (Pos.compare_antisym m1 m2);
    destruct (e1 ?= e2); simpl; try done;
    destruct (m1 ?= m2)%positive; done.
Qed.

Lemma fle_refl (x : float) : is_nan x = false -> fle x x = true.
Proof. intros H. unfold fle, SFleb. by rewrite SFcompare_refl. Qed.

Lemma flt_fle (x y : float) : flt x y = true -> fle x y = true.
Proof. unfold flt, fle, SFltb, SFleb. by destruct (SFcompare x y) as [[]|]. Qed.

Lemma fgt_fle (x y : float) : fgt x y = true -> fle y x = true.
Proof. apply flt_fle. Qed.

Lemma flt_not_nan (x y : float) :
  flt x y = true -> is_nan x = false /\ is_nan y = false.
Proof. unfold flt, SFltb. destruct x, y; simpl; done. Qed.

Lemma fle_not_nan (x y : float) :
  fle x y = true -> is_nan x = false /\ is_nan y = false.
Proof. unfold fle, SFleb. destruct x, y; simpl; done. Qed.

(** On numbers, [x > y] is the negation of [x <= y]. *)
Lemma fgt_negb_fle (x y : float) :
  is_nan x = false -> is_nan y = false -> fgt x y = negb (fle x y).
Proof.
  intros Hx Hy. unfold fgt, fle, SFltb, SFleb.
  rewrite (SFcompare_antisym x y).
  destruct (SFcompare_total x y Hx Hy) as [c ->]. by destruct c.
Qed.

Lemma not_flt_fle (x y : float) :
  is_nan x = false -> is_nan y = false -> flt x y = false -> fle y x = true.
Proof.
  intros Hx Hy H. change (flt x y) with (fgt y x) in H.
  rewrite (fgt_negb_fle y x Hy Hx) in H. by destruct (fle y x).
Qed.

Lemma fle_trans (x y z : float) :
  fle x y = true -> fle y z = true -> fle x z = true.
Proof.
  unfold fle, SFleb.
  destruct x as [[]|[]| |[] m1 e1], y as [[]|[]| |[] m2 e2], z as [[]|[]| |[] m3 e3];
    simpl; try done; intros H1 H2; cmp_cases.
Qed.

Lemma flt_fle_trans (x y z : float) :
  flt x y = true -> fle y z = true -> flt x z = true.
Proof.
  unfold flt, fle, SFleb, SFltb.
  destruct x as [[]|[]| |[] m1 e1], y as [[]|[]| |[] m2 e2], z as [[]|[]| |[] m3 e3];
    simpl; try done; intros H1 H2; cmp_cases.
Qed.

Lemma fle_flt_trans (x y z : float) :
  fle x y = true -> flt y z = true -> flt x z = true.
Proof.
  unfold flt, fle, SFleb, SFltb.
  destruct x as [[]|[]| |[] m1 e1], y as [[]|[]| |[] m2 e2], z as [[]|[]| |[] m3 e3];
    simpl; try done; intros H1 H2; cmp_cases.
Qed.

End FloatOrder.

(** ** Rounding to nearest in a binary format *)

Section Rounding.
Variables prec emax : Z.

Lemma iter_pos_nat {A} (f : A -> A) (p : positive) (x : A) :
  iter_pos f p x = Nat.iter (Pos.to_nat p) f x.
Proof.
  revert x. induction p as [p IH|p IH|]; intros x.
  - change (iter_pos f p~1 x) with (iter_pos f p (iter_pos f p (f x))).
    rewrite !IH, Pos2Nat.inj_xI.
    replace (S (2 * Pos.to_nat p)) with (Pos.to_nat p + (Pos.to_nat p + 1))%nat by lia.
    by rewrite !Nat.iter_add.
  - change (iter_pos f p~0 x) with (iter_pos f p (iter_pos f p x)).
    rewrite !IH, Pos2Nat.inj_xO.
    replace (2 * Pos.to_nat p)%nat with (Pos.to_nat p + Pos.to_nat p)%nat by lia.
    by rewrite !Nat.iter_add.
  - done.
Qed.

Lemma shr_1_m (mrs : shr_record) :
  0 <= shr_m mrs -> shr_m (shr_1 mrs) = shr_m mrs / 2.
Proof.
  destruct mrs as [[|[p|p|]|p] r s]; simpl; intros H; try done.
  - apply (Z.div_unique _ _ _ 1); lia.
  - apply (Z.div_unique _ _ _ 0); lia.
Qed.

Lemma shr_iter_m (k : nat) (mrs : shr_record) :
  0 <= shr_m mrs -> shr_m (Nat.iter k shr_1 mrs) = shr_m mrs / 2 ^ Z.of_nat k.
Proof.
  intros H. induction k as [|k IH].
  - simpl. by rewrite Z.div_1_r.
  - rewrite Nat2Z.inj_succ, Z.pow_succ_r by lia. simpl.
    rewrite shr_1_m, IH.
    + rewrite Z.div_div by lia. f_equal. lia.
    + rewrite IH. apply Z.div_pos; lia.
Qed.

Lemma shr_m_spec (mrs : shr_record) (e n : Z) :
  0 <= shr_m mrs ->
  shr_m (fst (shr mrs e n)) = shr_m mrs / 2 ^ Z.max 0 n
  /\ snd (shr mrs e n) = e + Z.max 0 n.
Proof.
  intros H. destruct n as [|p|p]; simpl.
  - by rewrite Z.div_1_r, Z.add_0_r.
  - rewrite iter_pos_nat, shr_iter_m, positive_nat_Z by done. done.
  - by rewrite Z.div_1_r, Z.add_0_r.
Qed.

Lemma Zdigits2_log2 (m : Z) : 0 < m -> Zdigits2 m = Z.log2 m + 1.
Proof.
  destruct m as [|p|p]; try done. intros _. simpl.
  assert (H : forall q, digits2_pos q = Pos.size q) by (induction q; simpl; congruence).
  rewrite H. destruct p; simpl; lia.
Qed.

Lemma round_nearest_even_bounds (m : Z) (l : location) :
  m <= round_nearest_even m l <= m + 1.
Proof. destruct l as [|[]]; simpl; try lia. destruct (Z.even m); lia. Qed.

Lemma shr_record_of_loc_m (m : Z) (l : location) : shr_m (shr_record_of_loc m l) = m.
Proof. by destruct l as [|[]]. Qed.

(** The shape of the result of [binary_round_aux]. *)
Lemma binary_round_aux_spec (s : bool) (m e : Z) (l : location) :
  0 <= m ->
  let e1 := e + Z.max 0 (fexp prec emax (Zdigits2 m + e) - e) in
  exists m',
    m / 2 ^ (e1 - e) <= m' <= m / 2 ^ (e1 - e) + 1
    /\ (e1 = e -> l = loc_Exact -> m' = m)
    /\ let e2 := e1 + Z.max 0 (fexp prec emax (Zdigits2 m' + e1) - e1) in
       binary_round_aux prec emax s m e l =
         match m' / 2 ^ (e2 - e1) with
         | Z0 => S754_zero s
         | Zpos p => if e2 <=? emax - prec then S754_finite s p e2 else S754_infinity s
         | Zneg _ => S754_nan
         end.
Proof.
  intros Hm. cbv zeta. unfold binary_round_aux, shr_fexp.
  set (n1 := fexp prec emax (Zdigits2 m + e) - e). clearbody n1.
  pose proof (shr_m_spec (shr_record_of_loc m l) e n1) as H1.
  rewrite shr_record_of_loc_m in H1. specialize (H1 Hm).
  assert (Hex : n1 <= 0 -> l = loc_Exact ->
                fst (shr (shr_record_of_loc m l) e n1) = Build_shr_record m false false).
  { intros Hn ->. by destruct n1. }
  destruct (shr (shr_record_of_loc m l) e n1) as [mrs' e'] eqn:E1.
  cbn [fst snd] in H1, Hex. destruct H1 as [H1m H1e].
  set (m' := round_nearest_even (shr_m mrs') (loc_of_shr_record mrs')).
  pose proof (round_nearest_even_bounds (shr_m mrs') (loc_of_shr_record mrs')) as Hb.
  fold m' in Hb.
  assert (0 <= m / 2 ^ Z.max 0 n1) by (apply Z.div_pos; lia).
  assert (Hm' : 0 <= m') by lia.
  pose proof (shr_m_spec (shr_record_of_loc m' loc_Exact) e'
                (fexp prec emax (Zdigits2 m' + e') - e')) as H2.
  cbn [shr_record_of_loc shr_m] in H2. specialize (H2 Hm').
  destruct (shr _ e' _) as [mrs'' e''] eqn:E2. cbn [fst snd] in H2.
  destruct H2 as [H2m H2e].
  exists m'. subst e'. split; [|split].
  - replace (e + Z.max 0 n1 - e) with (Z.max 0 n1) by lia. lia.
  - intros He1 ->. unfold m'. rewrite Hex; [done|lia|done].
  - rewrite H2m, H2e.
    replace (e + Z.max 0 n1 + Z.max 0 (fexp prec emax (Zdigits2 m' + (e + Z.max 0 n1)) - (e + Z.max 0 n1)) - (e + Z.max 0 n1))
      with (Z.max 0 (fexp prec emax (Zdigits2 m' + (e + Z.max 0 n1)) - (e + Z.max 0 n1))) by lia.
    done.
Qed.

Lemma binary_round_aux_not_nan (s : bool) (m e : Z) (l : location) :
  0 <= m -> binary_round_aux prec emax s m e l <> S754_nan.
Proof.
  intros Hm. destruct (binary_round_aux_spec s m e l Hm) as (m' & Hb & _ & ->).
  assert (0 <= m / 2 ^ (e + Z.max 0 (fexp prec emax (Zdigits2 m + e) - e) - e)) by (apply Z.div_pos; lia).
  assert (H' : 0 <= m') by lia.
  match goal with |- context [m' / ?d] => assert (0 <= m' / d) by (apply Z.div_pos; lia); destruct (m' / d) end; try done.
  by destruct (_ <=? _).
Qed.

Hypothesis Hprec : 0 < prec.
Hypothesis Hemax : prec < emax.

Lemma Zdigits2_nonneg (m : Z) : 0 <= Zdigits2 m.
Proof. by destruct m. Qed.

Lemma Zdigits2_lt_pow2 (m d : Z) : 0 <= m -> 0 <= d -> m < 2 ^ d -> Zdigits2 m <= d.
Proof.
  intros Hm Hd H. destruct (Z.eq_dec m 0) as [->|]; [done|].
  rewrite Zdigits2_log2 by lia. apply Z.log2_lt_pow2 in H; lia.
Qed.

Lemma Zdigits2_gt (m : Z) : 0 <= m -> m < 2 ^ Zdigits2 m.
Proof.
  intros Hm. destruct (Z.eq_dec m 0) as [->|]; [done|].
  rewrite Zdigits2_log2 by lia. apply Z.log2_spec. lia.
Qed.

Lemma Zdigits2_le_mono (a b : Z) : 0 <= a <= b -> Zdigits2 a <= Zdigits2 b.
Proof.
  intros H. apply Zdigits2_lt_pow2; [lia|apply Zdigits2_nonneg|].
  pose proof (Zdigits2_gt b). lia.
Qed.

Lemma Zdigits2_mul_pow2 (m k : Z) :
  0 < m -> 0 <= k -> Zdigits2 (m * 2 ^ k) = Zdigits2 m + k.
Proof.
  intros Hm Hk. rewrite !Zdigits2_log2 by nia.
  rewrite Z.log2_mul_pow2 by lia. lia.
Qed.

Lemma pos_iter_xO (m d : positive) : Zpos (Pos.iter xO m d) = Zpos m * 2 ^ Zpos d.
Proof.
  induction d as [|d IH] using Pos.peano_ind.
  - simpl. lia.
  - rewrite Pos.iter_succ, Pos2Z.inj_xO, IH, Pos2Z.inj_succ, Z.pow_succ_r by lia. lia.
Qed.

Lemma shl_align_spec (mx : positive) (ex ex' : Z) :
  let ez := Z.min ex ex' in
  snd (shl_align mx ex ex') = ez
  /\ Zpos (fst (shl_align mx ex ex')) = Zpos mx * 2 ^ (ex - ez).
Proof.
  cbv zeta. unfold shl_align. destruct (ex' - ex) as [|d|d] eqn:E; simpl.
  - replace (Z.min ex ex') with ex by lia. rewrite Z.sub_diag. lia.
  - replace (Z.min ex ex') with ex by lia. rewrite Z.sub_diag. lia.
  - replace (Z.min ex ex') with ex' by lia. rewrite pos_iter_xO.
    split; [done|]. f_equal. f_equal. lia.
Qed.

Lemma bounded_spec (m : positive) (e : Z) :
  bounded prec emax m e = true ->
  fexp prec emax (Zpos (digits2_pos m) + e) = e /\ e <= emax - prec
  /\ Zdigits2 (Zpos m) <= prec /\ Zdigits2 (Zpos m) + e <= emax.
Proof.
  unfold bounded, canonical_mantissa. intros [H1 H2]%andb_prop.
  apply Z.eqb_eq in H1. apply Z.leb_le in H2. unfold fexp in *. simpl. lia.
Qed.

(** A number strictly below a representable one does not overflow. *)
Lemma binary_round_no_overflow (s : bool) (M : positive) (ez : Z)
    (mc : positive) (ec : Z) :
  bounded prec emax mc ec = true -> ez <= ec ->
  Zpos M < Zpos mc * 2 ^ (ec - ez) ->
  (exists m e, binary_round prec emax s M ez = S754_finite s m e)
  \/ binary_round prec emax s M ez = S754_zero s.
Proof.
  intros (Hcan & Hec & Hdc & Hmagc)%bounded_spec Hez HM.
  unfold binary_round.
  pose proof (shl_align_spec M ez (fexp prec emax (Zpos (digits2_pos M) + ez))) as Hsh.
  cbv zeta in Hsh.
  destruct (shl_align M ez _) as [Mz ez'] eqn:Esh. cbn [fst snd] in Hsh. destruct Hsh as [Hez' HMz].
  change (Zpos (digits2_pos M)) with (Zdigits2 (Zpos M)) in *.
  set (mag := Zdigits2 (Zpos M) + ez) in *.
  assert (Hmagdef : mag = Zdigits2 (Zpos M) + ez) by done. clearbody mag.
  assert (Hmag : Zdigits2 (Zpos Mz) + ez' = mag).
  { rewrite HMz, Zdigits2_mul_pow2 by lia. lia. }
  assert (Hmagle : mag <= Zdigits2 (Zpos mc) + ec).
  { assert (Zdigits2 (Zpos M) <= Zdigits2 (Zpos mc * 2 ^ (ec - ez))) by (apply Zdigits2_le_mono; lia).
    rewrite Zdigits2_mul_pow2 in H by lia. lia. }
  destruct (binary_round_aux_spec s (Zpos Mz) ez' loc_Exact ltac:(lia)) as (m' & Hm' & _ & Hres).
  cbv zeta in Hres. rewrite Hres. clear Hres.
  rewrite Hmag in *.
  set (fe := fexp prec emax mag) in *.
  assert (Hfedef : fe = fexp prec emax mag) by done. clearbody fe.
  assert (Hfe : ez' <= fe) by lia.
  replace (ez' + Z.max 0 (fe - ez')) with fe in * by lia.
  assert (Hfe_emin : emin prec emax <= fe) by (unfold fexp in *; lia).
  assert (Hq : 0 <= Zpos Mz / 2 ^ (fe - ez')) by (apply Z.div_pos; lia).
  assert (He2 : fe + Z.max 0 (fexp prec emax (Zdigits2 m' + fe) - fe) <= emax - prec).
  { destruct (Z.eq_dec mag emax) as [Heq|Hne].
    - (* same binade as the bound: the quotient is below its mantissa *)
      assert (ec = emax - prec) by (unfold fexp, emin in *; lia).
      assert (Hfee : fe = emax - prec) by (unfold fexp, emin in *; lia).
      assert (Zpos Mz < Zpos mc * 2 ^ (fe - ez')).
      { rewrite HMz. replace (fe - ez') with ((ec - ez) + (ez - ez')) by lia.
        rewrite (Z.pow_add_r 2 (ec - ez) (ez - ez')) by lia.
        rewrite <- Hez'. assert (0 < 2 ^ (ez - ez')) by (apply Z.pow_pos_nonneg; lia). nia. }
      assert (Zpos Mz / 2 ^ (fe - ez') < Zpos mc) by (apply Z.div_lt_upper_bound; lia).
      assert (m' < 2 ^ prec).
      { pose proof (Zdigits2_gt (Zpos mc) ltac:(lia)).
        assert (2 ^ Zdigits2 (Zpos mc) <= 2 ^ prec) by (apply Z.pow_le_mono_r; lia). lia. }
      assert (Zdigits2 m' <= prec) by (apply Zdigits2_lt_pow2; lia).
      unfold fexp, emin in *. lia.
    - assert (Hfe' : fe <= emax - 1 - prec) by (unfold fexp, emin in *; lia).
      assert (Zpos Mz / 2 ^ (fe - ez') < 2 ^ prec).
      { apply Z.div_lt_upper_bound; [lia|].
        rewrite <- Z.pow_add_r by lia.
        pose proof (Zdigits2_gt (Zpos Mz) ltac:(lia)).
        assert (2 ^ Zdigits2 (Zpos Mz) <= 2 ^ (fe - ez' + prec)); [|lia].
        apply Z.pow_le_mono_r; [lia|]. unfold fexp in *. lia. }
      assert (Zdigits2 m' <= prec + 1).
      { apply Zdigits2_lt_pow2; [lia|lia|]. rewrite Z.pow_add_r by lia. lia. }
      unfold fexp, emin in *. lia. }
  match goal with |- context [m' / ?d] => assert (0 <= m' / d) by (apply Z.div_pos; lia); destruct (m' / d) as [|p|p] end; try done.
  - by right.
  - left. apply Z.leb_le in He2. rewrite He2. eauto.
Qed.

Lemma binary_round_not_nan (s : bool) (m : positive) (e : Z) :
  binary_round prec emax s m e <> S754_nan.
Proof.
  unfold binary_round. destruct (shl_align m e _) as [mz ez].
  by apply binary_round_aux_not_nan.
Qed.

Lemma binary_normalize_not_nan (m e : Z) (s : bool) :
  binary_normalize prec emax m e s <> S754_nan.
Proof. destruct m; simpl; [done|apply binary_round_not_nan..]. Qed.

Lemma binary_normalize_no_overflow (M ez : Z) (mc : positive) (ec : Z) (s : bool) :
  bounded prec emax mc ec = true -> ez <= ec ->
  Z.abs M < Zpos mc * 2 ^ (ec - ez) ->
  forall sg, binary_normalize prec emax M ez s <> S754_infinity sg.
Proof.
  intros Hb Hez HM sg. destruct M as [|p|p]; simpl; [done|..].
  - destruct (binary_round_no_overflow false p ez mc ec Hb Hez HM) as [(m & e & ->)| ->]; done.
  - destruct (binary_round_no_overflow true p ez mc ec Hb Hez HM) as [(m & e & ->)| ->]; done.
Qed.

Lemma SFdiv_finite_not_nan (sx : bool) (mx : positive) (ex : Z)
    (sy : bool) (my : positive) (ey : Z) :
  SFdiv prec emax (S754_finite sx mx ex) (S754_finite sy my ey) <> S754_nan.
Proof.
  simpl. unfold SFdiv_core_binary.
  set (m' := match _ - _ - _ with Z0 => _ | Zpos _ => _ | Zneg _ => _ end).
  assert (Hm' : 0 <= m').
  { unfold m'. destruct (_ - _ - _); [lia| |lia]. apply Z.shiftl_nonneg. lia. }
  pose proof (Z.div_pos m' (Zpos my) Hm' ltac:(lia)) as Hq. unfold Z.div in Hq.
  destruct (Z.div_eucl m' (Zpos my)) as [q r]. by apply binary_round_aux_not_nan.
Qed.

(** The sum and the difference of two finite numbers do not both overflow. *)
Lemma SFadd_SFsub_overflow (sx : bool) (mx : positive) (ex : Z)
    (sy : bool) (my : positive) (ey : Z) (s1 s2 : bool) :
  bounded prec emax mx ex = true -> bounded prec emax my ey = true ->
  SFadd prec emax (S754_finite sx mx ex) (S754_finite sy my ey) = S754_infinity s1 ->
  SFsub prec emax (S754_finite sx mx ex) (S754_finite sy my ey) <> S754_infinity s2.
Proof.
  intros Hx Hy. simpl.
  pose proof (shl_align_spec mx ex (Z.min ex ey)) as [_ Ha].
  pose proof (shl_align_spec my ey (Z.min ex ey)) as [_ Hb].
  rewrite Ha, Hb. clear Ha Hb.
  replace (Z.min ex (Z.min ex ey)) with (Z.min ex ey) by lia.
  replace (Z.min ey (Z.min ex ey)) with (Z.min ex ey) by lia.
  set (ez := Z.min ex ey). assert (Hez : ez <= ex /\ ez <= ey) by lia. clearbody ez.
  set (A := Zpos mx * 2 ^ (ex - ez)). set (B := Zpos my * 2 ^ (ey - ez)).
  assert (HA : 0 < A) by (unfold A; assert (0 < 2 ^ (ex - ez)) by (apply Z.pow_pos_nonneg; lia); nia).
  assert (HB : 0 < B) by (unfold B; assert (0 < 2 ^ (ey - ez)) by (apply Z.pow_pos_nonneg; lia); nia).
  assert (Hlow : forall M sz sg, Z.abs M < A \/ Z.abs M < B ->
            binary_normalize prec emax M ez sz <> S754_infinity sg).
  { intros M sz sg [H|H].
    - apply (binary_normalize_no_overflow M ez mx ex); [done|lia|done].
    - apply (binary_normalize_no_overflow M ez my ey); [done|lia|done]. }
  clearbody A B. intros Hadd.
  assert (Hlt : forall a b, 0 < a -> 0 < b -> Z.abs (a - b) < a \/ Z.abs (a - b) < b)
    by (intros a b ? ?; destruct (Z.le_ge_cases a b); [right|left]; lia).
  destruct sx, sy; simpl in *.
  - apply Hlow. replace (- A - - B) with (B - A) by lia. destruct (Hlt B A); auto.
  - exfalso. apply (Hlow (- A + B) false s1); [|done].
    replace (- A + B) with (B - A) by lia. destruct (Hlt B A); auto.
  - exfalso. apply (Hlow (A + - B) false s1); [|done].
    replace (A + - B) with (A - B) by lia. destruct (Hlt A B); auto.
  - apply Hlow. destruct (Hlt A B); auto.
Qed.

Lemma Zdigits2_ge (m : Z) : 0 < m -> 2 ^ (Zdigits2 m - 1) <= m.
Proof.
  intros Hm. rewrite Zdigits2_log2 by lia.
  replace (Z.log2 m + 1 - 1) with (Z.log2 m) by lia. apply Z.log2_spec. lia.
Qed.

Lemma Zdigits2_eq (m d : Z) : 0 < d -> 2 ^ (d - 1) <= m < 2 ^ d -> Zdigits2 m = d.
Proof.
  intros Hd [H1 H2].
  assert (0 < m) by (assert (0 < 2 ^ (d - 1)) by (apply Z.pow_pos_nonneg; lia); lia).
  rewrite Zdigits2_log2 by lia.
  assert (Z.log2 m = d - 1); [|lia]. apply Z.log2_unique; [lia|].
  replace (Z.succ (d - 1)) with d by lia. done.
Qed.

(** Rounding a number of the normal range: the result is a normal float
    one unit in the last place around the input at most. *)
Lemma binary_round_aux_normal (s : bool) (m e : Z) (l : location) :
  0 < m -> prec <= Zdigits2 m ->
  emin prec emax <= Zdigits2 m + e - prec -> Zdigits2 m + e < emax ->
  let n1 := Zdigits2 m - prec in
  let m1 := m / 2 ^ n1 in
  exists m2 e2,
    binary_round_aux prec emax s m e l = S754_finite s m2 e2
    /\ bounded prec emax m2 e2 = true
    /\ Zdigits2 (Zpos m2) = prec
    /\ e + n1 <= e2 <= e + n1 + 1
    /\ 2 ^ (prec - 1) <= m1
    /\ m1 * 2 ^ n1 <= Zpos m2 * 2 ^ (e2 - e) <= (m1 + 1) * 2 ^ n1
    /\ (n1 = 0 -> l = loc_Exact -> Zpos m2 = m /\ e2 = e).
Proof.
  intros Hm Hd Hmin Hmax. cbv zeta.
  set (d := Zdigits2 m) in *. assert (Hddef : d = Zdigits2 m) by done. clearbody d.
  set (n1 := d - prec). assert (Hn1 : n1 = d - prec) by done. clearbody n1.
  destruct (binary_round_aux_spec s m e l ltac:(lia)) as (m' & Hm' & Hexact & Hres).
  cbv zeta in Hres. rewrite Hres. clear Hres. rewrite <- Hddef in *.
  assert (Hfe : fexp prec emax (d + e) = e + n1) by (unfold fexp; lia).
  rewrite Hfe in *.
  replace (e + Z.max 0 (e + n1 - e)) with (e + n1) in * by lia.
  replace (e + n1 - e) with n1 in * by lia.
  assert (Hpown : 0 < 2 ^ n1) by (apply Z.pow_pos_nonneg; lia).
  assert (Hm1lo : 2 ^ (prec - 1) <= m / 2 ^ n1).
  { apply Z.div_le_lower_bound; [lia|]. rewrite <- Z.pow_add_r by lia.
    replace (n1 + (prec - 1)) with (d - 1) by lia. subst d. by apply Zdigits2_ge. }
  assert (Hm1hi : m / 2 ^ n1 < 2 ^ prec).
  { apply Z.div_lt_upper_bound; [lia|]. rewrite <- Z.pow_add_r by lia.
    replace (n1 + prec) with d by lia. subst d. apply Zdigits2_gt. lia. }
  assert (Hpp : 2 ^ prec = 2 * 2 ^ (prec - 1)).
  { rewrite <- Z.pow_succ_r by lia. f_equal. lia. }
  assert (Hp1 : 0 < 2 ^ (prec - 1)) by (apply Z.pow_pos_nonneg; lia).
  destruct (Z.eq_dec m' (2 ^ prec)) as [Heq|Hne].
  - (* the rounded mantissa carries into the next binade *)
    assert (Hd' : Zdigits2 m' = prec + 1).
    { apply Zdigits2_eq; [lia|]. replace (prec + 1 - 1) with prec by lia.
      rewrite Z.pow_add_r by lia. lia. }
    rewrite Hd'.
    assert (Hfe2 : fexp prec emax (prec + 1 + (e + n1)) = e + n1 + 1) by (unfold fexp; lia).
    rewrite Hfe2.
    replace (e + n1 + Z.max 0 (e + n1 + 1 - (e + n1))) with (e + n1 + 1) by lia.
    replace (e + n1 + 1 - (e + n1)) with 1 by lia.
    rewrite Heq, Hpp, Z.pow_1_r, Z.mul_comm, Z.div_mul by lia.
    destruct (2 ^ (prec - 1)) as [|p|p] eqn:Ep; try lia.
    assert (Hle : (e + n1 + 1 <=? emax - prec) = true) by (apply Z.leb_le; lia).
    rewrite Hle. exists p, (e + n1 + 1).
    assert (Hdp : Zdigits2 (Zpos p) = prec).
    { apply Zdigits2_eq; [lia|]. rewrite <- Ep, Hpp. lia. }
    split_and!; try done; try lia.
    + unfold bounded, canonical_mantissa.
      change (Zpos (digits2_pos p)) with (Zdigits2 (Zpos p)). rewrite Hdp.
      apply andb_true_intro. split; [apply Z.eqb_eq; unfold fexp; lia|done].
    + replace (e + n1 + 1 - e) with (n1 + 1) by lia.
      rewrite Z.pow_add_r, Z.pow_1_r by lia. nia.
    + replace (e + n1 + 1 - e) with (n1 + 1) by lia.
      rewrite Z.pow_add_r, Z.pow_1_r by lia. nia.
    + intros Hn0 Hl. rewrite Hn0, Z.add_0_r in Hexact.
      specialize (Hexact eq_refl Hl). rewrite Hn0, Z.pow_0_r, Z.div_1_r in Hm1hi. lia.
  - assert (Hd' : Zdigits2 m' = prec) by (apply Zdigits2_eq; lia).
    rewrite Hd'.
    assert (Hfe2 : fexp prec emax (prec + (e + n1)) = e + n1) by (unfold fexp; lia).
    rewrite Hfe2.
    replace (e + n1 + Z.max 0 (e + n1 - (e + n1))) with (e + n1) by lia.
    rewrite Z.sub_diag, Z.pow_0_r, Z.div_1_r.
    destruct m' as [|p|p] eqn:Ep; try lia.
    assert (Hle : (e + n1 <=? emax - prec) = true) by (apply Z.leb_le; lia).
    rewrite Hle. exists p, (e + n1).
    split_and!; try done; try lia.
    + unfold bounded, canonical_mantissa.
      change (Zpos (digits2_pos p)) with (Zdigits2 (Zpos p)). rewrite Hd'.
      apply andb_true_intro. split; [apply Z.eqb_eq; unfold fexp; lia|done].
    + replace (e + n1 - e) with n1 by lia. nia.
    + replace (e + n1 - e) with n1 by lia. nia.
    + intros Hn0 Hl. rewrite Hn0, Z.add_0_r in Hexact.
      specialize (Hexact eq_refl Hl). lia.
Qed.

(** The integer [k], when it fits the mantissa, is converted exactly. *)
Lemma binary_normalize_exact (k : Z) :
  0 < k < 2 ^ prec ->
  exists m e,
    binary_normalize prec emax k 0 false = S754_finite false m e
    /\ bounded prec emax m e = true
    /\ Zdigits2 (Zpos m) = prec
    /\ e = Zdigits2 k - prec
    /\ Zpos m = k * 2 ^ (- e).
Proof.
  intros [Hk0 Hk]. destruct k as [|p|p]; try lia. simpl. unfold binary_round.
  change (Zpos (digits2_pos p)) with (Zdigits2 (Zpos p)).
  set (d := Zdigits2 (Zpos p)). assert (Hd : d = Zdigits2 (Zpos p)) by done. clearbody d.
  assert (Hd1 : 1 <= d <= prec).
  { split.
    - subst d. simpl. lia.
    - subst d. apply Zdigits2_lt_pow2; lia. }
  assert (Hfe : fexp prec emax (d + 0) = d - prec) by (unfold fexp, emin; lia).
  rewrite Hfe.
  pose proof (shl_align_spec p 0 (d - prec)) as Hsh. cbv zeta in Hsh.
  destruct (shl_align p 0 (d - prec)) as [Mz ez'] eqn:Esh. cbn [fst snd] in Hsh.
  destruct Hsh as [Hez' HMz].
  replace (Z.min 0 (d - prec)) with (d - prec) in * by lia. subst ez'.
  replace (0 - (d - prec)) with (prec - d) in HMz by lia.
  assert (HdMz : Zdigits2 (Zpos Mz) = prec).
  { rewrite HMz, Zdigits2_mul_pow2 by lia. lia. }
  destruct (binary_round_aux_normal false (Zpos Mz) (d - prec) loc_Exact)
    as (m2 & e2 & Hres & Hb & Hdig & He2 & _ & _ & Hexact); try lia.
  { rewrite HdMz. unfold emin. lia. }
  rewrite HdMz, Z.sub_diag in Hexact. destruct (Hexact eq_refl eq_refl) as [Hm2 He2'].
  exists m2, e2. split_and!; try done; try lia.
  rewrite Hm2, HMz, He2'. f_equal. f_equal. lia.
Qed.

Lemma normal_mantissa (m : positive) :
  Zdigits2 (Zpos m) = prec -> 2 ^ (prec - 1) <= Zpos m < 2 ^ prec.
Proof.
  intros H. split.
  - rewrite <- H. by apply Zdigits2_ge.
  - rewrite <- H. by apply Zdigits2_gt.
Qed.

(** Product of two positive normal numbers, away from overflow and
    underflow: the result is within one unit in the last place. *)
Lemma SFmul_normal (mx : positive) (ex : Z) (my : positive) (ey : Z) :
  Zdigits2 (Zpos mx) = prec -> Zdigits2 (Zpos my) = prec ->
  emin prec emax <= ex + ey + prec - 1 -> ex + ey + 2 * prec < emax ->
  exists m2 e2,
    SFmul prec emax (S754_finite false mx ex) (S754_finite false my ey)
      = S754_finite false m2 e2
    /\ bounded prec emax m2 e2 = true
    /\ Zdigits2 (Zpos m2) = prec
    /\ ex + ey + prec - 1 <= e2 <= ex + ey + prec + 1
    /\ Z.abs (Zpos m2 * 2 ^ (e2 - (ex + ey)) - Zpos mx * Zpos my) * 2 ^ (prec - 1)
       <= Zpos mx * Zpos my.
Proof.
  intros Hdx Hdy Hmin Hmax. simpl.
  apply normal_mantissa in Hdx as [Hx1 Hx2]. apply normal_mantissa in Hdy as [Hy1 Hy2].
  change (Zpos (mx * my)) with (Zpos mx * Zpos my).
  set (m := Zpos mx * Zpos my). assert (Hmdef : m = Zpos mx * Zpos my) by done. clearbody m.
  assert (Hp1 : 0 < 2 ^ (prec - 1)) by (apply Z.pow_pos_nonneg; lia).
  assert (Hpp : 2 ^ prec = 2 * 2 ^ (prec - 1)).
  { rewrite <- Z.pow_succ_r by lia. f_equal. lia. }
  assert (Hm1 : 2 ^ (2 * prec - 2) <= m).
  { replace (2 * prec - 2) with ((prec - 1) + (prec - 1)) by lia.
    rewrite Z.pow_add_r by lia. nia. }
  assert (Hm2 : m < 2 ^ (2 * prec)).
  { replace (2 * prec) with (prec + prec) by lia. rewrite Z.pow_add_r by lia. nia. }
  assert (Hm0 : 0 < m) by nia.
  assert (Hd : 2 * prec - 1 <= Zdigits2 m <= 2 * prec).
  { split.
    - rewrite Zdigits2_log2 by lia.
      assert (2 * prec - 2 <= Z.log2 m); [|lia]. apply Z.log2_le_pow2; lia.
    - apply Zdigits2_lt_pow2; lia. }
  destruct (binary_round_aux_normal false m (ex + ey) loc_Exact)
    as (m2 & e2 & Hres & Hb & Hdig & He2 & Hlo & Hbr & _); try lia.
  exists m2, e2. split_and!; try done; try lia.
  set (n1 := Zdigits2 m - prec) in *. assert (0 <= n1) by lia. clearbody n1.
  assert (HN : 0 < 2 ^ n1) by (apply Z.pow_pos_nonneg; lia).
  pose proof (Z.div_mod m (2 ^ n1) ltac:(lia)) as Hdm.
  pose proof (Z.mod_pos_bound m (2 ^ n1) HN) as Hmod.
  set (m1 := m / 2 ^ n1) in *. clearbody m1.
  set (R := Zpos m2 * 2 ^ (e2 - (ex + ey))) in *. clearbody R.
  set (N := 2 ^ n1) in *. clearbody N. set (P := 2 ^ (prec - 1)) in *. clearbody P.
  nia.
Qed.

Lemma shiftl_match (m z : Z) :
  0 < z ->
  match z with
  | Z0 => m
  | Zpos _ => Z.shiftl m z
  | Zneg _ => 0
  end = m * 2 ^ z.
Proof. intros Hz. destruct z; try lia. by rewrite Z.shiftl_mul_pow2. Qed.

(** Quotient of two positive normal numbers, away from overflow and
    underflow: the result is within one unit in the last place. *)
Lemma SFdiv_normal (mx : positive) (ex : Z) (my : positive) (ey : Z) :
  Zdigits2 (Zpos mx) = prec -> Zdigits2 (Zpos my) = prec ->
  emin prec emax <= ex - ey - prec -> ex - ey + 1 < emax ->
  exists m2 e2,
    SFdiv prec emax (S754_finite false mx ex) (S754_finite false my ey)
      = S754_finite false m2 e2
    /\ bounded prec emax m2 e2 = true
    /\ Zdigits2 (Zpos m2) = prec
    /\ ex - ey - prec <= e2 <= ex - ey - prec + 2
    /\ Z.abs (Zpos m2 * 2 ^ (e2 - (ex - ey - prec)) * Zpos my - Zpos mx * 2 ^ prec)
         * 2 ^ (prec - 1)
       <= Zpos mx * 2 ^ prec.
Proof.
  intros Hdx Hdy Hmin Hmax. simpl. unfold SFdiv_core_binary.
  change (Zpos (digits2_pos mx)) with (Zdigits2 (Zpos mx)).
  change (Zpos (digits2_pos my)) with (Zdigits2 (Zpos my)).
  rewrite Hdx, Hdy.
  apply normal_mantissa in Hdx as [Hx1 Hx2]. apply normal_mantissa in Hdy as [Hy1 Hy2].
  replace (prec + ex - (prec + ey)) with (ex - ey) by lia.
  assert (Hfe : fexp prec emax (ex - ey) = ex - ey - prec) by (unfold fexp; lia).
  rewrite Hfe.
  replace (Z.min (ex - ey - prec) (ex - ey)) with (ex - ey - prec) by lia.
  replace (ex - ey - (ex - ey - prec)) with prec by lia.
  rewrite shiftl_match by lia.
  set (A := Zpos mx * 2 ^ prec). assert (HA : A = Zpos mx * 2 ^ prec) by done. clearbody A.
  assert (Hp1 : 0 < 2 ^ (prec - 1)) by (apply Z.pow_pos_nonneg; lia).
  assert (Hpp : 2 ^ prec = 2 * 2 ^ (prec - 1)).
  { rewrite <- Z.pow_succ_r by lia. f_equal. lia. }
  pose proof (Z.div_mod A (Zpos my) ltac:(lia)) as Hdm.
  pose proof (Z.mod_pos_bound A (Zpos my) ltac:(lia)) as Hmod.
  unfold Z.div, Z.modulo in Hdm, Hmod.
  destruct (Z.div_eucl A (Zpos my)) as [q r].
  assert (Hq1 : 2 ^ (prec - 1) <= q) by nia.
  assert (Hq2 : q < 2 ^ (prec + 1)).
  { rewrite Z.pow_add_r, Z.pow_1_r by lia. nia. }
  assert (Hd : prec <= Zdigits2 q <= prec + 1).
  { split.
    - rewrite Zdigits2_log2 by lia.
      assert (prec - 1 <= Z.log2 q); [|lia]. apply Z.log2_le_pow2; lia.
    - apply Zdigits2_lt_pow2; lia. }
  destruct (binary_round_aux_normal false q (ex - ey - prec) (new_location (Zpos my) r))
    as (m2 & e2 & Hres & Hb & Hdig & He2 & Hlo & Hbr & _); try lia.
  exists m2, e2. split_and!; try done; try lia.
  set (n1 := Zdigits2 q - prec) in *. assert (0 <= n1) by lia. clearbody n1.
  assert (HN : 0 < 2 ^ n1) by (apply Z.pow_pos_nonneg; lia).
  pose proof (Z.div_mod q (2 ^ n1) ltac:(lia)) as Hdq.
  pose proof (Z.mod_pos_bound q (2 ^ n1) HN) as Hmodq.
  set (m1 := q / 2 ^ n1) in *. clearbody m1.
  set (R := Zpos m2 * 2 ^ (e2 - (ex - ey - prec))) in *. clearbody R.
  set (N := 2 ^ n1) in *. clearbody N. set (P := 2 ^ (prec - 1)) in *. clearbody P.
  set (t := q mod N) in *. clearbody t.
  assert (H1 : R * Zpos my - A <= N * Zpos my) by nia.
  assert (H2 : A - R * Zpos my <= N * Zpos my) by nia.
  assert (H3 : N * Zpos my * P <= A) by nia.
  assert (H4 : Z.abs (R * Zpos my - A) <= N * Zpos my) by lia.
  nia.
Qed.

End Rounding.

(** ** The numbers behind binary64 values *)

Section Values.

Lemma pow2_pos (z : Z) : (0 < 2 ^ z)%Q.
Proof. by apply Qpower_0_lt. Qed.

Lemma pow2_add (a b : Z) : (2 ^ (a + b) == 2 ^ a * 2 ^ b)%Q.
Proof. by apply Qpower_plus. Qed.

Lemma pow2_inject (z : Z) : 0 <= z -> (inject_Z (2 ^ z) == 2 ^ z)%Q.
Proof. intros. by rewrite Zpower_Qpower. Qed.

Lemma F2Q_scaled (m : positive) (e e0 : Z) :
  e0 <= e ->
  (F2Q (S754_finite false m e) == inject_Z (Zpos m * 2 ^ (e - e0)) * 2 ^ e0)%Q.
Proof.
  intros H. simpl. rewrite inject_Z_mult, pow2_inject by lia.
  rewrite <- Qmult_assoc, <- pow2_add. by replace (e - e0 + e0) with e by lia.
Qed.

Lemma F2Q_exact (m : positive) (e k : Z) :
  e <= 0 -> Zpos m = k * 2 ^ (- e) ->
  (F2Q (S754_finite false m e) == inject_Z k)%Q.
Proof.
  intros He Hm. simpl. rewrite Hm, inject_Z_mult, pow2_inject by lia.
  rewrite <- Qmult_assoc, <- pow2_add. replace (- e + e) with 0 by lia.
  simpl. ring.
Qed.

Lemma scale_error (X Y U : Z) (c : Q) :
  (0 <= c)%Q -> 0 <= U -> Z.abs (X - Y) * U <= Y ->
  (- (inject_Z Y * c) <= (inject_Z X * c - inject_Z Y * c) * inject_Z U
   <= inject_Z Y * c)%Q.
Proof.
  intros Hc HU H.
  assert (H1 : - Y <= (X - Y) * U) by nia.
  assert (H2 : (X - Y) * U <= Y) by nia.
  rewrite Zle_Qle in H1, H2.
  unfold Z.sub in H1, H2.
  rewrite inject_Z_opp, inject_Z_mult, inject_Z_plus, inject_Z_opp in H1.
  rewrite inject_Z_mult, inject_Z_plus, inject_Z_opp in H2.
  set (x := inject_Z X) in *. set (y := inject_Z Y) in *. set (u := inject_Z U) in *.
  clearbody x y u. split; nra.
Qed.

Lemma Zdigits2_pos (k : Z) : 0 < k -> 1 <= Zdigits2 k.
Proof. destruct k; simpl; lia. Qed.

Lemma of_Z_exact (k : Z) :
  0 < k < 2 ^ 53 ->
  exists m e,
    binary_normalize 53 1024 k 0 false = S754_finite false m e
    /\ Zdigits2 (Zpos m) = 53 /\ -52 <= e <= 0
    /\ (inject_Z (Zpos m) * 2 ^ e == inject_Z k)%Q.
Proof.
  intros Hk.
  destruct (binary_normalize_exact 53 1024 ltac:(lia) ltac:(lia) k Hk)
    as (m & e & E & _ & Hd & He & Hm).
  pose proof (Zdigits2_pos k ltac:(lia)).
  pose proof (Zdigits2_lt_pow2 k 53 ltac:(lia) ltac:(lia) ltac:(lia)).
  exists m, e. split_and!; try done; try lia.
  apply (F2Q_exact m e k); [lia|done].
Qed.

Lemma pct_value (k n : Z) :
  0 < k < 2 ^ 53 -> 0 < n < 2 ^ 53 ->
  exists m e,
    NdviCalculator.pct_of k n = S754_finite false m e
    /\ let t := (inject_Z k / inject_Z n)%Q in
       (- (300 * t)
        <= (F2Q (NdviCalculator.pct_of k n) - 100 * t) * (4503599627370496 # 1)
        <= 300 * t)%Q.
Proof.
  intros Hk Hn.
  unfold NdviCalculator.pct_of, F64.mul, F64.div, F64.of_Z, F64.prec, F64.emax.
  destruct (of_Z_exact k Hk) as (mk & ek & -> & Hdk & Hek & Qk).
  destruct (of_Z_exact n Hn) as (mn & en & -> & Hdn & Hen & Qn).
  destruct (of_Z_exact 100 ltac:(split; reflexivity)) as (mh & eh & -> & Hdh & Heh & Qh).
  destruct (SFdiv_normal 53 1024 ltac:(lia) mk ek mn en Hdk Hdn)
    as (m1 & e1 & -> & _ & Hd1 & He1 & I1); [unfold emin; lia|lia|].
  destruct (SFmul_normal 53 1024 ltac:(lia) m1 e1 mh eh Hd1 Hdh)
    as (m2 & e2 & E2 & _ & Hd2 & He2 & I2); [unfold emin; lia|lia|].
  rewrite E2. exists m2, e2. split; [done|]. cbv zeta.
  set (t := (inject_Z k / inject_Z n)%Q).
  set (a := F2Q (S754_finite false m1 e1)).
  set (b := F2Q (S754_finite false m2 e2)).
  assert (Hmn : ~ (inject_Z (Zpos mn) == 0)%Q) by (intros H; discriminate H).
  assert (Hpn : (0 < 2 ^ en)%Q) by apply pow2_pos.
  assert (Hpe : (0 < 2 ^ (ek - en - 53))%Q) by apply pow2_pos.
  assert (Hn0 : ~ (inject_Z n == 0)%Q).
  { rewrite <- Qn. intros H. apply Qmult_integral in H as [H|H]; [done|lra]. }
  (* the quotient *)
  set (c1 := (2 ^ (ek - en - 53) / inject_Z (Zpos mn))%Q).
  assert (Hc1 : (0 <= c1)%Q).
  { unfold c1. apply Qlt_le_weak, Qlt_shift_div_l; [reflexivity|lra]. }
  assert (Ha : (inject_Z (Zpos m1 * 2 ^ (e1 - (ek - en - 53)) * Zpos mn) * c1 == a)%Q).
  { unfold a, c1. rewrite (F2Q_scaled m1 e1 (ek - en - 53)) by lia.
    rewrite (inject_Z_mult _ (Zpos mn)). field. done. }
  assert (Ht : (inject_Z (Zpos mk * 2 ^ 53) * c1 == t)%Q).
  { unfold t, c1. rewrite <- Qk, <- Qn, inject_Z_mult, (pow2_inject 53) by lia.
    assert (Hs : (2 ^ ek == 2 ^ (ek - en - 53) * 2 ^ 53 * 2 ^ en)%Q).
    { rewrite <- !pow2_add. by replace (ek - en - 53 + 53 + en) with ek by lia. }
    rewrite Hs. field. split; [lra|done]. }
  pose proof (scale_error _ _ (2 ^ 52) c1 Hc1 ltac:(lia) I1) as S1.
  rewrite Ha, Ht in S1.
  (* the product by 100 *)
  set (c2 := (2 ^ (e1 + eh))%Q).
  assert (Hc2 : (0 <= c2)%Q) by apply Qlt_le_weak, pow2_pos.
  assert (Hb : (inject_Z (Zpos m2 * 2 ^ (e2 - (e1 + eh))) * c2 == b)%Q).
  { unfold b, c2. by rewrite (F2Q_scaled m2 e2 (e1 + eh)) by lia. }
  assert (Ha100 : (inject_Z (Zpos m1 * Zpos mh) * c2 == 100 * a)%Q).
  { unfold a, c2. simpl F2Q. rewrite inject_Z_mult, pow2_add.
    change (100 : Q) with (inject_Z 100). rewrite <- Qh. ring. }
  pose proof (scale_error _ _ (2 ^ 52) c2 Hc2 ltac:(lia) I2) as S2.
  rewrite Hb, Ha100 in S2.
  change (inject_Z (2 ^ 52)) with (4503599627370496 # 1)%Q in S1, S2.
  clearbody a b t. clear -S1 S2.
  destruct S1 as [S1a S1b], S2 as [S2a S2b].
  assert (Ht0 : (0 <= t)%Q) by lra.
  split; lra.
Qed.

End Values.

(** ** Index computation *)

Section IndexRange.

Import NdviCalculator.

Lemma clip_nan (lo hi : float) : clip S754_nan lo hi = S754_nan.
Proof. reflexivity. Qed.

Lemma clip_range (x lo hi : float) :
  is_nan x = false -> fle lo hi = true ->
  fle lo (clip x lo hi) = true /\ fle (clip x lo hi) hi = true.
Proof.
  intros Hx Hlh. destruct (fle_not_nan _ _ Hlh) as [Hlo Hhi].
  unfold clip, npy_max. rewrite Hx.
  destruct (fgt x lo) eqn:Hg; unfold npy_min.
  - rewrite Hx. destruct (flt x hi) eqn:Hl.
    + split; [by apply fgt_fle | by apply flt_fle].
    + split; [done | by apply fle_refl].
  - rewrite Hlo. destruct (flt lo hi) eqn:Hl.
    + split; [by apply fle_refl | done].
    + split; [done | by apply fle_refl].
Qed.

Lemma clip_is_nan (x lo hi : float) :
  fle lo hi = true -> is_nan (clip x lo hi) = is_nan x.
Proof.
  intros Hlh. destruct (is_nan x) eqn:Hx.
  - destruct x; try done.
  - destruct (clip_range x lo hi Hx Hlh) as [H _].
    by destruct (fle_not_nan _ _ H).
Qed.

Lemma ndvi_pixel_nan_or_range (nir red : float) :
  is_nan (ndvi_pixel nir red) = true \/ in_unit_range (ndvi_pixel nir red) = true.
Proof.
  unfold ndvi_pixel, in_unit_range.
  destruct (is_nan (ndvi_raw nir red)) eqn:Hn.
  - left. by rewrite clip_is_nan.
  - right. by destruct (clip_range (ndvi_raw nir red) (F32.of_Z (-1)) (F32.of_Z 1) Hn eq_refl)
      as [-> ->].
Qed.

Lemma ndvi_pixel_range_iff (nir red : float) :
  in_unit_range (ndvi_pixel nir red) = negb (is_nan (ndvi_raw nir red)).
Proof.
  unfold ndvi_pixel, in_unit_range.
  destruct (is_nan (ndvi_raw nir red)) eqn:Hn.
  - destruct (ndvi_raw nir red); done.
  - by destruct (clip_range (ndvi_raw nir red) (F32.of_Z (-1)) (F32.of_Z 1) Hn eq_refl)
      as [-> ->].
Qed.

Lemma in_unit_range_gt_nodata (v : float) :
  in_unit_range v = true -> fgt v NODATA = true.
Proof.
  unfold in_unit_range. intros [H1 _]%andb_prop.
  by apply (flt_fle_trans NODATA (F32.of_Z (-1)) v).
Qed.

Lemma gt_nodata_not_nodata (v : float) : fgt v NODATA = true -> v <> NODATA.
Proof. by intros H ->. Qed.

Lemma elem_of_compute_ndvi (b : bands) (v : float) :
  v ∈ compute_ndvi b -> exists n r, n ∈ nir b /\ r ∈ red b /\ v = ndvi_pixel n r.
Proof.
  unfold compute_ndvi. intros (n & r & -> & Hn & Hr)%elem_of_zip_with. eauto.
Qed.

Lemma elem_of_valid_pixels (ndvi : list float) (v : float) :
  v ∈ valid_pixels ndvi <-> v ∈ ndvi /\ fgt v NODATA = true.
Proof.
  unfold valid_pixels. rewrite !list_elem_of_In, List.filter_In. done.
Qed.

(** Whatever the raster, a value that enters the statistics is a number of
    [[-1, 1]]: neither NaN nor the marker [-9999]. *)
Lemma valid_pixels_range (b : bands) (v : float) :
  v ∈ valid_pixels (compute_ndvi b) ->
  in_unit_range v = true /\ v <> NODATA /\ is_nan v = false.
Proof.
  intros [Hv Hgt]%elem_of_valid_pixels.
  destruct (elem_of_compute_ndvi b v Hv) as (n & r & _ & _ & ->).
  destruct (flt_not_nan _ _ Hgt) as [_ Hnan].
  split_and!; [|by apply gt_nodata_not_nodata|done].
  destruct (ndvi_pixel_nan_or_range n r) as [H|H]; [congruence|done].
Qed.

Lemma F32_sub_not_nan (sx : bool) (mx : positive) (ex : Z)
    (sy : bool) (my : positive) (ey : Z) :
  F32.sub (S754_finite sx mx ex) (S754_finite sy my ey) <> S754_nan.
Proof. apply binary_normalize_not_nan. Qed.

Lemma F32_add_sub_overflow (sx : bool) (mx : positive) (ex : Z)
    (sy : bool) (my : positive) (ey : Z) (s1 s2 : bool) :
  F32.valid (S754_finite sx mx ex) = true ->
  F32.valid (S754_finite sy my ey) = true ->
  F32.add (S754_finite sx mx ex) (S754_finite sy my ey) = S754_infinity s1 ->
  F32.sub (S754_finite sx mx ex) (S754_finite sy my ey) <> S754_infinity s2.
Proof.
  intros Hx Hy. by apply (SFadd_SFsub_overflow 24 128 ltac:(lia) ltac:(lia)).
Qed.

Lemma F32_div_not_nan (x : float) (sy : bool) (my : positive) (ey : Z) :
  is_nan x = false -> F32.div x (S754_finite sy my ey) <> S754_nan.
Proof.
  destruct x as [sx|sx| |sx mx ex]; try done. intros _.
  apply SFdiv_finite_not_nan.
Qed.

(** Without an infinite sample the quotient is a number: the sum and the
    difference of two finite samples cannot both overflow. *)
Lemma ndvi_raw_not_nan (n r : float) :
  not_infinite32 n = true -> not_infinite32 r = true ->
  is_nan (ndvi_raw n r) = false.
Proof.
  unfold not_infinite32. intros [Hn Hvn]%andb_prop [Hr Hvr]%andb_prop.
  unfold ndvi_raw.
  destruct n as [sn|sn| |sn mn en], r as [sr|sr| |sr mr er]; try done.
  - by destruct sn, sr.
  - (* 0 and a finite number *)
    change (F32.add (S754_zero sn) (S754_finite sr mr er)) with (S754_finite sr mr er).
    destruct (fgt _ _); [|done].
    pose proof (F32_div_not_nan (F32.sub (S754_zero sn) (S754_finite sr mr er))
                  sr mr er eq_refl) as Hd.
    by destruct (F32.div _ _).
  - (* a finite number and 0 *)
    change (F32.add (S754_finite sn mn en) (S754_zero sr)) with (S754_finite sn mn en).
    destruct (fgt _ _); [|done].
    pose proof (F32_div_not_nan (F32.sub (S754_finite sn mn en) (S754_zero sr))
                  sn mn en eq_refl) as Hd.
    by destruct (F32.div _ _).
  - (* two finite numbers *)
    pose proof (F32_sub_not_nan sn mn en sr mr er) as Hsub.
    pose proof (fun s1 s2 => F32_add_sub_overflow sn mn en sr mr er s1 s2 Hvn Hvr) as Hov.
    destruct (F32.add (S754_finite sn mn en) (S754_finite sr mr er))
      as [sd|sd| |sd md ed] eqn:Hadd; try done.
    + (* the sum overflows: the difference does not *)
      destruct (fgt _ _); [|done].
      destruct (F32.sub (S754_finite sn mn en) (S754_finite sr mr er))
        as [sq|sq| |sq mq eq] eqn:Hq; [done| |done|done].
      exfalso. by apply (Hov sd sq).
    + destruct (fgt _ _); [|done].
      destruct (F32.sub (S754_finite sn mn en) (S754_finite sr mr er))
        as [sq|sq| |sq mq eq] eqn:Hq; [done|done|done|].
      pose proof (F32_div_not_nan (S754_finite sq mq eq) sd md ed eq_refl) as Hd.
      by destruct (F32.div _ _).
Qed.

Lemma ndvi_pixel_in_range (n r : float) :
  not_infinite32 n = true -> not_infinite32 r = true ->
  in_unit_range (ndvi_pixel n r) = true.
Proof.
  intros Hn Hr. rewrite ndvi_pixel_range_iff.
  by rewrite ndvi_raw_not_nan.
Qed.

(** C1, as stated, at a raster with an infinite NIR sample: the index is
    NaN, which the clamp leaves as it is. *)
Lemma infinite_sample_counterexample :
  let b := {| red := [F32.of_Z 1]; nir := [S754_infinity false] |} in
  compute_ndvi b = [S754_nan]
  /\ ~ Forall (fun v => in_unit_range v = true) (compute_ndvi b).
Proof.
  cbv zeta. split; [by vm_compute|].
  intros H. apply Forall_inv in H. by vm_compute in H.
Qed.

(** C1, amended. For every input raster whose Red and NIR samples, cast to
    [float32] as the code casts them on reading, are not infinite, every
    value of the computed index raster lies in [[-1, 1]]; and whatever the
    raster, only values greater than -9999 enter the statistics, so the
    sentinel never does and every value that does lies in [[-1, 1]]. *)
Theorem index_in_unit_range (b : bands) :
  (Forall (fun x => not_infinite32 x = true) (red b) ->
   Forall (fun x => not_infinite32 x = true) (nir b) ->
   Forall (fun v => in_unit_range v = true) (compute_ndvi b))
  /\ (NODATA ∉ valid_pixels (compute_ndvi b))
  /\ Forall (fun v => in_unit_range v = true /\ v <> NODATA)
       (valid_pixels (compute_ndvi b)).
Proof.
  split_and!.
  - intros Hred Hnir. rewrite Forall_forall in Hred, Hnir.
    rewrite Forall_forall. intros v (n & r & Hn & Hr & ->)%elem_of_compute_ndvi.
    apply ndvi_pixel_in_range; auto.
  - intros H. by apply valid_pixels_range in H as (_ & H & _).
  - rewrite Forall_forall. intros v H.
    by apply valid_pixels_range in H as (? & ? & _).
Qed.

End IndexRange.

Section IndexFormula.

Import NdviCalculator.

Variables np_mean np_std np_median : list float -> float.
Variable np_percentile : list float -> Z -> float.

(** C4. The pixel NIR = 8000, Red = 2000 has index 6000/10000, which is the
    float32 value of the Healthy threshold 0.6 itself; the Healthy test is a
    strict [>], so the pixel is counted as Moderate Stress (100%) and not as
    Healthy (0%). *)
Theorem boundary_pixel_is_moderate :
  let v := ndvi_pixel (F32.of_Z 8000) (F32.of_Z 2000) in
  let b := {| red := [F32.of_Z 2000]; nir := [F32.of_Z 8000] |} in
  v = F32.div (F32.of_Z 6000) (F32.of_Z 10000)
  /\ v = F32.of_f64 (F64.lit 6 10)
  /\ v = T_healthy Config.default
  /\ healthy_mask Config.default [v] = [false]
  /\ moderate_mask Config.default [v] = [true]
  /\ exists r,
       calculate_ndvi np_mean np_std np_median np_percentile Config.default b = Ok r
       /\ ndvi_array r = [v]
       /\ healthy_pct (stats r) = S754_zero false
       /\ moderate_stress_pct (stats r) = F64.of_Z 100
       /\ severe_stress_pct (stats r) = S754_zero false
       /\ critical_pct (stats r) = S754_zero false.
Proof.
  cbv zeta. split_and!; try by vm_compute.
  eexists. split; [reflexivity|]. split_and!; by vm_compute.
Qed.

(** C5, as stated, at NIR = -3, Red = 1: the denominator -2 is not zero, yet
    the index is 0 and not the clamped quotient (-4)/(-2) = 2. *)
Lemma nonzero_denominator_counterexample :
  let nir := F32.of_Z (-3) in
  let red := F32.of_Z 1 in
  F32.add nir red = F32.of_Z (-2)
  /\ SFeqb (F32.add nir red) (S754_zero false) = false
  /\ F32.div (F32.sub nir red) (F32.add nir red) = F32.of_Z 2
  /\ ndvi_pixel nir red = S754_zero false
  /\ ndvi_pixel nir red
       <> clip (F32.div (F32.sub nir red) (F32.add nir red)) (F32.of_Z (-1)) (F32.of_Z 1).
Proof. cbv zeta. split_and!; by vm_compute. Qed.

(** C5, amended. The index of a pixel is the clamped quotient
    (NIR - Red) / (NIR + Red) when the denominator is greater than 0, and 0
    in every other case (zero, negative or NaN denominator); the computed
    raster never contains the marker -9999. *)
Theorem ndvi_pixel_formula (b : bands) (n r : float) :
  ndvi_pixel n r =
    (if fgt (F32.add n r) (S754_zero false)
     then clip (F32.div (F32.sub n r) (F32.add n r)) (F32.of_Z (-1)) (F32.of_Z 1)
     else S754_zero false)
  /\ NODATA ∉ compute_ndvi b.
Proof.
  split.
  - unfold ndvi_pixel, ndvi_raw. by destruct (fgt (F32.add n r) (S754_zero false)).
  - intros (n' & r' & _ & _ & H)%elem_of_compute_ndvi.
    destruct (ndvi_pixel_nan_or_range n' r') as [Hn|Hr]; rewrite <- H in *.
    + done.
    + by apply in_unit_range_gt_nodata in Hr.
Qed.

(** ** Class percentages *)

Variable cfg : Config.t.

Lemma class_partition (ts tm th v : float) :
  fle ts tm = true -> fle tm th = true -> is_nan v = false ->
  class_count ts tm th v = 1.
Proof.
  intros H1 H2 Hv. unfold class_count.
  destruct (fle_not_nan _ _ H1) as [Hts Htm], (fle_not_nan _ _ H2) as [_ Hth].
  rewrite !fgt_negb_fle by done.
  destruct (fle v ts) eqn:Es.
  - rewrite (fle_trans v ts tm), (fle_trans v tm th); try done.
    by apply (fle_trans v ts tm).
  - destruct (fle v tm) eqn:Em.
    + by rewrite (fle_trans v tm th).
    + by destruct (fle v th).
Qed.

Lemma np_count_cons (x : bool) (mask : list bool) :
  np_count (x :: mask) = Z.b2z x + np_count mask.
Proof.
  unfold np_count. rewrite filter_cons. case_decide as Hx.
  - subst x. simpl length. simpl Z.b2z. lia.
  - by destruct x.
Qed.

Lemma np_count_bounds (mask : list bool) : 0 <= np_count mask <= np_size mask.
Proof.
  induction mask as [|x mask IH]; [done|].
  rewrite np_count_cons. unfold np_size in *. simpl length.
  destruct x; simpl Z.b2z; lia.
Qed.

Lemma class_counts_sum (valid : list float) :
  fle (T_severe cfg) (T_moderate cfg) = true ->
  fle (T_moderate cfg) (T_healthy cfg) = true ->
  Forall (fun v => is_nan v = false) valid ->
  np_count (healthy_mask cfg valid) + np_count (moderate_mask cfg valid)
  + np_count (severe_mask cfg valid) + np_count (critical_mask cfg valid)
  = np_size valid.
Proof.
  intros H1 H2 Hv. induction Hv as [|v l Hn Hl IH]; [done|].
  unfold healthy_mask, moderate_mask, severe_mask, critical_mask in *.
  simpl map. rewrite !np_count_cons.
  pose proof (class_partition _ _ _ v H1 H2 Hn) as Hp. unfold class_count in Hp.
  unfold np_size in *. simpl length. lia.
Qed.

Lemma valid_pixels_not_nan (ndvi : list float) :
  Forall (fun v => is_nan v = false) (valid_pixels ndvi).
Proof.
  rewrite Forall_forall. intros v [_ H]%elem_of_valid_pixels.
  by destruct (flt_not_nan _ _ H).
Qed.

Lemma pct_of_zero (n : Z) :
  0 < n < 2 ^ 53 -> pct_of 0 n = S754_zero false.
Proof.
  intros Hn. unfold pct_of, F64.mul, F64.div, F64.of_Z, F64.prec, F64.emax.
  destruct (of_Z_exact n Hn) as (mn & en & -> & _).
  destruct (of_Z_exact 100 ltac:(split; reflexivity)) as (mh & eh & -> & _).
  done.
Qed.

(** The float64 value of [count / size * 100] is the exact percentage up to
    a relative error of [3 * 2^-52]. *)
Lemma pct_of_bound (k n : Z) :
  0 <= k < 2 ^ 53 -> 0 < n < 2 ^ 53 ->
  is_finite (pct_of k n) = true
  /\ let t := (inject_Z k / inject_Z n)%Q in
     (- (300 * t) <= (F2Q (pct_of k n) - 100 * t) * (4503599627370496 # 1)
      <= 300 * t)%Q.
Proof.
  intros Hk Hn. destruct (Z.eq_dec k 0) as [->|Hk0].
  - rewrite pct_of_zero by done. split; [done|]. cbv zeta. simpl F2Q.
    assert (Ht : (inject_Z 0 / inject_Z n == 0)%Q) by (unfold Qdiv; ring).
    rewrite Ht. split; lra.
  - destruct (pct_value k n ltac:(lia) Hn) as (m & e & E & Hb).
    split; [by rewrite E|done].
Qed.

(** C2. Whenever [calculate_ndvi] returns statistics (the valid pixels are
    then at least one, and fewer than 2^53 as every array is), the three
    thresholds being in increasing order: every valid pixel is counted in
    exactly one of the four classes, the four counts add up to
    [total_pixels], and the four percentages add up to 100 within 0.1 (in
    fact within [300 * 2^-52]). *)
Theorem percentages_sum_to_100 (b : bands) (r : ndvi_result) :
  fle (T_severe cfg) (T_moderate cfg) = true ->
  fle (T_moderate cfg) (T_healthy cfg) = true ->
  calculate_ndvi np_mean np_std np_median np_percentile cfg b = Ok r ->
  total_pixels (stats r) < 2 ^ 53 ->
  let valid := valid_pixels (ndvi_array r) in
  let st := stats r in
  0 < total_pixels st
  /\ Forall (fun v => class_count (T_severe cfg) (T_moderate cfg) (T_healthy cfg) v = 1)
       valid
  /\ np_count (healthy_mask cfg valid) + np_count (moderate_mask cfg valid)
     + np_count (severe_mask cfg valid) + np_count (critical_mask cfg valid)
     = total_pixels st
  /\ is_finite (healthy_pct st) && is_finite (moderate_stress_pct st)
     && is_finite (severe_stress_pct st) && is_finite (critical_pct st) = true
  /\ (Qabs (F2Q (healthy_pct st) + F2Q (moderate_stress_pct st)
            + F2Q (severe_stress_pct st) + F2Q (critical_pct st) - 100)
      <= 1 # 10)%Q.
Proof.
  intros H1 H2 Hcalc Hsize. cbv zeta.
  unfold calculate_ndvi, compute_statistics in Hcalc.
  set (valid := valid_pixels (compute_ndvi b)) in *.
  destruct (np_min valid) as [mn|e] eqn:Emin; [|done].
  destruct (np_max valid) as [mx|e] eqn:Emax; [|done].
  simpl in Hcalc. injection Hcalc as <-.
  cbn [stats ndvi_array healthy_pct moderate_stress_pct severe_stress_pct
       critical_pct total_pixels] in *. fold valid.
  pose proof (valid_pixels_not_nan (compute_ndvi b)) as Hnan. fold valid in Hnan.
  pose proof (class_counts_sum valid H1 H2 Hnan) as Hsum.
  assert (Hpos : 0 < np_size valid).
  { destruct valid; [done|]. unfold np_size. simpl. lia. }
  pose proof (np_count_bounds (healthy_mask cfg valid)) as Bh.
  pose proof (np_count_bounds (moderate_mask cfg valid)) as Bm.
  pose proof (np_count_bounds (severe_mask cfg valid)) as Bs.
  pose proof (np_count_bounds (critical_mask cfg valid)) as Bc.
  unfold pct.
  assert (Hsz : forall (f : float -> bool), np_size (map f valid) = np_size valid)
    by (intros; unfold np_size; by rewrite length_map).
  unfold healthy_mask, moderate_mask, severe_mask, critical_mask in *.
  rewrite !Hsz in *.
  set (n := np_size valid) in *. clearbody n.
  set (kh := np_count (map _ valid)) in *. clearbody kh.
  set (km := np_count (map _ valid)) in *. clearbody km.
  set (ks := np_count (map _ valid)) in *. clearbody ks.
  set (kc := np_count (map _ valid)) in *. clearbody kc.
  destruct (pct_of_bound kh n ltac:(lia) ltac:(lia)) as [Fh Vh].
  destruct (pct_of_bound km n ltac:(lia) ltac:(lia)) as [Fm Vm].
  destruct (pct_of_bound ks n ltac:(lia) ltac:(lia)) as [Fs Vs].
  destruct (pct_of_bound kc n ltac:(lia) ltac:(lia)) as [Fc Vc].
  split_and!.
  - done.
  - rewrite Forall_forall in *. intros v Hv. apply class_partition; auto.
  - done.
  - by rewrite Fh, Fm, Fs, Fc.
  - cbv zeta in *.
    assert (Hn0 : ~ (inject_Z n == 0)%Q).
    { intros H. apply (eq_sym) in H. unfold Qeq in H. simpl in H. lia. }
    assert (Ht : (inject_Z kh / inject_Z n + inject_Z km / inject_Z n
                  + inject_Z ks / inject_Z n + inject_Z kc / inject_Z n == 1)%Q).
    { assert (Hq : (inject_Z kh + inject_Z km + inject_Z ks + inject_Z kc
                    == inject_Z n)%Q) by (by rewrite <- !inject_Z_plus, Hsum).
      transitivity ((inject_Z kh + inject_Z km + inject_Z ks + inject_Z kc)
                    / inject_Z n)%Q; [by field|].
      rewrite Hq. by field. }
    set (th := (inject_Z kh / inject_Z n)%Q) in *. clearbody th.
    set (tm := (inject_Z km / inject_Z n)%Q) in *. clearbody tm.
    set (ts := (inject_Z ks / inject_Z n)%Q) in *. clearbody ts.
    set (tc := (inject_Z kc / inject_Z n)%Q) in *. clearbody tc.
    set (ph := F2Q (pct_of kh n)) in *. clearbody ph.
    set (pm := F2Q (pct_of km n)) in *. clearbody pm.
    set (ps := F2Q (pct_of ks n)) in *. clearbody ps.
    set (pc := F2Q (pct_of kc n)) in *. clearbody pc.
    apply Qabs_Qle_condition.
    destruct Vh, Vm, Vs, Vc. split; lra.
Qed.

End IndexFormula.

(** ** Classifier *)

Section ClassifierProps.

Import HealthClassifier.

Variables fmt_pct0 fmt_f0 fmt_f1 : float -> string.
Variable round1 : float -> float.
Variable utcnow : string.
Variables np_mean np_std : list float -> float.
Variable cfg : Config.t.

Abbreviation classify :=
  (classify_health fmt_pct0 fmt_f0 fmt_f1 round1 utcnow np_mean np_std cfg).

Lemma classify_health_inv (path : string) (ndvi : list float)
    (w : option weather) (c : classification) :
  classify path ndvi w = Ok c ->
  exists c0,
    c = set_recommendations c0 (_generate_recommendations fmt_f0 c0)
    /\ alerts c0 =
         match truthy w with
         | Some w' => _weather_correlated_alerts fmt_pct0 fmt_f0 fmt_f1 c0 w'
         | None => []
         end.
Proof.
  unfold classify_health.
  destruct (np_min _) as [mn|e]; [|done]. destruct (np_max _) as [mx|e]; [|done].
  simpl. intros [= <-]. eexists. split; [reflexivity|].
  destruct (truthy w); reflexivity.
Qed.

Lemma classify_health_nonempty (path : string) (ndvi : list float)
    (w : option weather) :
  List.filter (fun v => fgt v (F32.of_Z (-9999))) ndvi <> [] ->
  exists c, classify path ndvi w = Ok c.
Proof.
  intros H. unfold classify_health.
  destruct (List.filter _ ndvi) as [|v vs]; [done|]. simpl. eauto.
Qed.

(** C3 on the code: for a raster with zero valid pixels the guards
    [if total > 0 else 0] and [total == 0 -> "No Data"] are there, but
    [np.min] of the empty array raises before a result is built. *)
Theorem classify_health_empty_raises (path : string) (ndvi : list float)
    (w : option weather) :
  List.filter (fun v => fgt v (F32.of_Z (-9999))) ndvi = [] ->
  classify path ndvi w =
    Raise (PyExn "ValueError"
      "zero-size array to reduction operation minimum which has no identity")
  /\ _overall_health 0 0 0 0 (np_size (@nil float)) = "No Data"
  /\ percentage round1 0 (np_size (@nil float)) = S754_zero false.
Proof.
  intros H. unfold classify_health. rewrite H. done.
Qed.

(** C8. The recommendation list is never empty: each of the four threshold
    rules contributes its recommendation exactly when its own condition
    holds, in the order of the source, and "Schedule Next Scan" (MEDIUM) is
    the whole list exactly when none of the four holds.  Every result of
    [classify_health] carries such a list. *)
Theorem recommendations_never_empty (c : classification) (path : string)
    (ndvi : list float) (w : option weather) :
  let recs := _generate_recommendations fmt_f0 c in
  let r1 := fgt (critical (pcts c)) (F64.of_Z 15) in
  let r2 := fgt (severe_stress (pcts c)) (F64.of_Z 25) in
  let r3 := fgt (moderate_stress (pcts c)) (F64.of_Z 30) in
  let r4 := fgt (healthy (pcts c)) (F64.of_Z 70) in
  recs <> []
  /\ rec_labels recs =
       (if r1 then [("HIGH", "Field Inspection")] else [])
       ++ (if r2 then [("HIGH", "Soil & Nutrient Test")] else [])
       ++ (if r3 then [("MEDIUM", "Targeted Treatment")] else [])
       ++ (if r4 then [("LOW", "Routine Monitoring")] else [])
       ++ (if r1 || r2 || r3 || r4 then [] else [("MEDIUM", "Schedule Next Scan")])
  /\ (if r1 || r2 || r3 || r4
      then schedule_next_scan ∉ recs
      else recs = [schedule_next_scan])
  /\ match classify path ndvi w with
     | Ok c' => recommendations c' <> []
                /\ recommendations c' = _generate_recommendations fmt_f0 c'
     | Raise _ => True
     end.
Proof.
  cbv zeta. unfold _generate_recommendations, rec_labels.
  split_and!.
  - destruct (fgt (critical _) _), (fgt (severe_stress _) _),
      (fgt (moderate_stress _) _), (fgt (healthy _) _); done.
  - destruct (fgt (critical _) _), (fgt (severe_stress _) _),
      (fgt (moderate_stress _) _), (fgt (healthy _) _); done.
  - destruct (fgt (critical _) _), (fgt (severe_stress _) _),
      (fgt (moderate_stress _) _), (fgt (healthy _) _); simpl; try done;
      rewrite ?elem_of_cons, elem_of_nil; unfold schedule_next_scan;
      intros H; repeat destruct H as [H|H]; try done.
  - destruct (classify path ndvi w) as [c'|e] eqn:Hc; [|done].
    apply classify_health_inv in Hc as (c0 & -> & _). simpl. split; [|done].
    unfold _generate_recommendations.
    destruct (fgt (critical _) _), (fgt (severe_stress _) _),
      (fgt (moderate_stress _) _), (fgt (healthy _) _); done.
Qed.

(** The defaults of the three lookups fail their own tests. *)
Lemma weather_defaults_benign :
  flt (F64.lit 5 10) (F64.lit 2 10) = false
  /\ fgt (F64.of_Z 50) (F64.of_Z 80) = false
  /\ flt (F64.of_Z 20) (F64.of_Z 2) = false.
Proof. split_and!; by vm_compute. Qed.

Lemma alerts_without_keys (c : classification) (w : weather) :
  lacks_weather_keys w ->
  _weather_correlated_alerts fmt_pct0 fmt_f0 fmt_f1 c w = [].
Proof.
  intros (Hs & Hh & Ht). unfold _weather_correlated_alerts.
  rewrite Hs, Hh, Ht. cbn [default from_option id].
  destruct weather_defaults_benign as (-> & -> & ->). done.
Qed.

(** A key that is missing takes a default that fails the test of its own
    rule, whatever the other entries are: no drought alert without a soil
    moisture, no disease alert without a humidity, no frost alert without a
    temperature. *)
Lemma missing_key_disables_its_alert (c : classification) (w : weather) :
  let titles := map alert_title (_weather_correlated_alerts fmt_pct0 fmt_f0 fmt_f1 c w) in
  (default ∅ (w !! "soil") !! "moisture" = None ->
   "Drought Stress Detected" ∉ titles)
  /\ (default ∅ (w !! "current") !! "humidity_pct" = None ->
      "Disease Risk Elevated" ∉ titles)
  /\ (default ∅ (w !! "current") !! "temperature_c" = None ->
      "Frost Damage Risk" ∉ titles).
Proof.
  cbv zeta. unfold _weather_correlated_alerts.
  destruct weather_defaults_benign as (Hs & Hh & Ht).
  split_and!; intros ->; cbn [default from_option id]; rewrite ?Hs, ?Hh, ?Ht;
    cbn [andb app];
    repeat match goal with
           | |- context [if ?b then _ else _] => destruct b
           end;
    cbn [app map alert_title]; rewrite ?elem_of_cons, elem_of_nil;
    intros H; repeat (destruct H as [H|H]; [discriminate H|]); exact H.
Qed.

(** C10, as stated, at a weather dict that lacks the soil moisture and the
    temperature and has a humidity of 90: the default temperature 20 passes
    the test [temp > 18] of the disease rule, and on a raster of one
    moderately stressed pixel the classification carries the alert "Disease
    Risk Elevated". *)
Lemma partial_weather_keys_counterexample :
  let w : weather := {[ "current" := {[ "humidity_pct" := F64.of_Z 90 ]} ]} in
  default ∅ (w !! "soil") !! "moisture" = None
  /\ default ∅ (w !! "current") !! "temperature_c" = None
  /\ exists c a,
       HealthClassifier.classify_health Example.fmt Example.fmt Example.fmt
         Example.round1 Example.utcnow Example.np_mean Example.np_std
         Config.default "ndvi.tif" [F32.of_f64 (F64.lit 5 10)] (Some w) = Ok c
       /\ alerts c = [a]
       /\ alert_title a = "Disease Risk Elevated".
Proof.
  cbv zeta. split_and!; [by vm_compute|by vm_compute|].
  eexists _, _. split_and!; [by vm_compute|reflexivity|reflexivity].
Qed.

(** C10, amended. When the weather dict that is supplied has none of the
    soil moisture, humidity and temperature entries (the enclosing ["soil"]
    and ["current"] dicts may be missing too), the lookups fall back to 0.5,
    50 and 20, no alert condition holds, and the alert list is empty; the
    classification of a raster with a valid pixel returns a result, with no
    alert.  When some of the three entries are there, a missing one still
    keeps the alert of its own rule away. *)
Theorem missing_weather_keys_no_alerts (c : classification) (w : weather)
    (path : string) (ndvi : list float) :
  lacks_weather_keys w ->
  List.filter (fun v => fgt v (F32.of_Z (-9999))) ndvi <> [] ->
  _weather_correlated_alerts fmt_pct0 fmt_f0 fmt_f1 c w = []
  /\ (exists c', classify path ndvi (Some w) = Ok c' /\ alerts c' = [])
  /\ forall w' : weather,
       let titles :=
         map alert_title (_weather_correlated_alerts fmt_pct0 fmt_f0 fmt_f1 c w') in
       (default ∅ (w' !! "soil") !! "moisture" = None ->
        "Drought Stress Detected" ∉ titles)
       /\ (default ∅ (w' !! "current") !! "humidity_pct" = None ->
           "Disease Risk Elevated" ∉ titles)
       /\ (default ∅ (w' !! "current") !! "temperature_c" = None ->
           "Frost Damage Risk" ∉ titles).
Proof.
  intros Hw Hv. split_and!; [by apply alerts_without_keys| |].
  - destruct (classify_health_nonempty path ndvi (Some w) Hv) as [c' Hc].
    exists c'. split; [done|].
    apply classify_health_inv in Hc as (c0 & -> & Ha).
    change (alerts c0 = []). rewrite Ha. unfold truthy.
    destruct (decide (w = ∅)); [done|by apply alerts_without_keys].
  - intros w'. apply missing_key_disables_its_alert.
Qed.

End ClassifierProps.

(** ** Segmenter *)

Section SegmenterProps.

Import Segmentation.

Variable selem : Type.
Variable transform : Type.
Variable disk : Z -> selem.
Variables opening closing : array2 Z -> selem -> array2 Z.
Variable ndimage_label : array2 Z -> array2 Z * Z.
Variable regionprops : array2 Z -> array2 float -> list region.
Variable xy : transform -> Z -> Z -> float * float.
Variable np_mean : list float -> float.
Variable utcnow : string.
Variable cfg : Config.t.

(** [regionprops] reports the regions of a labelled image by increasing
    label. *)
Hypothesis regionprops_by_label :
  forall labeled img, StronglySorted Z.lt (map label (regionprops labeled img)).

Abbreviation regions_of ndvi :=
  (snd (detect_regions selem disk opening closing ndimage_label regionprops cfg ndvi)).
Abbreviation segment :=
  (segment_plots selem transform disk opening closing ndimage_label regionprops
     xy np_mean utcnow cfg).

Lemma collect_plots_from (tr : transform) (m : Z) (regions : list region)
    (acc : list plot) :
  fold_left
    (fun plots region =>
       if area region <? m then plots
       else plots ++ [make_plot transform xy cfg tr region])
    regions acc
  = acc ++ map (make_plot transform xy cfg tr) (kept_regions m regions).
Proof.
  revert acc. induction regions as [|r rs IH]; intros acc; simpl.
  - by rewrite app_nil_r.
  - rewrite IH. rewrite (Z.ltb_antisym m (area r)).
    destruct (m <=? area r); simpl; [by rewrite <- app_assoc|done].
Qed.

Lemma collect_plots_kept (tr : transform) (m : Z) (regions : list region) :
  collect_plots transform xy cfg tr m regions
  = map (make_plot transform xy cfg tr) (kept_regions m regions).
Proof. unfold collect_plots. by rewrite collect_plots_from. Qed.

Lemma make_plot_id (tr : transform) (r : region) :
  id (make_plot transform xy cfg tr r) = label r.
Proof. unfold make_plot. by destruct (bbox r) as [[[? ?] ?] ?]. Qed.

Lemma make_plot_area (tr : transform) (r : region) :
  area_pixels (make_plot transform xy cfg tr r) = area r.
Proof. unfold make_plot. by destruct (bbox r) as [[[? ?] ?] ?]. Qed.

Lemma segment_plots_plots (path : string) (ndvi : array2 float) (tr : transform)
    (crs : string) (m : Z) :
  plots (segment path ndvi tr crs m)
  = map (make_plot transform xy cfg tr) (kept_regions m (regions_of ndvi)).
Proof.
  unfold segment_plots. destruct (detect_regions _ _ _ _ _ _ _ _) as [lab regs].
  simpl. apply collect_plots_kept.
Qed.

Lemma StronglySorted_filter {A} (f : A -> Z) (P : A -> bool) (l : list A) :
  StronglySorted Z.lt (map f l) -> StronglySorted Z.lt (map f (List.filter P l)).
Proof.
  induction l as [|a l IH]; simpl; [done|].
  intros [Hs Hall]%StronglySorted_inv. destruct (P a); simpl; [|by apply IH].
  constructor; [by apply IH|].
  rewrite Forall_forall in *. intros x Hx. apply Hall.
  rewrite list_elem_of_In, in_map_iff in *.
  destruct Hx as (y & <- & Hy). apply List.filter_In in Hy as [Hy _]. eauto.
Qed.

(** C7. Every plot returned by [segment_plots] has at least [min_plot_area]
    pixels; the plots are the regions of at least that area, one plot per
    such region and none for a smaller one, in the order of the regions,
    which is by increasing label id. *)
Theorem segment_plots_min_area (path : string) (ndvi : array2 float)
    (tr : transform) (crs : string) (min_plot_area : Z) :
  let result := segment path ndvi tr crs min_plot_area in
  Forall (fun p => min_plot_area <= area_pixels p) (plots result)
  /\ map id (plots result) = map label (kept_regions min_plot_area (regions_of ndvi))
  /\ map area_pixels (plots result)
       = map area (kept_regions min_plot_area (regions_of ndvi))
  /\ (forall r, r ∈ regions_of ndvi -> area r < min_plot_area ->
             label r ∉ map id (plots result))
  /\ StronglySorted Z.lt (map id (plots result))
  /\ total_plots result = Z.of_nat (length (plots result)).
Proof using regionprops_by_label.
  cbv zeta. rewrite segment_plots_plots.
  assert (Hid : map id (map (make_plot transform xy cfg tr)
                         (kept_regions min_plot_area (regions_of ndvi)))
                = map label (kept_regions min_plot_area (regions_of ndvi))).
  { rewrite map_map. apply map_ext. intros. apply make_plot_id. }
  assert (Hsorted : StronglySorted Z.lt (map label (regions_of ndvi))).
  { unfold detect_regions. destruct (ndimage_label _). simpl.
    apply regionprops_by_label. }
  split_and!.
  - rewrite Forall_forall. intros p Hp.
    rewrite list_elem_of_In, in_map_iff in Hp. destruct Hp as (r & <- & Hr).
    apply List.filter_In in Hr as [_ Hr]. rewrite make_plot_area. lia.
  - done.
  - rewrite map_map. apply map_ext. intros. apply make_plot_area.
  - intros r Hr Hlt. rewrite Hid. intros Hin.
    rewrite list_elem_of_In, in_map_iff in Hin. destruct Hin as (r' & Hl & Hr').
    apply List.filter_In in Hr' as [Hr' Ha].
    assert (r' = r) as ->; [|lia].
    clear -Hsorted Hr Hr' Hl. rewrite list_elem_of_In in Hr.
    induction (regions_of ndvi) as [|a l IH]; [done|].
    simpl in Hsorted. apply StronglySorted_inv in Hsorted as [Hs Hall].
    rewrite Forall_forall in Hall.
    destruct Hr as [->|Hr], Hr' as [->|Hr']; [done| | |by apply IH].
    + assert (label r < label r'); [|lia].
      apply Hall. rewrite list_elem_of_In. by apply in_map.
    + assert (label r' < label r); [|lia].
      apply Hall. rewrite list_elem_of_In. by apply in_map.
  - rewrite Hid. unfold kept_regions. apply StronglySorted_filter, Hsorted.
  - rewrite <- (segment_plots_plots path ndvi tr crs).
    unfold segment_plots. by destruct (detect_regions _ _ _ _ _ _ _ _).
Qed.

End SegmenterProps.

Section GeoJsonProps.

Import Segmentation.

Lemma features_from (ps : list plot) (acc : list feature) :
  fold_left (fun features plot => features ++ [feature_of_plot plot]) ps acc
  = acc ++ map feature_of_plot ps.
Proof.
  revert acc. induction ps as [|p ps IH]; intros acc; simpl.
  - by rewrite app_nil_r.
  - by rewrite IH, <- app_assoc.
Qed.

Lemma feature_of_plot_matches (p : plot) : feature_matches p (feature_of_plot p).
Proof.
  unfold feature_matches, feature_of_plot. simpl. split_and!; try done.
  eexists. split; [reflexivity|]. done.
Qed.

(** C9. [plots_to_geojson] yields a FeatureCollection with exactly one
    feature per plot, in the order of the plots; the geometry of a feature is
    one closed ring of five points, the corners of the plot's bounding box,
    and its properties are the plot's id, health class, health colour, mean
    index and pixel area. *)
Theorem plots_to_geojson_features (result : segmentation_result) :
  let fc := plots_to_geojson result in
  collection_type fc = "FeatureCollection"
  /\ length (features fc) = length (plots result)
  /\ Forall2 feature_matches (plots result) (features fc)
  /\ map (fun f => plot_id (feature_properties f)) (features fc)
       = map id (plots result).
Proof.
  cbv zeta. unfold plots_to_geojson. simpl. rewrite features_from. simpl.
  split_and!.
  - done.
  - by rewrite length_map.
  - induction (plots result) as [|p ps IH]; simpl; constructor;
      [apply feature_of_plot_matches|done].
  - rewrite map_map. by apply map_ext.
Qed.

End GeoJsonProps.

(** ** Orchestrator *)

Section OrchestratorProps.

Import PipelineScheduler.

Variable world : Type.
Variable time_time : world -> float.
Variable utcnow : world -> string.
Variable FIELD_BBOX : Segmentation.bbox_geo.
Variable IMAGE_SIZE_PX : Z.
Variable fetch_sentinel_imagery : world -> result metadata * world.
Variable fetch_weather : world -> result HealthClassifier.weather * world.
Variable calculate_ndvi : string -> world -> result ndvi_output * world.
Variable ndvi_to_rgb : string -> world -> result string * world.
Variable create_rgb_composite : string -> world -> result string * world.
Variable classify_health :
  string -> HealthClassifier.weather ->
  world -> result HealthClassifier.classification * world.
Variable segment_plots :
  string -> world -> result Segmentation.segmentation_result * world.
Variable write_geojson :
  Segmentation.feature_collection -> world -> result unit * world.
Variable insert_imagery : metadata -> world -> result Z * world.
Variable insert_weather : HealthClassifier.weather -> world -> result Z * world.
Variable insert_ndvi_result : Z -> ndvi_output -> world -> result Z * world.
Variable insert_health_assessment :
  Z -> HealthClassifier.classification -> world -> result Z * world.
Variable round1 : float -> float.

Abbreviation body :=
  (pipeline_body world time_time utcnow FIELD_BBOX IMAGE_SIZE_PX
     fetch_sentinel_imagery fetch_weather calculate_ndvi ndvi_to_rgb
     create_rgb_composite classify_health segment_plots write_geojson
     insert_imagery insert_weather insert_ndvi_result insert_health_assessment
     round1).
Abbreviation run :=
  (run_pipeline world time_time utcnow FIELD_BBOX IMAGE_SIZE_PX
     fetch_sentinel_imagery fetch_weather calculate_ndvi ndvi_to_rgb
     create_rgb_composite classify_health segment_plots write_geojson
     insert_imagery insert_weather insert_ndvi_result insert_health_assessment
     round1).

Ltac step :=
  match goal with
  | |- context [lift _ ?f ?s] =>
      unfold lift at 1; destruct (f (st_world _ s)) as [[?|?] ?]; simpl
  | |- context [String.eqb ?a ?b] => destruct (String.eqb a b); simpl
  end.

(** A step that raises leaves the [pipeline_runs] table as it was: the table
    is written at the start of the run and at its end only. *)
Lemma body_raise_runs (image_path : option string) (run_id : Z) (t0 : float)
    (s s' : state world) (e : pyexn) :
  body image_path run_id t0 s = (Raise e, s') ->
  pipeline_runs world s' = pipeline_runs world s.
Proof.
  unfold pipeline_body, mbind, io_mbind, io_bind, mret, io_mret, io_ret, read.
  destruct image_path as [path|]; simpl;
    repeat step; intros [= <- <-] || intros [=]; reflexivity.
Qed.

(** What [run_pipeline] does when a step raises [e]: the handler completes
    the row of the run and the caller gets the failure payload. *)
Lemma run_pipeline_on_exception (image_path : option string) (s s1 : state world)
    (e : pyexn) :
  let run_id := seq (pipeline_runs world s) + 1 in
  let t0 := time_time (st_world world s) in
  body image_path run_id t0 (snd (start_pipeline_run world utcnow s)) = (Raise e, s1) ->
  exists s2,
    run image_path s = (Ok (Failed (exn_str e) run_id), s2)
    /\ rows (pipeline_runs world s2) !! run_id =
         Some (handled_row (utcnow (st_world world s)) (utcnow (st_world world s1))
                 (F64.sub (time_time (st_world world s1)) t0) (exn_str e)).
Proof.
  cbv zeta. intros Hbody.
  pose proof (body_raise_runs _ _ _ _ _ _ Hbody) as Hruns.
  unfold run_pipeline, mbind, io_mbind, io_bind, try_except, read.
  simpl in *. rewrite Hbody. unfold pipeline_handler.
  unfold mbind, io_mbind, io_bind, read, complete_pipeline_run, mret, io_mret, io_ret.
  simpl. eexists. split; [reflexivity|]. simpl. rewrite Hruns. simpl.
  rewrite lookup_alter_eq, lookup_insert_eq. simpl. unfold handled_row.
  by destruct (String.eqb (exn_str e) "").
Qed.

(** C6 on the code: when the step that fails raises an exception whose
    message is empty ([raise ValueError()], a bare [assert]), the caller
    gets the failure payload, but [complete_pipeline_run] tests the message
    for truth and records the run as ["completed"]. *)
Theorem run_pipeline_empty_message (image_path : option string)
    (s s1 : state world) (e : pyexn) :
  let run_id := seq (pipeline_runs world s) + 1 in
  let t0 := time_time (st_world world s) in
  body image_path run_id t0 (snd (start_pipeline_run world utcnow s)) = (Raise e, s1) ->
  exn_str e = "" ->
  exists s2 row,
    run image_path s = (Ok (Failed "" run_id), s2)
    /\ rows (pipeline_runs world s2) !! run_id = Some row
    /\ status row = "completed"
    /\ error_message row = Some ""
    /\ processing_time_s row = Some (F64.sub (time_time (st_world world s1)) t0).
Proof.
  cbv zeta. intros Hbody Hmsg.
  destruct (run_pipeline_on_exception image_path s s1 e Hbody) as (s2 & Hrun & Hrow).
  rewrite Hmsg in *. eauto 10.
Qed.

(** With a message that is not empty the run is recorded as failed, with the
    elapsed time and the message, and the exception is not raised again. *)
Lemma run_pipeline_failed (image_path : option string) (s s1 : state world)
    (e : pyexn) :
  let run_id := seq (pipeline_runs world s) + 1 in
  let t0 := time_time (st_world world s) in
  body image_path run_id t0 (snd (start_pipeline_run world utcnow s)) = (Raise e, s1) ->
  exn_str e <> "" ->
  exists s2 row,
    run image_path s = (Ok (Failed (exn_str e) run_id), s2)
    /\ result_status (Failed (exn_str e) run_id) = "failed"
    /\ rows (pipeline_runs world s2) !! run_id = Some row
    /\ status row = "failed"
    /\ error_message row = Some (exn_str e)
    /\ processing_time_s row = Some (F64.sub (time_time (st_world world s1)) t0).
Proof.
  cbv zeta. intros Hbody Hmsg.
  destruct (run_pipeline_on_exception image_path s s1 e Hbody) as (s2 & Hrun & Hrow).
  eexists _, _. split_and!; [done|done|done|..]; try done.
  unfold handled_row. simpl. destruct (String.eqb_spec (exn_str e) ""); done.
Qed.

(** [run_pipeline] never raises: every exception of a step is caught. *)
Lemma run_pipeline_returns (image_path : option string) (s : state world) :
  exists r s', run image_path s = (Ok r, s').
Proof.
  unfold run_pipeline, mbind, io_mbind, io_bind, try_except, read. simpl.
  destruct (body _ _ _ _) as [[r|e] s1]; [eauto|].
  unfold pipeline_handler, mbind, io_mbind, io_bind, read, complete_pipeline_run,
    mret, io_mret, io_ret. simpl. eauto.
Qed.

End OrchestratorProps.

(** ** Further properties of the index computation *)

Lemma flt_trans (x y z : float) :
  flt x y = true -> flt y z = true -> flt x z = true.
Proof. intros H1 H2. apply (flt_fle_trans x y z H1). by apply flt_fle. Qed.

(** Closes a goal whose hypothesis [H] says that a string is an element of a
    list of other strings. *)
Ltac not_elem_of H :=
  repeat (apply elem_of_cons in H as [H|H]; [discriminate H|]);
  by apply elem_of_nil in H.

Lemma filter_all {A} (f : A -> bool) (l : list A) :
  Forall (fun x => f x = true) l -> List.filter f l = l.
Proof. induction 1 as [|x l Hx _ IH]; simpl; [done|]. by rewrite Hx, IH. Qed.

Lemma filter_none {A} (f : A -> bool) (l : list A) :
  List.filter f l = [] <-> Forall (fun x => f x = false) l.
Proof.
  induction l as [|x l IH]; simpl; [done|]. destruct (f x) eqn:E.
  - split; [done|]. intros H. apply Forall_inv in H. congruence.
  - rewrite IH. split; [by constructor|]. by intros H%Forall_inv_tail.
Qed.

(** On a list of numbers, the reduction of [np.min] returns an element that
    is below every element. *)
Lemma fold_minimum (xs : list float) (x : float) :
  Forall (fun v => is_nan v = false) (x :: xs) ->
  let m := fold_left np_minimum xs x in
  m ∈ x :: xs /\ Forall (fun v => fle m v = true) (x :: xs).
Proof.
  cbv zeta. revert x. induction xs as [|y ys IH]; intros x Hn.
  - simpl. split; [by left|]. constructor; [|done]. apply fle_refl.
    by apply Forall_inv in Hn.
  - simpl. pose proof (Forall_inv Hn) as Hx.
    pose proof (Forall_inv (Forall_inv_tail Hn)) as Hy.
    pose proof (Forall_inv_tail (Forall_inv_tail Hn)) as Hys.
    simpl in Hx, Hy.
    assert (Hmin : np_minimum x y = (if flt x y then x else y)).
    { unfold np_minimum. by rewrite Hx, Hy. }
    assert (Hmn : is_nan (np_minimum x y) = false).
    { rewrite Hmin. by destruct (flt x y). }
    destruct (IH (np_minimum x y)) as [Hin Hall]; [by constructor|].
    pose proof (Forall_inv Hall) as Hm. simpl in Hm.
    apply Forall_inv_tail in Hall.
    assert (Hmx : fle (np_minimum x y) x = true /\ fle (np_minimum x y) y = true).
    { rewrite Hmin. destruct (flt x y) eqn:E.
      - split; [by apply fle_refl|by apply flt_fle].
      - split; [by apply not_flt_fle|by apply fle_refl]. }
    destruct Hmx as [Hm1 Hm2]. split.
    + apply elem_of_cons in Hin as [->|Hin].
      * rewrite Hmin. destruct (flt x y); [by left|right; by left].
      * right. by right.
    + constructor; [by apply (fle_trans _ (np_minimum x y))|].
      constructor; [by apply (fle_trans _ (np_minimum x y))|done].
Qed.

(** And the reduction of [np.max] an element that is above every element. *)
Lemma fold_maximum (xs : list float) (x : float) :
  Forall (fun v => is_nan v = false) (x :: xs) ->
  let m := fold_left np_maximum xs x in
  m ∈ x :: xs /\ Forall (fun v => fle v m = true) (x :: xs).
Proof.
  cbv zeta. revert x. induction xs as [|y ys IH]; intros x Hn.
  - simpl. split; [by left|]. constructor; [|done]. apply fle_refl.
    by apply Forall_inv in Hn.
  - simpl. pose proof (Forall_inv Hn) as Hx.
    pose proof (Forall_inv (Forall_inv_tail Hn)) as Hy.
    pose proof (Forall_inv_tail (Forall_inv_tail Hn)) as Hys.
    simpl in Hx, Hy.
    assert (Hmax : np_maximum x y = (if fgt x y then x else y)).
    { unfold np_maximum. by rewrite Hx, Hy. }
    assert (Hmn : is_nan (np_maximum x y) = false).
    { rewrite Hmax. by destruct (fgt x y). }
    destruct (IH (np_maximum x y)) as [Hin Hall]; [by constructor|].
    pose proof (Forall_inv Hall) as Hm. simpl in Hm.
    apply Forall_inv_tail in Hall.
    assert (Hmx : fle x (np_maximum x y) = true /\ fle y (np_maximum x y) = true).
    { rewrite Hmax. destruct (fgt x y) eqn:E.
      - split; [by apply fle_refl|by apply fgt_fle].
      - split; [by apply (not_flt_fle y x)|by apply fle_refl]. }
    destruct Hmx as [Hm1 Hm2]. split.
    + apply elem_of_cons in Hin as [->|Hin].
      * rewrite Hmax. destruct (fgt x y); [by left|right; by left].
      * right. by right.
    + constructor; [by apply (fle_trans _ (np_maximum x y))|].
      constructor; [by apply (fle_trans _ (np_maximum x y))|done].
Qed.

Section CalculatorProps.

Import NdviCalculator.

Variables np_mean np_std np_median : list float -> float.
Variable np_percentile : list float -> Z -> float.
Variable cfg : Config.t.

(** What a returned result is made of. *)
Lemma calculate_ndvi_inv (b : bands) (r : ndvi_result) :
  calculate_ndvi np_mean np_std np_median np_percentile cfg b = Ok r ->
  let valid := valid_pixels (compute_ndvi b) in
  ndvi_array r = compute_ndvi b
  /\ total_pixels (stats r) = np_size valid
  /\ exists x xs,
       valid = x :: xs
       /\ stat_min (stats r) = F64.of_f32 (fold_left np_minimum xs x)
       /\ stat_max (stats r) = F64.of_f32 (fold_left np_maximum xs x).
Proof.
  cbv zeta. unfold calculate_ndvi, compute_statistics.
  destruct (valid_pixels (compute_ndvi b)) as [|x xs] eqn:E; [done|].
  simpl. intros [= <-]. simpl. eauto 10.
Qed.

(** No pixel enters the statistics exactly when every index value is NaN. *)
Lemma valid_pixels_all_nan (b : bands) :
  valid_pixels (compute_ndvi b) = []
  <-> Forall (fun v => is_nan v = true) (compute_ndvi b).
Proof.
  unfold valid_pixels. rewrite filter_none, !Forall_forall. split.
  - intros H v Hv. specialize (H v Hv).
    destruct (elem_of_compute_ndvi b v Hv) as (n & r & _ & _ & ->).
    destruct (ndvi_pixel_nan_or_range n r) as [Hn|Hr]; [done|].
    apply in_unit_range_gt_nodata in Hr. congruence.
  - intros H v Hv. specialize (H v Hv). by destruct v.
Qed.

(** X3. In every result of [calculate_ndvi] the [min] and [max] statistics
    are the values of two pixels that enter the statistics, the first below
    and the second above every such pixel, and both lie in [[-1, 1]]. *)
Theorem statistics_min_max (b : bands) (r : ndvi_result) :
  calculate_ndvi np_mean np_std np_median np_percentile cfg b = Ok r ->
  exists mn mx,
    stat_min (stats r) = F64.of_f32 mn /\ stat_max (stats r) = F64.of_f32 mx
    /\ mn ∈ valid_pixels (ndvi_array r) /\ mx ∈ valid_pixels (ndvi_array r)
    /\ Forall (fun v => fle mn v = true /\ fle v mx = true)
         (valid_pixels (ndvi_array r))
    /\ fle (F32.of_Z (-1)) mn = true /\ fle mn mx = true
    /\ fle mx (F32.of_Z 1) = true.
Proof.
  intros (Ha & _ & x & xs & E & Hmin & Hmax)%calculate_ndvi_inv.
  rewrite Ha.
  pose proof (valid_pixels_not_nan (compute_ndvi b)) as Hnan. rewrite E in Hnan.
  destruct (fold_minimum xs x Hnan) as [Hin1 Hall1].
  destruct (fold_maximum xs x Hnan) as [Hin2 Hall2].
  rewrite <- E in *.
  exists (fold_left np_minimum xs x), (fold_left np_maximum xs x).
  rewrite Forall_forall in Hall1, Hall2.
  destruct (valid_pixels_range b _ Hin1) as ([H1 _]%andb_prop & _).
  destruct (valid_pixels_range b _ Hin2) as ([_ H2]%andb_prop & _).
  split_and!; try done.
  - rewrite Forall_forall. intros v Hv. split; auto.
  - by apply Hall1.
Qed.

End CalculatorProps.

(** ** The index computation with its files *)

Section FileProps.

Import NdviCalculator.

Variables np_mean np_std np_median : list float -> float.
Variable np_percentile : list float -> Z -> float.
Variable cfg : Config.t.
Variable world : Type.
Variables dataset profile : Type.
Variable default_output_path : string -> string.
Variable mkdir_parent : string -> world -> result unit * world.
Variable rasterio_open : string -> world -> result dataset.
Variable src_read : dataset -> Z -> result (list sample).
Variable src_profile : dataset -> profile.
Variable src_crs : dataset -> string.
Variable write_geotiff :
  string -> output_profile profile -> list float -> string ->
  world -> result unit * world.
Variable utcnow : world -> string.

Abbreviation calculate :=
  (calculate_ndvi_file np_mean np_std np_median np_percentile cfg world dataset
     profile default_output_path mkdir_parent rasterio_open src_read src_profile
     src_crs write_geotiff utcnow).

(** The statistics raise exactly on an array without a valid pixel. *)
Lemma compute_statistics_ok (ndvi : list float) :
  valid_pixels ndvi <> [] ->
  exists st,
    compute_statistics np_mean np_std np_median np_percentile cfg ndvi = Ok st
    /\ total_pixels st = np_size (valid_pixels ndvi).
Proof.
  intros H. unfold compute_statistics.
  destruct (valid_pixels ndvi) as [|x xs]; [done|]. simpl. eauto.
Qed.

Lemma compute_statistics_raise (ndvi : list float) :
  valid_pixels ndvi = [] ->
  compute_statistics np_mean np_std np_median np_percentile cfg ndvi
  = Raise (PyExn "ValueError"
             "zero-size array to reduction operation minimum which has no identity").
Proof. intros H. unfold compute_statistics. by rewrite H. Qed.

(** The call when the directory is made, the source is opened with its Red
    and NIR bands, and the index raster is written: what is left is the
    statistics. *)
Lemma calculate_ndvi_file_steps (input_path : string) (output_path : option string)
    (w w1 w2 : world) (src : dataset) (red_band nir_band : list sample) :
  let out := default (default_output_path input_path) output_path in
  let ndvi :=
    compute_ndvi (Bands (map astype_float32 red_band) (map astype_float32 nir_band)) in
  mkdir_parent out w = (Ok (), w1) ->
  rasterio_open input_path w1 = Ok src ->
  src_read src 3 = Ok red_band ->
  src_read src 4 = Ok nir_band ->
  write_geotiff out (OutputProfile (src_profile src) "float32" 1 "deflate" (-9999))
    ndvi input_path w1 = (Ok (), w2) ->
  calculate input_path output_path w
  = match compute_statistics np_mean np_std np_median np_percentile cfg ndvi with
    | Ok st => (Ok (NdviDict input_path out (utcnow w2) st (src_crs src)), w2)
    | Raise e => (Raise e, w2)
    end.
Proof.
  cbv zeta. intros Hdir Hopen Hred Hnir Hwrite.
  unfold calculate_ndvi_file, mbind, fio_bind, reading, pure.
  rewrite Hdir. cbv beta iota. rewrite Hopen. cbv beta iota.
  rewrite Hred, Hnir. cbv beta iota. rewrite Hwrite. cbv beta iota.
  by destruct (compute_statistics _ _ _ _ _ _).
Qed.

(** X1. When the output directory is made, the input file is opened, its
    bands 3 and 4 (Red and NIR) are read and the index raster is written,
    then for a raster of at least one pixel whose Red and NIR samples, cast
    to [float32], are not infinite, [calculate_ndvi] returns its dict: every
    pixel enters the statistics, so [total_pixels] is the number of pixels
    of the raster. *)
Theorem calculate_ndvi_finite_raster (input_path : string)
    (output_path : option string) (w w1 w2 : world) (src : dataset)
    (red_band nir_band : list sample) :
  let out := default (default_output_path input_path) output_path in
  let ndvi :=
    compute_ndvi (Bands (map astype_float32 red_band) (map astype_float32 nir_band)) in
  mkdir_parent out w = (Ok (), w1) ->
  rasterio_open input_path w1 = Ok src ->
  src_read src 3 = Ok red_band ->
  src_read src 4 = Ok nir_band ->
  write_geotiff out (OutputProfile (src_profile src) "float32" 1 "deflate" (-9999))
    ndvi input_path w1 = (Ok (), w2) ->
  red_band <> [] -> length red_band = length nir_band ->
  Forall (fun x => not_infinite32 (astype_float32 x) = true) red_band ->
  Forall (fun x => not_infinite32 (astype_float32 x) = true) nir_band ->
  exists d,
    calculate input_path output_path w = (Ok d, w2)
    /\ input_file d = input_path /\ output_file d = out
    /\ valid_pixels ndvi = ndvi
    /\ total_pixels (statistics_of d) = Z.of_nat (length red_band).
Proof.
  cbv zeta. intros Hdir Hopen Hred Hnir Hwrite Hne Hlen Hfr Hfn.
  rewrite (calculate_ndvi_file_steps _ _ _ _ _ _ _ _ Hdir Hopen Hred Hnir Hwrite).
  set (b := Bands (map astype_float32 red_band) (map astype_float32 nir_band)).
  assert (Hall : Forall (fun v => fgt v NODATA = true) (compute_ndvi b)).
  { rewrite Forall_forall. intros v (n & r & Hn & Hr & ->)%elem_of_compute_ndvi.
    apply in_unit_range_gt_nodata, ndvi_pixel_in_range.
    - simpl in Hn. apply (list_elem_of_fmap (A:=sample)) in Hn as (x & -> & Hx).
      by apply (proj1 (Forall_forall _ _) Hfn).
    - simpl in Hr. apply (list_elem_of_fmap (A:=sample)) in Hr as (x & -> & Hx).
      by apply (proj1 (Forall_forall _ _) Hfr). }
  assert (Hvalid : valid_pixels (compute_ndvi b) = compute_ndvi b)
    by (by apply filter_all).
  assert (Hl : length (compute_ndvi b) = length red_band).
  { unfold compute_ndvi, b. simpl. rewrite length_zip_with, !length_map. lia. }
  destruct (compute_statistics_ok (compute_ndvi b)) as (st & -> & Ht).
  { rewrite Hvalid. intros E. rewrite E in Hl. by destruct red_band. }
  eexists. split_and!; [reflexivity|done|done|done|].
  simpl. rewrite Ht, Hvalid. unfold np_size. by rewrite Hl.
Qed.

(** X2. When the output directory is made, the input file is opened, its
    bands 3 and 4 (Red and NIR) are read and the index raster is written,
    [calculate_ndvi] raises exactly when no index value is a number, that is
    when the raster has no pixel or every pixel is NaN; what it raises then
    is the [ValueError] of [np.min] on an empty array, and the output file
    has been written before. *)
Theorem calculate_ndvi_raises_iff (input_path : string)
    (output_path : option string) (w w1 w2 : world) (src : dataset)
    (red_band nir_band : list sample) :
  let out := default (default_output_path input_path) output_path in
  let ndvi :=
    compute_ndvi (Bands (map astype_float32 red_band) (map astype_float32 nir_band)) in
  mkdir_parent out w = (Ok (), w1) ->
  rasterio_open input_path w1 = Ok src ->
  src_read src 3 = Ok red_band ->
  src_read src 4 = Ok nir_band ->
  write_geotiff out (OutputProfile (src_profile src) "float32" 1 "deflate" (-9999))
    ndvi input_path w1 = (Ok (), w2) ->
  let run := calculate input_path output_path w in
  ((exists e, run.1 = Raise e) <-> Forall (fun v => is_nan v = true) ndvi)
  /\ (forall e, run.1 = Raise e ->
        e = PyExn "ValueError"
              "zero-size array to reduction operation minimum which has no identity"
        /\ run.2 = w2).
Proof.
  cbv zeta. intros Hdir Hopen Hred Hnir Hwrite.
  rewrite (calculate_ndvi_file_steps _ _ _ _ _ _ _ _ Hdir Hopen Hred Hnir Hwrite).
  rewrite <- valid_pixels_all_nan.
  set (b := Bands (map astype_float32 red_band) (map astype_float32 nir_band)).
  destruct (valid_pixels (compute_ndvi b)) as [|x xs] eqn:E.
  - rewrite compute_statistics_raise by done. simpl.
    split; [split; eauto|]. by intros e [= <-].
  - destruct (compute_statistics_ok (compute_ndvi b)) as (st & -> & _);
      [by rewrite E|]. simpl.
    split; [|done]. split; [by intros [e He]|done].
Qed.

End FileProps.

(** ** Accuracy of the index *)

Section RoundingMore.

Variables prec emax : Z.
Hypothesis Hprec : 0 < prec.

(** Rounding a positive number of the normal range, whatever the length of
    its mantissa: the result is a normal float within one unit in the last
    place. *)
Lemma binary_round_normal (s : bool) (M : positive) (e : Z) :
  emin prec emax <= Zdigits2 (Zpos M) + e - prec -> Zdigits2 (Zpos M) + e < emax ->
  exists m2 e2 e0,
    binary_round prec emax s M e = S754_finite s m2 e2
    /\ bounded prec emax m2 e2 = true
    /\ Zdigits2 (Zpos m2) = prec
    /\ Zdigits2 (Zpos M) + e - prec <= e2 <= Zdigits2 (Zpos M) + e - prec + 1
    /\ e0 <= e /\ e0 <= e2
    /\ Z.abs (Zpos m2 * 2 ^ (e2 - e0) - Zpos M * 2 ^ (e - e0)) * 2 ^ (prec - 1)
       <= Zpos M * 2 ^ (e - e0).
Proof using Hprec.
  intros Hmin Hmax. unfold binary_round.
  change (Zpos (digits2_pos M)) with (Zdigits2 (Zpos M)).
  set (d := Zdigits2 (Zpos M)) in *. assert (Hd : d = Zdigits2 (Zpos M)) by done.
  clearbody d.
  assert (Hd1 : 1 <= d) by (subst d; simpl; lia).
  assert (Hfe : fexp prec emax (d + e) = d + e - prec) by (unfold fexp; lia).
  rewrite Hfe.
  pose proof (shl_align_spec M e (d + e - prec)) as Hsh. cbv zeta in Hsh.
  destruct (shl_align M e (d + e - prec)) as [Mz ez'] eqn:Esh. cbn [fst snd] in Hsh.
  destruct Hsh as [Hez' HMz].
  assert (Hp1 : 0 < 2 ^ (prec - 1)) by (apply Z.pow_pos_nonneg; lia).
  destruct (Z_le_gt_dec prec d) as [Hge|Hlt].
  - (* the mantissa is long enough: it is rounded *)
    replace (Z.min e (d + e - prec)) with e in * by lia. subst ez'.
    rewrite Z.sub_diag, Z.pow_0_r, Z.mul_1_r in HMz. injection HMz as ->.
    destruct (binary_round_aux_normal prec emax Hprec s (Zpos M) e loc_Exact)
      as (m2 & e2 & Hres & Hb & Hdig & He2 & Hlo & Hbr & _); try lia.
    rewrite <- Hd in *.
    exists m2, e2, e. rewrite Z.sub_diag, Z.pow_0_r, Z.mul_1_r.
    split_and!; try done; try lia.
    set (n1 := d - prec) in *. assert (0 <= n1) by lia. clearbody n1.
    assert (HN : 0 < 2 ^ n1) by (apply Z.pow_pos_nonneg; lia).
    pose proof (Z.div_mod (Zpos M) (2 ^ n1) ltac:(lia)) as Hdm.
    pose proof (Z.mod_pos_bound (Zpos M) (2 ^ n1) HN) as Hmod.
    set (m1 := Zpos M / 2 ^ n1) in *. clearbody m1.
    set (R := Zpos m2 * 2 ^ (e2 - e)) in *. clearbody R.
    set (N := 2 ^ n1) in *. clearbody N. set (P := 2 ^ (prec - 1)) in *. clearbody P.
    set (t := Zpos M mod N) in *. clearbody t.
    assert (H4 : Z.abs (R - Zpos M) <= N) by lia.
    nia.
  - (* the mantissa is short: it is shifted, which is exact *)
    replace (Z.min e (d + e - prec)) with (d + e - prec) in * by lia. subst ez'.
    replace (e - (d + e - prec)) with (prec - d) in HMz by lia.
    assert (HdMz : Zdigits2 (Zpos Mz) = prec).
    { rewrite HMz, Zdigits2_mul_pow2 by lia. lia. }
    destruct (binary_round_aux_normal prec emax Hprec s (Zpos Mz) (d + e - prec) loc_Exact)
      as (m2 & e2 & Hres & Hb & Hdig & He2 & _ & _ & Hexact); try lia.
    rewrite HdMz, Z.sub_diag in Hexact. destruct (Hexact eq_refl eq_refl) as [Hm2 He2'].
    exists m2, e2, e2. rewrite Z.sub_diag, Z.pow_0_r, Z.mul_1_r.
    split_and!; try done; try lia.
    rewrite Hm2, HMz, He2'. replace (e - (d + e - prec)) with (prec - d) by lia.
    rewrite Z.sub_diag. simpl. nia.
Qed.

(** The sign given to [binary_round_aux] is the sign of its result and
    nothing more. *)
Lemma binary_round_aux_sign (s : bool) (m e : Z) (l : location) :
  binary_round_aux prec emax s m e l =
    match binary_round_aux prec emax false m e l with
    | S754_zero _ => S754_zero s
    | S754_infinity _ => S754_infinity s
    | S754_nan => S754_nan
    | S754_finite _ m' e' => S754_finite s m' e'
    end.
Proof.
  unfold binary_round_aux.
  destruct (shr_fexp prec emax m e l) as [mrs' e'].
  destruct (shr_fexp prec emax _ e' loc_Exact) as [mrs'' e''].
  destruct (shr_m mrs''); try done. by destruct (_ <=? _).
Qed.

End RoundingMore.

Section IndexAccuracy.

Import NdviCalculator.

Lemma Zdigits2_bounds (k : Z) (d : Z) :
  0 < k < 2 ^ d -> 0 < d -> 1 <= Zdigits2 k <= d.
Proof.
  intros Hk Hd. split; [by apply Zdigits2_pos; lia|].
  apply Zdigits2_lt_pow2; lia.
Qed.

(** Rounding the integer [K], given as [K * 2^j] at the exponent [-j]. *)
Lemma binary_normalize_int (K j : Z) :
  K <> 0 -> Z.abs K < 2 ^ 25 -> 0 <= j ->
  rounded32 K (binary_normalize 24 128 (K * 2 ^ j) (- j) false).
Proof.
  intros HK Hlt Hj.
  assert (H2j : 0 < 2 ^ j) by (apply Z.pow_pos_nonneg; lia).
  assert (Hd : 1 <= Zdigits2 (Z.abs K) <= 25) by (apply Zdigits2_bounds; lia).
  assert (Hround : forall (s : bool) (p : positive),
            Zpos p = Z.abs K * 2 ^ j ->
            exists m e,
              binary_round 24 128 s p (- j) = S754_finite s m e
              /\ Zdigits2 (Zpos m) = 24 /\ -23 <= e <= 2
              /\ (- inject_Z (Z.abs K)
                  <= (inject_Z (Zpos m) * 2 ^ e - inject_Z (Z.abs K)) * (8388608 # 1)
                  <= inject_Z (Z.abs K))%Q).
  { intros s p Hp.
    assert (Hdp : Zdigits2 (Zpos p) = Zdigits2 (Z.abs K) + j).
    { rewrite Hp. apply Zdigits2_mul_pow2; lia. }
    destruct (binary_round_normal 24 128 ltac:(lia) s p (- j))
      as (m & e & e0 & Hres & _ & Hdig & He & He0 & He0' & Hbr).
    { rewrite Hdp. unfold emin. lia. }
    { rewrite Hdp. lia. }
    exists m, e. rewrite Hdp in He.
    split; [done|]. split; [done|]. split; [lia|].
    rewrite Hp in Hbr.
    assert (HY : Z.abs K * 2 ^ j * 2 ^ (- j - e0) = Z.abs K * 2 ^ (- e0)).
    { rewrite <- Z.mul_assoc, <- Z.pow_add_r by lia. f_equal. f_equal. lia. }
    rewrite HY in Hbr.
    pose proof (scale_error _ _ (2 ^ 23) (2 ^ e0)%Q
                  ltac:(apply Qlt_le_weak, pow2_pos) ltac:(lia) Hbr) as S.
    assert (E1 : (inject_Z (Zpos m * 2 ^ (e - e0)) * 2 ^ e0 == inject_Z (Zpos m) * 2 ^ e)%Q).
    { rewrite inject_Z_mult, pow2_inject by lia.
      rewrite <- Qmult_assoc, <- pow2_add. by replace (e - e0 + e0) with e by lia. }
    assert (E2 : (inject_Z (Z.abs K * 2 ^ (- e0)) * 2 ^ e0 == inject_Z (Z.abs K))%Q).
    { rewrite inject_Z_mult, pow2_inject by lia.
      rewrite <- Qmult_assoc, <- pow2_add. replace (- e0 + e0) with 0 by lia.
      simpl. ring. }
    rewrite E1, E2 in S. exact S. }
  unfold rounded32. destruct K as [|k|k]; [done|..].
  - destruct (Zpos k * 2 ^ j) as [|p|p] eqn:Ep; try lia.
    simpl binary_normalize. apply (Hround false p). simpl Z.abs. lia.
  - destruct (Zneg k * 2 ^ j) as [|p|p] eqn:Ep; try lia.
    simpl binary_normalize. apply (Hround true p). simpl Z.abs. lia.
Qed.

(** The conversion of a sample to [float32]. *)
Lemma of_Z_sample (n : Z) :
  0 < n < 2 ^ 24 ->
  exists m e,
    F32.of_Z n = S754_finite false m e
    /\ -23 <= e <= 0 /\ Zpos m = n * 2 ^ (- e).
Proof.
  intros Hn.
  destruct (binary_normalize_exact 24 128 ltac:(lia) ltac:(lia) n Hn)
    as (m & e & E & _ & _ & He & Hm).
  pose proof (Zdigits2_bounds n 24 Hn ltac:(lia)).
  exists m, e. split_and!; try done; lia.
Qed.

Lemma of_Z_rounded (n : Z) : 0 <= n < 2 ^ 24 -> rounded32 n (F32.of_Z n).
Proof.
  intros Hn. destruct (Z.eq_dec n 0) as [->|Hn0]; [done|].
  replace (F32.of_Z n) with (binary_normalize 24 128 (n * 2 ^ 0) (- 0) false).
  - apply binary_normalize_int; lia.
  - unfold F32.of_Z. simpl Z.pow. by rewrite Z.mul_1_r.
Qed.

(** Two samples, aligned on their smaller exponent. *)
Lemma aligned_samples (n r : Z) (mn mr : positive) (en er : Z) :
  -23 <= en <= 0 -> -23 <= er <= 0 ->
  Zpos mn = n * 2 ^ (- en) -> Zpos mr = r * 2 ^ (- er) ->
  let ez := Z.min en er in
  Zpos (fst (shl_align mn en ez)) = n * 2 ^ (- ez)
  /\ Zpos (fst (shl_align mr er ez)) = r * 2 ^ (- ez).
Proof.
  intros Hen Her Hmn Hmr. cbv zeta.
  destruct (shl_align_spec mn en (Z.min en er)) as [_ Ha].
  destruct (shl_align_spec mr er (Z.min en er)) as [_ Hb].
  replace (Z.min en (Z.min en er)) with (Z.min en er) in Ha by lia.
  replace (Z.min er (Z.min en er)) with (Z.min en er) in Hb by lia.
  rewrite Ha, Hb, Hmn, Hmr, <- !Z.mul_assoc, <- !Z.pow_add_r by lia.
  split; f_equal; f_equal; lia.
Qed.

Lemma add_rounded (n r : Z) :
  0 <= n < 2 ^ 24 -> 0 <= r < 2 ^ 24 ->
  rounded32 (n + r) (F32.add (F32.of_Z n) (F32.of_Z r)).
Proof.
  intros Hn Hr.
  destruct (Z.eq_dec n 0) as [->|Hn0].
  { replace (F32.add (F32.of_Z 0) (F32.of_Z r)) with (F32.of_Z r).
    - by apply of_Z_rounded.
    - destruct (Z.eq_dec r 0) as [->|Hr0]; [done|].
      destruct (of_Z_sample r ltac:(lia)) as (m & e & -> & _). done. }
  destruct (Z.eq_dec r 0) as [->|Hr0].
  { rewrite Z.add_0_r.
    replace (F32.add (F32.of_Z n) (F32.of_Z 0)) with (F32.of_Z n).
    - by apply of_Z_rounded.
    - destruct (of_Z_sample n ltac:(lia)) as (m & e & -> & _). done. }
  destruct (of_Z_sample n ltac:(lia)) as (mn & en & -> & Hen & Hmn).
  destruct (of_Z_sample r ltac:(lia)) as (mr & er & -> & Her & Hmr).
  unfold F32.add, F32.prec, F32.emax. cbn [SFadd cond_Zopp].
  destruct (aligned_samples n r mn mr en er Hen Her Hmn Hmr) as [-> ->].
  rewrite <- Z.mul_add_distr_r.
  replace (Z.min en er) with (- - Z.min en er) at 2 by lia.
  apply binary_normalize_int; lia.
Qed.

Lemma sub_rounded (n r : Z) :
  0 <= n < 2 ^ 24 -> 0 <= r < 2 ^ 24 ->
  rounded32 (n - r) (F32.sub (F32.of_Z n) (F32.of_Z r)).
Proof.
  intros Hn Hr.
  destruct (Z.eq_dec r 0) as [->|Hr0].
  { rewrite Z.sub_0_r.
    replace (F32.sub (F32.of_Z n) (F32.of_Z 0)) with (F32.of_Z n).
    - by apply of_Z_rounded.
    - destruct (Z.eq_dec n 0) as [->|Hn0]; [done|].
      destruct (of_Z_sample n ltac:(lia)) as (m & e & -> & _). done. }
  destruct (Z.eq_dec n 0) as [->|Hn0].
  { destruct (of_Z_sample r ltac:(lia)) as (mr & er & E & Her & Hmr).
    pose proof (of_Z_rounded r Hr) as Hrr. rewrite E in *.
    change (F32.sub (F32.of_Z 0) (S754_finite false mr er))
      with (S754_finite true mr er).
    unfold rounded32 in *. destruct r as [|p|p]; try lia. simpl Z.sub.
    destruct Hrr as (m & e & [= <- <-] & Hd & He & Hb).
    exists mr, er. split; [done|]. split; [done|]. split; done. }
  destruct (of_Z_sample n ltac:(lia)) as (mn & en & -> & Hen & Hmn).
  destruct (of_Z_sample r ltac:(lia)) as (mr & er & -> & Her & Hmr).
  unfold F32.sub, F32.prec, F32.emax. cbn [SFsub cond_Zopp].
  destruct (aligned_samples n r mn mr en er Hen Her Hmn Hmr) as [-> ->].
  rewrite <- Z.mul_sub_distr_r.
  replace (Z.min en er) with (- - Z.min en er) at 2 by lia.
  destruct (Z.eq_dec (n - r) 0) as [E|E].
  - rewrite E. done.
  - apply binary_normalize_int; lia.
Qed.

(** The quotient of two normal numbers of the range of the samples: a
    normal number of the sign of the dividend, within the relative error
    [2^-23] of the exact quotient of the two magnitudes. *)
Lemma div_rounded (s : bool) (mx : positive) (ex : Z) (my : positive) (ey : Z) :
  Zdigits2 (Zpos mx) = 24 -> Zdigits2 (Zpos my) = 24 ->
  -23 <= ex <= 2 -> -23 <= ey <= 2 ->
  exists m e,
    F32.div (S754_finite s mx ex) (S754_finite false my ey) = S754_finite s m e
    /\ Zdigits2 (Zpos m) = 24
    /\ let t := ((inject_Z (Zpos mx) * 2 ^ ex) / (inject_Z (Zpos my) * 2 ^ ey))%Q in
       (- t <= (inject_Z (Zpos m) * 2 ^ e - t) * (8388608 # 1) <= t)%Q.
Proof.
  intros Hdx Hdy Hex Hey.
  destruct (SFdiv_normal 24 128 ltac:(lia) mx ex my ey Hdx Hdy)
    as (m & e & Hres & _ & Hd & He & I1); [unfold emin; lia|lia|].
  exists m, e. split; [|split; [done|]].
  - unfold F32.div, F32.prec, F32.emax in *. cbn [SFdiv] in *.
    destruct (SFdiv_core_binary 24 128 (Zpos mx) ex (Zpos my) ey) as [[mz ez] lz].
    rewrite xorb_false_r, binary_round_aux_sign. cbn [xorb] in Hres. by rewrite Hres.
  - cbv zeta.
    assert (Hmy : ~ (inject_Z (Zpos my) == 0)%Q) by (intros H; discriminate H).
    assert (Hpy : (0 < 2 ^ ey)%Q) by apply pow2_pos.
    set (c := (2 ^ (ex - ey - 24) / inject_Z (Zpos my))%Q).
    assert (Hc : (0 <= c)%Q).
    { unfold c. apply Qlt_le_weak, Qlt_shift_div_l; [reflexivity|].
      rewrite Qmult_0_l. apply pow2_pos. }
    assert (Ea : (inject_Z (Zpos m * 2 ^ (e - (ex - ey - 24)) * Zpos my) * c
                  == inject_Z (Zpos m) * 2 ^ e)%Q).
    { unfold c. rewrite (inject_Z_mult _ (Zpos my)), inject_Z_mult, pow2_inject by lia.
      assert (Hs : (2 ^ e == 2 ^ (e - (ex - ey - 24)) * 2 ^ (ex - ey - 24))%Q).
      { rewrite <- pow2_add. by replace (e - (ex - ey - 24) + (ex - ey - 24)) with e by lia. }
      rewrite Hs. field. done. }
    assert (Et : (inject_Z (Zpos mx * 2 ^ 24) * c
                  == (inject_Z (Zpos mx) * 2 ^ ex) / (inject_Z (Zpos my) * 2 ^ ey))%Q).
    { unfold c. rewrite inject_Z_mult, (pow2_inject 24) by lia.
      assert (Hs : (2 ^ ex == 2 ^ (ex - ey - 24) * 2 ^ 24 * 2 ^ ey)%Q).
      { rewrite <- !pow2_add. by replace (ex - ey - 24 + 24 + ey) with ex by lia. }
      rewrite Hs. field. split; [lra|done]. }
    pose proof (scale_error _ _ (2 ^ 23) c Hc ltac:(lia) I1) as S.
    rewrite Ea, Et in S. exact S.
Qed.

(** Clamping a normal number to [[-1, 1]]: it is kept, or it is at least 1
    in magnitude and replaced by the bound of its sign. *)
Lemma clip_normal (s : bool) (m : positive) (e : Z) :
  Zdigits2 (Zpos m) = 24 ->
  let x := S754_finite s m e in
  clip x (F32.of_Z (-1)) (F32.of_Z 1) = x
  \/ ((1 <= inject_Z (Zpos m) * 2 ^ e)%Q
      /\ clip x (F32.of_Z (-1)) (F32.of_Z 1)
         = S754_finite s 8388608 (-23)).
Proof.
  intros Hd. cbv zeta.
  apply (normal_mantissa 24) in Hd as [Hm1 Hm2].
  assert (Hmag : -23 <= e -> (1 <= inject_Z (Zpos m) * 2 ^ e)%Q).
  { intros He.
    assert (E : (inject_Z (Zpos m) * 2 ^ e == inject_Z (Zpos m * 2 ^ (e + 23)) * 2 ^ (-23))%Q).
    { rewrite inject_Z_mult, pow2_inject by lia.
      rewrite <- Qmult_assoc, <- pow2_add. by replace (e + 23 + -23) with e by lia. }
    rewrite E.
    assert (H : 8388608 <= Zpos m * 2 ^ (e + 23)).
    { assert (1 <= 2 ^ (e + 23)) by (apply Z.lt_pred_le, Z.pow_pos_nonneg; lia).
      change (2 ^ (24 - 1)) with 8388608 in Hm1. nia. }
    rewrite Zle_Qle in H.
    change (2 ^ (-23))%Q with (1 # 8388608)%Q.
    set (q := inject_Z (Zpos m * 2 ^ (e + 23))) in *. clearbody q.
    change (inject_Z 8388608) with (8388608 # 1)%Q in H. lra. }
  change (F32.of_Z (-1)) with (S754_finite true 8388608 (-23)).
  change (F32.of_Z 1) with (S754_finite false 8388608 (-23)).
  unfold clip, npy_max, fgt. cbn [is_nan].
  destruct s.
  - (* a negative number *)
    destruct (SFltb (S754_finite true 8388608 (-23)) (S754_finite true m e)) eqn:E.
    + by left.
    + right. split; [|done]. apply Hmag.
      unfold SFltb, SFcompare in E.
      destruct (Z.compare_spec (-23) e); [lia|lia|discriminate].
  - (* a positive number *)
    change (SFltb (S754_finite true 8388608 (-23)) (S754_finite false m e)) with true.
    cbv iota. unfold npy_min, flt. cbn [is_nan].
    destruct (SFltb (S754_finite false m e) (S754_finite false 8388608 (-23))) eqn:E.
    + by left.
    + right. split; [|done]. apply Hmag.
      unfold SFltb, SFcompare in E.
      destruct (Z.compare_spec e (-23)); [lia|discriminate|lia].
Qed.

Lemma accuracy_core (x Y sa a t qa : Q) :
  (0 <= x <= 1 -> 0 < Y -> 0 < a -> t * a == sa ->
   - (x * Y) <= (sa - x * Y) * (8388608 # 1) <= x * Y ->
   - Y <= (a - Y) * (8388608 # 1) <= Y ->
   - t <= (qa - t) * (8388608 # 1) <= t ->
   - (1 # 2097152) <= qa - x <= 1 # 2097152)%Q.
Proof.
  intros Hx HY Ha Ht [S1 S2] [A1 A2] [Q1 Q2].
  assert (B1 : ((t - x) * a * (8388608 # 1) <= 2 * x * Y)%Q) by nra.
  assert (B2 : (- (2 * x * Y) <= (t - x) * a * (8388608 # 1))%Q) by nra.
  assert (B3 : (Y * (8388607 # 1) <= a * (8388608 # 1))%Q) by lra.
  assert (B4 : ((t - x) * (8388607 # 1) <= 2)%Q).
  { destruct (Qlt_le_dec (t - x) 0) as [Hneg|Hpos]; [lra|].
    assert (((t - x) * (Y * (8388607 # 1)) <= 2 * x * Y)%Q) by nra.
    assert (((t - x) * (8388607 # 1) * Y <= 2 * Y)%Q) by nra.
    nra. }
  assert (B5 : (-2 <= (t - x) * (8388607 # 1))%Q).
  { destruct (Qlt_le_dec 0 (t - x)) as [Hpos|Hneg]; [lra|].
    assert ((- (2 * x * Y) <= (t - x) * (Y * (8388607 # 1)))%Q) by nra.
    assert ((- (2 * Y) <= (t - x) * (8388607 # 1) * Y)%Q) by nra.
    nra. }
  split; lra.
Qed.

(** X17. For integer samples from 0 to [2^24 - 1] (every sample of a
    [uint8] or [uint16] raster is one) that are not both 0, the index that
    [calculate_ndvi] computes in [float32] is a finite number within
    [2^-21] of the exact quotient (NIR - Red) / (NIR + Red). *)
Theorem ndvi_pixel_accuracy (n r : Z) :
  0 <= n < 2 ^ 24 -> 0 <= r < 2 ^ 24 -> 0 < n + r ->
  let v := ndvi_pixel (F32.of_Z n) (F32.of_Z r) in
  is_finite v = true
  /\ (Qabs (F2Q v - inject_Z (n - r) / inject_Z (n + r)) <= 1 # 2097152)%Q.
Proof.
  intros Hn Hr Hs. cbv zeta.
  pose proof (add_rounded n r Hn Hr) as HA. pose proof (sub_rounded n r Hn Hr) as HS.
  unfold ndvi_pixel, ndvi_raw.
  assert (Hle : Z.abs (n - r) <= n + r) by lia.
  set (A := F32.add (F32.of_Z n) (F32.of_Z r)) in *. clearbody A.
  set (S := F32.sub (F32.of_Z n) (F32.of_Z r)) in *. clearbody S.
  set (X := n - r) in *. clearbody X. set (Y := n + r) in *. clearbody Y.
  unfold rounded32 in HA. destruct Y as [|Y|Y]; try lia.
  destruct HA as (ma & ea & -> & Hda & Hea & BA).
  change (fgt (S754_finite (Z.pos Y <? 0) ma ea) (S754_zero false)) with true.
  cbv iota. change (Z.pos Y <? 0) with false.
  assert (HY : (0 < inject_Z (Z.pos Y))%Q) by reflexivity.
  assert (Ha : (0 < inject_Z (Z.pos ma) * 2 ^ ea)%Q).
  { apply Qmult_lt_0_compat; [reflexivity|apply pow2_pos]. }
  change (Z.abs (Z.pos Y)) with (Z.pos Y) in BA.
  assert (Hmain : forall (s : bool) (ms : positive) (es : Z),
    Zdigits2 (Z.pos ms) = 24 -> -23 <= es <= 2 ->
    (- inject_Z (Z.abs X)
     <= (inject_Z (Z.pos ms) * 2 ^ es - inject_Z (Z.abs X)) * (8388608 # 1)
     <= inject_Z (Z.abs X))%Q ->
    exists v qa,
      clip (F32.div (S754_finite s ms es) (S754_finite false ma ea))
        (F32.of_Z (-1)) (F32.of_Z 1) = v
      /\ is_finite v = true
      /\ (F2Q v == (if s then - qa else qa))%Q
      /\ (- (1 # 2097152)
          <= qa - inject_Z (Z.abs X) / inject_Z (Z.pos Y)
          <= 1 # 2097152)%Q).
  { intros s ms es Hds Hes BS.
    destruct (div_rounded s ms es ma ea Hds Hda Hes Hea) as (m & e & -> & Hd & BQ).
    cbv zeta in BQ.
    set (x := (inject_Z (Z.abs X) / inject_Z (Z.pos Y))%Q).
    assert (Hx : (0 <= x <= 1)%Q).
    { unfold x. split.
      - apply Qle_shift_div_l; [done|]. rewrite Qmult_0_l.
        rewrite <- (Zle_Qle 0). lia.
      - apply Qle_shift_div_r; [done|]. rewrite Qmult_1_l.
        rewrite <- Zle_Qle. lia. }
    assert (HxY : (x * inject_Z (Z.pos Y) == inject_Z (Z.abs X))%Q).
    { unfold x. field. intros H. rewrite H in HY. lra. }
    rewrite <- HxY in BS.
    set (sa := (inject_Z (Z.pos ms) * 2 ^ es)%Q) in *.
    set (a := (inject_Z (Z.pos ma) * 2 ^ ea)%Q) in *.
    set (qa := (inject_Z (Z.pos m) * 2 ^ e)%Q) in *.
    assert (Ht : (sa / a * a == sa)%Q) by (field; lra).
    pose proof (accuracy_core x (inject_Z (Z.pos Y)) sa a (sa / a) qa
                  Hx HY Ha Ht BS BA BQ) as [Hacc1 Hacc2].
    destruct (clip_normal s m e Hd) as [->|[Hone ->]].
    - exists (S754_finite s m e), qa. split_and!; try done.
      unfold F2Q, qa. destruct s; simpl cond_Zopp; [|reflexivity].
      rewrite inject_Z_opp.
      generalize (2 ^ e)%Q (inject_Z (Z.pos m)). intros p q. ring.
    - fold qa in Hone. exists (S754_finite s 8388608 (-23)), 1%Q.
      split_and!; try done.
      + by destruct s.
      + lra.
      + lra. }
  unfold rounded32 in HS. destruct X as [|X|X].
  - subst S. split; [done|].
    change (clip (F32.div (S754_zero false) (S754_finite false ma ea))
              (F32.of_Z (-1)) (F32.of_Z 1)) with (S754_zero false).
    apply Qabs_Qle_condition. unfold F2Q, Qdiv.
    change (inject_Z 0) with 0%Q. split.
    + ring_simplify. done.
    + ring_simplify. done.
  - destruct HS as (ms & es & -> & Hds & Hes & BS).
    change (Z.pos X <? 0) with false.
    destruct (Hmain false ms es Hds Hes BS) as (v & qa & -> & Hf & Hv & [B1 B2]).
    split; [done|]. rewrite Hv. change (Z.abs (Z.pos X)) with (Z.pos X) in *.
    apply Qabs_Qle_condition. split; lra.
  - destruct HS as (ms & es & -> & Hds & Hes & BS).
    change (Z.neg X <? 0) with true.
    destruct (Hmain true ms es Hds Hes BS) as (v & qa & -> & Hf & Hv & [B1 B2]).
    split; [done|]. rewrite Hv. change (Z.abs (Z.neg X)) with (Z.pos X) in *.
    assert (E : (inject_Z (Z.neg X) / inject_Z (Z.pos Y)
                 == - (inject_Z (Z.pos X) / inject_Z (Z.pos Y)))%Q).
    { change (inject_Z (Z.neg X)) with (- inject_Z (Z.pos X))%Q. field.
      intros H. rewrite H in HY. lra. }
    rewrite E. apply Qabs_Qle_condition. split; lra.
Qed.

End IndexAccuracy.

(** ** The colour map *)

Section ColormapProps.

Import NdviToRgb.

Variable cfg : Config.t.
Variable uint8_of_nan : Z.

(** X16. With the thresholds in increasing order, [ndvi_to_rgb] paints a
    pixel by its class and no mask overwrites another: Critical is
    (142, 68, 173), Severe Stress (231, 76, 60), Healthy (46, 204, 113); a
    NaN pixel keeps the initial black, and black is found on a NaN or a
    Moderate Stress pixel only.  The marker -9999 is not set apart: when it
    is at most the Severe threshold it is painted as Critical. *)
Theorem ndvi_to_rgb_paints_by_class (v : float) :
  fle (NdviCalculator.T_severe cfg) (NdviCalculator.T_moderate cfg) = true ->
  fle (NdviCalculator.T_moderate cfg) (NdviCalculator.T_healthy cfg) = true ->
  let colour := ndvi_to_rgb_pixel cfg uint8_of_nan v in
  (is_nan v = true -> colour = (0, 0, 0))
  /\ (fle v (NdviCalculator.T_severe cfg) = true -> colour = (142, 68, 173))
  /\ (fgt v (NdviCalculator.T_severe cfg) && fle v (NdviCalculator.T_moderate cfg) = true ->
      colour = (231, 76, 60))
  /\ (fgt v (NdviCalculator.T_healthy cfg) = true -> colour = (46, 204, 113))
  /\ (fle NdviCalculator.NODATA (NdviCalculator.T_severe cfg) = true ->
      ndvi_to_rgb_pixel cfg uint8_of_nan NdviCalculator.NODATA = (142, 68, 173))
  /\ (colour = (0, 0, 0) ->
      is_nan v = true
      \/ fgt v (NdviCalculator.T_moderate cfg)
         && fle v (NdviCalculator.T_healthy cfg) = true).
Proof.
  intros H1 H2. cbv zeta.
  assert (Hcase : forall x, is_nan x = false ->
            class_count (NdviCalculator.T_severe cfg) (NdviCalculator.T_moderate cfg)
              (NdviCalculator.T_healthy cfg) x = 1)
    by (intros; by apply class_partition).
  assert (Hpaint : forall x,
    (is_nan x = true -> ndvi_to_rgb_pixel cfg uint8_of_nan x = (0, 0, 0))
    /\ (fle x (NdviCalculator.T_severe cfg) = true ->
        ndvi_to_rgb_pixel cfg uint8_of_nan x = (142, 68, 173))
    /\ (fgt x (NdviCalculator.T_severe cfg) && fle x (NdviCalculator.T_moderate cfg) = true ->
        ndvi_to_rgb_pixel cfg uint8_of_nan x = (231, 76, 60))
    /\ (fgt x (NdviCalculator.T_healthy cfg) = true ->
        ndvi_to_rgb_pixel cfg uint8_of_nan x = (46, 204, 113))
    /\ (ndvi_to_rgb_pixel cfg uint8_of_nan x = (0, 0, 0) -> is_nan x = true
          \/ fgt x (NdviCalculator.T_moderate cfg)
             && fle x (NdviCalculator.T_healthy cfg) = true)).
  { intros x. destruct (is_nan x) eqn:Hn.
    - destruct x; try done.
      assert (Hg : forall y, fgt S754_nan y = false) by (intros y; by destruct y).
      assert (Hl : forall y, fle S754_nan y = false) by done.
      unfold ndvi_to_rgb_pixel. rewrite !Hg, !Hl. cbn [andb].
      split_and!; try done. intros _; by left.
    - specialize (Hcase x Hn). unfold class_count in Hcase.
      unfold ndvi_to_rgb_pixel.
      destruct (fle x (NdviCalculator.T_severe cfg));
        destruct (fgt x (NdviCalculator.T_severe cfg) && fle x (NdviCalculator.T_moderate cfg));
        destruct (fgt x (NdviCalculator.T_moderate cfg) && fle x (NdviCalculator.T_healthy cfg));
        destruct (fgt x (NdviCalculator.T_healthy cfg));
        simpl in Hcase; try lia; split_and!; try done; intros; by right. }
  destruct (Hpaint v) as (P1 & P2 & P3 & P4 & P5).
  destruct (Hpaint NdviCalculator.NODATA) as (_ & Q2 & _).
  split_and!; done.
Qed.

End ColormapProps.

(** ** Further properties of the classifier *)

Section ClassifierMoreProps.

Import HealthClassifier.

Variables fmt_pct0 fmt_f0 fmt_f1 : float -> string.
Variable round1 : float -> float.
Variable utcnow : string.
Variables np_mean np_std : list float -> float.
Variable cfg : Config.t.

(** What a returned classification is made of. *)
Lemma classify_health_parts (path : string) (ndvi : list float)
    (w : option weather) (c : classification) :
  classify_health fmt_pct0 fmt_f0 fmt_f1 round1 utcnow np_mean np_std cfg
    path ndvi w = Ok c ->
  let valid := NdviCalculator.valid_pixels ndvi in
  let h := np_count (NdviCalculator.healthy_mask cfg valid) in
  let m := np_count (NdviCalculator.moderate_mask cfg valid) in
  let s := np_count (NdviCalculator.severe_mask cfg valid) in
  let k := np_count (NdviCalculator.critical_mask cfg valid) in
  let total := np_size valid in
  valid <> []
  /\ counts c = PixelCounts h m s k total
  /\ pcts c = Percentages (percentage round1 h total) (percentage round1 m total)
                (percentage round1 s total) (percentage round1 k total)
  /\ overall_health c = _overall_health h m s k total.
Proof.
  cbv zeta. unfold classify_health.
  change (List.filter (fun v => fgt v (F32.of_Z (-9999))) ndvi)
    with (NdviCalculator.valid_pixels ndvi).
  destruct (NdviCalculator.valid_pixels ndvi) as [|x xs] eqn:E; [done|].
  cbn [np_min np_max mbind result_bind mret result_ret].
  intros [= <-]. split; [done|]. by destruct (truthy w).
Qed.

(** X4. With the thresholds in increasing order, the four pixel counts of a
    classification add up to its total, none is negative, and the total is
    at least one and at most the number of pixels of the raster. *)
Theorem classify_health_counts_sum (path : string) (ndvi : list float)
    (w : option weather) (c : classification) :
  fle (NdviCalculator.T_severe cfg) (NdviCalculator.T_moderate cfg) = true ->
  fle (NdviCalculator.T_moderate cfg) (NdviCalculator.T_healthy cfg) = true ->
  classify_health fmt_pct0 fmt_f0 fmt_f1 round1 utcnow np_mean np_std cfg
    path ndvi w = Ok c ->
  let k := counts c in
  pc_healthy k + pc_moderate_stress k + pc_severe_stress k + pc_critical k
    = pc_total k
  /\ 0 <= pc_healthy k /\ 0 <= pc_moderate_stress k
  /\ 0 <= pc_severe_stress k /\ 0 <= pc_critical k
  /\ 0 < pc_total k <= Z.of_nat (length ndvi).
Proof.
  intros H1 H2 (Hne & -> & _)%classify_health_parts. cbv zeta. simpl.
  pose proof (class_counts_sum cfg _ H1 H2 (valid_pixels_not_nan ndvi)) as Hsum.
  pose proof (np_count_bounds
                (NdviCalculator.healthy_mask cfg (NdviCalculator.valid_pixels ndvi))).
  pose proof (np_count_bounds
                (NdviCalculator.moderate_mask cfg (NdviCalculator.valid_pixels ndvi))).
  pose proof (np_count_bounds
                (NdviCalculator.severe_mask cfg (NdviCalculator.valid_pixels ndvi))).
  pose proof (np_count_bounds
                (NdviCalculator.critical_mask cfg (NdviCalculator.valid_pixels ndvi))).
  assert (Hlen : (0 < length (NdviCalculator.valid_pixels ndvi) <= length ndvi)%nat).
  { split.
    - destruct (NdviCalculator.valid_pixels ndvi); [done|simpl; lia].
    - unfold NdviCalculator.valid_pixels. apply List.filter_length_le. }
  unfold np_size in *. split_and!; lia.
Qed.

(** X5. A classification that [classify_health] returns has at least one
    valid pixel: its overall health is one of Good, Fair, Poor and Critical
    and never "No Data", and each percentage is the rounded ratio of its
    count to the total, never the 0 of the [else] branch. *)
Theorem classify_health_never_no_data (path : string) (ndvi : list float)
    (w : option weather) (c : classification) :
  classify_health fmt_pct0 fmt_f0 fmt_f1 round1 utcnow np_mean np_std cfg
    path ndvi w = Ok c ->
  let k := counts c in
  let ratio n := round1 (F64.mul (int_div n (pc_total k)) (F64.of_Z 100)) in
  0 < pc_total k
  /\ overall_health c ∈ ["Good"; "Fair"; "Poor"; "Critical"]
  /\ overall_health c <> "No Data"
  /\ pcts c = Percentages (ratio (pc_healthy k)) (ratio (pc_moderate_stress k))
                (ratio (pc_severe_stress k)) (ratio (pc_critical k)).
Proof.
  intros (Hne & Hk & Hp & Ho)%classify_health_parts. cbv zeta.
  rewrite Hk, Hp, Ho. simpl.
  assert (Hpos : 0 < np_size (NdviCalculator.valid_pixels ndvi)).
  { unfold np_size. destruct (NdviCalculator.valid_pixels ndvi); [done|simpl; lia]. }
  assert (Hlabel : forall h m s k,
            _overall_health h m s k (np_size (NdviCalculator.valid_pixels ndvi))
              ∈ ["Good"; "Fair"; "Poor"; "Critical"]).
  { intros. unfold _overall_health.
    destruct (Z.eqb_spec (np_size (NdviCalculator.valid_pixels ndvi)) 0); [lia|].
    repeat match goal with |- context [if ?b then _ else _] => destruct b end;
      repeat constructor. }
  split_and!.
  - done.
  - apply Hlabel.
  - intros E.
    specialize (Hlabel
      (np_count (NdviCalculator.healthy_mask cfg (NdviCalculator.valid_pixels ndvi)))
      (np_count (NdviCalculator.moderate_mask cfg (NdviCalculator.valid_pixels ndvi)))
      (np_count (NdviCalculator.severe_mask cfg (NdviCalculator.valid_pixels ndvi)))
      (np_count (NdviCalculator.critical_mask cfg (NdviCalculator.valid_pixels ndvi)))).
    rewrite E in Hlabel. not_elem_of Hlabel.
  - unfold percentage. apply Z.ltb_lt in Hpos. by rewrite Hpos.
Qed.

(** X6. The weather data reaches nothing but the alerts: classifying without
    weather gives the result of classifying with it, alerts emptied (counts,
    percentages, overall health and recommendations are the same), and it
    raises exactly when classifying with the weather raises. *)
Theorem classify_health_weather_only_alerts (path : string) (ndvi : list float)
    (w : option weather) :
  classify_health fmt_pct0 fmt_f0 fmt_f1 round1 utcnow np_mean np_std cfg
    path ndvi None
  = (c ← classify_health fmt_pct0 fmt_f0 fmt_f1 round1 utcnow np_mean np_std cfg
           path ndvi w;
     mret (set_alerts c [])).
Proof.
  unfold classify_health.
  destruct (np_min _) as [mn|e]; [|done]. destruct (np_max _) as [mx|e]; [|done].
  cbn [mbind result_bind mret result_ret]. by destruct (truthy w).
Qed.

Lemma frost_excludes_disease (temp : float) :
  fgt temp (F64.of_Z 18) = true -> flt temp (F64.of_Z 2) = false.
Proof.
  intros H. destruct (flt temp (F64.of_Z 2)) eqn:E; [|done].
  pose proof (flt_trans _ _ _ H E) as Hc. by vm_compute in Hc.
Qed.

(** X7. Whatever the classification and the weather, the alerts come in the
    order drought, disease, frost; the disease alert (temperature above 18)
    and the frost alert (temperature below 2) never come together, so there
    are two alerts at most; the drought alert is the only CRITICAL one. *)
Theorem weather_alerts_at_most_two (c : classification) (w : weather) :
  let alerts := _weather_correlated_alerts fmt_pct0 fmt_f0 fmt_f1 c w in
  let titles := map alert_title alerts in
  (length alerts <= 2)%nat
  /\ sublist titles
       ["Drought Stress Detected"; "Disease Risk Elevated"; "Frost Damage Risk"]
  /\ ~ ("Disease Risk Elevated" ∈ titles /\ "Frost Damage Risk" ∈ titles)
  /\ Forall (fun a => alert_type a =
                      if String.eqb (alert_title a) "Drought Stress Detected"
                      then "CRITICAL" else "WARNING") alerts.
Proof.
  cbv zeta. unfold _weather_correlated_alerts.
  set (temp := default (F64.of_Z 20) (default ∅ (w !! "current") !! "temperature_c")).
  pose proof (frost_excludes_disease temp) as Hex.
  destruct (flt _ (F64.lit 2 10) && _);
    destruct (fgt _ (F64.of_Z 80)); destruct (fgt temp (F64.of_Z 18));
    destruct (fgt (moderate_stress _) _); destruct (flt temp (F64.of_Z 2));
    destruct (fgt (healthy _) _); cbn [andb app map alert_title length];
    try (discriminate (Hex eq_refl));
    (split_and!;
     [ lia
     | eauto 10 using sublist_nil, sublist_skip, sublist_cons
     | intros [H1 H2]; first [ not_elem_of H1 | not_elem_of H2 ]
     | repeat constructor ]).
Qed.

End ClassifierMoreProps.

(** ** The agricultural alerts of the weather fetcher *)

Section WeatherProps.

Import WeatherFetcher.

Variable fmt_f1 : float -> string.

Lemma frost_excludes_fungus (temp : float) :
  flt temp (F64.of_Z 2) = true -> fgt temp (F64.of_Z 15) = false.
Proof.
  intros H. destruct (fgt temp (F64.of_Z 15)) eqn:E; [|done].
  pose proof (flt_trans _ _ _ E H) as Hc. by vm_compute in Hc.
Qed.

(** X15. [_generate_ag_alerts] never returns an empty list.  The alerts come
    in the order irrigation, frost, disease, spray, with one irrigation
    alert at most; frost (temperature below 2) and disease (temperature
    above 15) never come together, so there are three alerts at most.  The
    INFO alert "general" is there exactly when no condition holds, and it is
    then the whole list; it is the only alert of severity 0. *)
Theorem ag_alerts_never_empty (temp humidity soil_moisture wind : float) :
  let alerts := _generate_ag_alerts fmt_f1 temp humidity soil_moisture wind in
  let cats := map category alerts in
  alerts <> []
  /\ (length alerts <= 3)%nat
  /\ sublist cats ["irrigation"; "frost"; "disease"; "spray"; "general"]
  /\ ("general" ∈ cats <-> cats = ["general"])
  /\ ("general" ∈ cats <->
      flt soil_moisture (F64.lit 25 100) = false
      /\ flt temp (F64.of_Z 2) = false
      /\ fgt humidity (F64.of_Z 85) && fgt temp (F64.of_Z 15) = false
      /\ fgt wind (F64.of_Z 10) = false)
  /\ ~ ("frost" ∈ cats /\ "disease" ∈ cats)
  /\ Forall (fun a => 0 <= severity a <= 5
                      /\ (severity a = 0 <-> category a = "general")) alerts.
Proof.
  cbv zeta. unfold _generate_ag_alerts.
  pose proof (frost_excludes_fungus temp) as Hex.
  assert (Hsoil : flt soil_moisture (F64.lit 15 100) = true ->
                  flt soil_moisture (F64.lit 25 100) = true).
  { intros H. apply (flt_trans _ _ _ H). by vm_compute. }
  destruct (flt soil_moisture (F64.lit 15 100));
    destruct (flt soil_moisture (F64.lit 25 100));
    try (discriminate (Hsoil eq_refl));
    destruct (flt temp (F64.of_Z 2)); destruct (fgt humidity (F64.of_Z 85));
    destruct (fgt temp (F64.of_Z 15)); try (discriminate (Hex eq_refl));
    destruct (fgt wind (F64.of_Z 10));
    cbn [andb app map category length];
    (split_and!;
     [ done
     | lia
     | eauto 10 using sublist_nil, sublist_skip, sublist_cons
     | split; [intros H; first [done | not_elem_of H] | intros [= ]; repeat constructor]
     | split; [intros H; first [done | not_elem_of H]
              | intros (? & ? & ? & ?); first [discriminate | repeat constructor]]
     | intros [H1 H2]; first [ not_elem_of H1 | not_elem_of H2 ]
     | repeat constructor; cbn [severity category]; try lia; try done ]).
Qed.

End WeatherProps.

Section LiveWeatherProps.

Import WeatherFetcher.

Variables fmt_pct0 fmt_f0 fmt_f1 : float -> string.
Variable _generate_synthetic_weather : float -> float -> weather_report.

(** With the entries it indexes, the [try] block builds a dict. *)
Lemma live_weather_ok (now : string) (lat lon : float) (data : owm_json) :
  has_required_entries data = true ->
  exists w,
    live_weather fmt_f1 now lat lon data = Ok w
    /\ source w = "openweathermap"
    /\ soil_moisture w = F64.lit 4 10
    /\ exists temp humidity wind,
         agricultural_alerts w
         = _generate_ag_alerts fmt_f1 temp humidity (F64.lit 4 10) wind.
Proof.
  unfold has_required_entries, live_weather.
  destruct data as [[[[t|] [f|] [h|] [p|]]|] [[[sp|] dg]|] [[ca|]|] vis [[|[d|] its]|] rain];
    simpl; try done; try (by rewrite ?andb_false_r).
  intros _. eexists. split; [reflexivity|]. simpl. eauto 10.
Qed.

(** Without one of them it raises. *)
Lemma live_weather_raise (now : string) (lat lon : float) (data : owm_json) :
  has_required_entries data = false ->
  exists e, live_weather fmt_f1 now lat lon data = Raise e.
Proof.
  unfold has_required_entries, live_weather.
  destruct data as [[[[t|] [f|] [h|] [p|]]|] [[[sp|] dg]|] [[ca|]|] vis [[|[d|] its]|] rain];
    simpl; try done; eauto.
Qed.

(** X18. [_fetch_live_weather] returns the synthetic weather when the
    request raises or the document of the response lacks one of the entries
    that the code indexes ([main.temp], [main.feels_like], [main.humidity],
    [main.pressure], [wind.speed], [clouds.all], [weather[0].description]).
    Otherwise the dict it builds has the source "openweathermap" and the
    constant soil moisture 0.4: its agricultural alerts hold no irrigation
    alert, and the classifier given this dict never raises the drought
    alert, whatever the classification. *)
Theorem live_weather_never_dry (now : string) (lat lon : float)
    (response : result owm_json) (c : HealthClassifier.classification) :
  let w := _fetch_live_weather fmt_f1 _generate_synthetic_weather now lat lon response in
  match response with
  | Ok data =>
      if has_required_entries data
      then source w = "openweathermap"
           /\ soil_moisture w = F64.lit 4 10
           /\ ("irrigation" ∉ map category (agricultural_alerts w))
           /\ ("Drought Stress Detected"
                 ∉ map HealthClassifier.alert_title
                     (HealthClassifier._weather_correlated_alerts
                        fmt_pct0 fmt_f0 fmt_f1 c (weather_dict w)))
      else w = _generate_synthetic_weather lat lon
  | Raise _ => w = _generate_synthetic_weather lat lon
  end.
Proof.
  cbv zeta. unfold _fetch_live_weather. destruct response as [data|e]; [|done].
  cbn [mbind result_bind].
  destruct (has_required_entries data) eqn:Hreq.
  - destruct (live_weather_ok now lat lon data Hreq)
      as (w & -> & Hsrc & Hsoil & temp & humidity & wind & Halerts).
    assert (Hdict : default ∅ (weather_dict w !! "soil") !! "moisture"
                    = Some (F64.lit 4 10)).
    { unfold weather_dict. rewrite <- Hsoil. reflexivity. }
    split_and!; [done|done| |].
    + rewrite Halerts. unfold _generate_ag_alerts.
      change (flt (F64.lit 4 10) (F64.lit 15 100)) with false.
      change (flt (F64.lit 4 10) (F64.lit 25 100)) with false.
      cbv iota.
      destruct (flt temp (F64.of_Z 2)),
        (fgt humidity (F64.of_Z 85) && fgt temp (F64.of_Z 15)),
        (fgt wind (F64.of_Z 10));
        cbn [app map category]; intros H; not_elem_of H.
    + unfold HealthClassifier._weather_correlated_alerts. rewrite Hdict.
      cbn [default from_option id].
      change (flt (F64.lit 4 10) (F64.lit 2 10)) with false. cbn [andb].
      destruct (fgt _ (F64.of_Z 80) && _ && _), (flt _ (F64.of_Z 2) && _);
        cbn [app map HealthClassifier.alert_title]; intros H; not_elem_of H.
  - by destruct (live_weather_raise now lat lon data Hreq) as [e ->].
Qed.

End LiveWeatherProps.

(** ** Further properties of the segmenter *)

Section SegmenterMoreProps.

Import Segmentation.

Variable selem : Type.
Variable transform : Type.
Variable disk : Z -> selem.
Variables opening closing : array2 Z -> selem -> array2 Z.
Variable ndimage_label : array2 Z -> array2 Z * Z.
Variable regionprops : array2 Z -> array2 float -> list region.
Variable xy : transform -> Z -> Z -> float * float.
Variable np_mean : list float -> float.
Variable utcnow : string.
Variable cfg : Config.t.

Lemma _classify_ndvi_class (dtype : np_dtype) (v : float) :
  fst (_classify_ndvi cfg dtype v)
    ∈ ["Healthy"; "Moderate Stress"; "Severe Stress"; "Critical"].
Proof.
  unfold _classify_ndvi.
  repeat match goal with |- context [if ?b then _ else _] => destruct b end;
    repeat constructor.
Qed.

Lemma count_class_cons (c x : string) (l : list string) :
  count_class c (x :: l) = Z.b2z (String.eqb c x) + count_class c l.
Proof.
  unfold count_class. simpl.
  destruct (String.eqb c x); simpl length; simpl Z.b2z; lia.
Qed.

Lemma count_class_nonneg (c : string) (l : list string) : 0 <= count_class c l.
Proof. unfold count_class. lia. Qed.

(** The four class counts of a list of class names add up to its length. *)
Lemma count_class_sum (classes : list string) :
  Forall (fun c => c ∈ ["Healthy"; "Moderate Stress"; "Severe Stress"; "Critical"])
    classes ->
  count_class "Healthy" classes + count_class "Moderate Stress" classes
  + count_class "Severe Stress" classes + count_class "Critical" classes
  = Z.of_nat (length classes).
Proof.
  induction 1 as [|c l Hc _ IH]; [done|].
  rewrite !count_class_cons. simpl length.
  repeat (apply elem_of_cons in Hc as [->|Hc]; [simpl Z.b2z; lia|]).
  by apply elem_of_nil in Hc.
Qed.

Lemma make_plot_health_class (tr : transform) (r : region) :
  health_class (make_plot transform xy cfg tr r)
  = fst (_classify_ndvi cfg np_float32 (mean_intensity r)).
Proof. unfold make_plot. by destruct (bbox r) as [[[? ?] ?] ?]. Qed.

Lemma segment_plots_summary (path : string) (ndvi : array2 float) (tr : transform)
    (crs : string) (m : Z) :
  let result :=
    segment_plots selem transform disk opening closing ndimage_label regionprops
      xy np_mean utcnow cfg path ndvi tr crs m in
  seg_summary result = _summarize_plots np_mean cfg (plots result)
  /\ total_plots result = Z.of_nat (length (plots result)).
Proof.
  cbv zeta. unfold segment_plots. by destruct (detect_regions _ _ _ _ _ _ _ _).
Qed.

(** X8. The summary of a segmentation is the dict [{"total": 0}] exactly when
    no region passes the area test; otherwise its [total_plots] is the
    number of plots, its four class counts add up to that number, and its
    overall health is one of the four class names. *)
Theorem segment_plots_summary_counts (path : string) (ndvi : array2 float)
    (tr : transform) (crs : string) (min_plot_area : Z) :
  let result :=
    segment_plots selem transform disk opening closing ndimage_label regionprops
      xy np_mean utcnow cfg path ndvi tr crs min_plot_area in
  match seg_summary result with
  | SummaryEmpty total => total = 0 /\ plots result = []
  | Summary total healthy moderate severe critical mean_ndvi health =>
      plots result <> []
      /\ total = total_plots result
      /\ healthy + moderate + severe + critical = total
      /\ 0 <= healthy /\ 0 <= moderate /\ 0 <= severe /\ 0 <= critical
      /\ health ∈ ["Healthy"; "Moderate Stress"; "Severe Stress"; "Critical"]
  end.
Proof.
  cbv zeta.
  destruct (segment_plots_summary path ndvi tr crs min_plot_area) as [-> ->].
  rewrite segment_plots_plots.
  set (regs := kept_regions min_plot_area _). clearbody regs.
  destruct regs as [|r regs]; [done|].
  set (ps := map _ (r :: regs)).
  assert (Hps : ps <> []) by done.
  assert (Hcls : Forall (fun c => c ∈ ["Healthy"; "Moderate Stress";
                                        "Severe Stress"; "Critical"])
                   (map health_class ps)).
  { unfold ps. rewrite map_map, Forall_forall. intros c Hc.
    rewrite list_elem_of_In, in_map_iff in Hc. destruct Hc as (r' & <- & _).
    rewrite make_plot_health_class. apply _classify_ndvi_class. }
  clearbody ps. destruct ps as [|p ps]; [done|].
  cbn [_summarize_plots]. split_and!; try done; try apply count_class_nonneg.
  - rewrite (count_class_sum _ Hcls). by rewrite length_map.
  - apply _classify_ndvi_class.
Qed.

Lemma filter_map_comm {A B} (f : B -> bool) (g : A -> B) (l : list A) :
  List.filter f (map g l) = map g (List.filter (fun x => f (g x)) l).
Proof.
  induction l as [|x l IH]; simpl; [done|]. destruct (f (g x)); simpl; by rewrite IH.
Qed.

Lemma filter_filter_impl {A} (f g : A -> bool) (l : list A) :
  (forall x, f x = true -> g x = true) ->
  List.filter f (List.filter g l) = List.filter f l.
Proof.
  intros H. induction l as [|x l IH]; simpl; [done|].
  destruct (g x) eqn:Eg; simpl.
  - destruct (f x); by rewrite IH.
  - destruct (f x) eqn:Ef; [|done]. apply H in Ef. congruence.
Qed.

Lemma filter_sublist {A} (f : A -> bool) (l : list A) : sublist (List.filter f l) l.
Proof.
  induction l as [|x l IH]; simpl; [constructor|].
  destruct (f x); by constructor.
Qed.

(** X9. Raising the minimum area only removes plots: the plots found with
    the larger minimum are those found with the smaller one whose area is
    at least the larger minimum, in the same order and unchanged. *)
Theorem segment_plots_threshold_monotone (path : string) (ndvi : array2 float)
    (tr : transform) (crs : string) (a b : Z) :
  a <= b ->
  let low :=
    segment_plots selem transform disk opening closing ndimage_label regionprops
      xy np_mean utcnow cfg path ndvi tr crs a in
  let high :=
    segment_plots selem transform disk opening closing ndimage_label regionprops
      xy np_mean utcnow cfg path ndvi tr crs b in
  plots high = List.filter (fun p => b <=? area_pixels p) (plots low)
  /\ sublist (plots high) (plots low)
  /\ total_plots high <= total_plots low.
Proof.
  intros Hab. cbv zeta.
  assert (E : plots (segment_plots selem transform disk opening closing ndimage_label
                       regionprops xy np_mean utcnow cfg path ndvi tr crs b)
              = List.filter (fun p => b <=? area_pixels p)
                  (plots (segment_plots selem transform disk opening closing
                            ndimage_label regionprops xy np_mean utcnow cfg path
                            ndvi tr crs a))).
  { rewrite !segment_plots_plots, filter_map_comm. f_equal.
    unfold kept_regions. rewrite <- (filter_filter_impl _ (fun r => a <=? area r)).
    - apply filter_ext. intros r. by rewrite make_plot_area.
    - intros r H. apply Z.leb_le in H. apply Z.leb_le. lia. }
  destruct (segment_plots_summary path ndvi tr crs a) as [_ ->].
  destruct (segment_plots_summary path ndvi tr crs b) as [_ ->].
  rewrite E. split_and!; [done|apply filter_sublist|].
  apply inj_le, List.filter_length_le.
Qed.

End SegmenterMoreProps.

(** ** Further properties of the orchestrator and of the run table *)

Section OrchestratorMoreProps.

Import PipelineScheduler DatabaseManager.

Variable world : Type.
Variable time_time : world -> float.
Variable utcnow : world -> string.
Variable FIELD_BBOX : Segmentation.bbox_geo.
Variable IMAGE_SIZE_PX : Z.
Variable fetch_sentinel_imagery : world -> result metadata * world.
Variable fetch_weather : world -> result HealthClassifier.weather * world.
Variable calculate_ndvi : string -> world -> result ndvi_output * world.
Variable ndvi_to_rgb : string -> world -> result string * world.
Variable create_rgb_composite : string -> world -> result string * world.
Variable classify_health :
  string -> HealthClassifier.weather ->
  world -> result HealthClassifier.classification * world.
Variable segment_plots :
  string -> world -> result Segmentation.segmentation_result * world.
Variable write_geojson :
  Segmentation.feature_collection -> world -> result unit * world.
Variable insert_imagery : metadata -> world -> result Z * world.
Variable insert_weather : HealthClassifier.weather -> world -> result Z * world.
Variable insert_ndvi_result : Z -> ndvi_output -> world -> result Z * world.
Variable insert_health_assessment :
  Z -> HealthClassifier.classification -> world -> result Z * world.
Variable round1 : float -> float.
Variable sql_avg : list float -> float.
Variable round2 : float -> float.

Abbreviation body :=
  (pipeline_body world time_time utcnow FIELD_BBOX IMAGE_SIZE_PX
     fetch_sentinel_imagery fetch_weather calculate_ndvi ndvi_to_rgb
     create_rgb_composite classify_health segment_plots write_geojson
     insert_imagery insert_weather insert_ndvi_result insert_health_assessment
     round1).
Abbreviation run :=
  (run_pipeline world time_time utcnow FIELD_BBOX IMAGE_SIZE_PX
     fetch_sentinel_imagery fetch_weather calculate_ndvi ndvi_to_rgb
     create_rgb_composite classify_health segment_plots write_geojson
     insert_imagery insert_weather insert_ndvi_result insert_health_assessment
     round1).

Ltac run_step :=
  match goal with
  | |- context [lift _ ?f ?s] =>
      unfold lift at 1; destruct (f (st_world _ s)) as [[?|?] ?]; simpl
  | |- context [String.eqb ?a ?b] => destruct (String.eqb a b); simpl
  end.

(** A body that goes through all its steps completes the row of the run and
    touches nothing else of the table. *)
Lemma body_ok_runs (image_path : option string) (run_id : Z) (t0 : float)
    (s s' : state world) (r : run_result) :
  body image_path run_id t0 s = (Ok r, s') ->
  exists img w elapsed ndvi_mean health plots_found alerts,
    r = Completed run_id (round1 elapsed) ndvi_mean health plots_found alerts
    /\ pipeline_runs world s' =
         {| rows :=
              alter (fun row => completed_row (start_time row) (utcnow w) img elapsed)
                run_id (rows (pipeline_runs world s));
            seq := seq (pipeline_runs world s) |}.
Proof.
  unfold pipeline_body, mbind, io_mbind, io_bind, mret, io_mret, io_ret, read,
    complete_pipeline_run.
  destruct image_path as [path|]; simpl;
    repeat run_step; intros [= <- <-] || intros [=]; simpl; eauto 20.
Qed.

(** The table after a run: the row of the run has been added, under the id
    that follows the sequence, and it is a completed row or the row written
    by the [except] handler. *)
Lemma run_pipeline_rows (image_path : option string) (s : state world) :
  let t := pipeline_runs world s in
  let run_id := seq t + 1 in
  exists r s' row,
    run image_path s = (Ok r, s')
    /\ pipeline_runs world s' = {| rows := <[run_id := row]> (rows t); seq := run_id |}
    /\ start_time row = utcnow (st_world world s)
    /\ match r with
       | Completed id time _ _ _ _ =>
           id = run_id
           /\ exists finish img elapsed,
                row = completed_row (utcnow (st_world world s)) finish img elapsed
                /\ time = round1 elapsed
       | Failed msg id =>
           id = run_id
           /\ exists finish elapsed,
                row = handled_row (utcnow (st_world world s)) finish elapsed msg
       end.
Proof.
  cbv zeta. unfold run_pipeline, mbind, io_mbind, io_bind, try_except, read.
  cbn [start_pipeline_run]. cbv beta.
  set (s0 := {| st_world := st_world world s; pipeline_runs := _ |}).
  destruct (body image_path _ _ s0) as [[r|e] s1] eqn:Hbody.
  - destruct (body_ok_runs _ _ _ _ _ _ Hbody)
      as (img & w & elapsed & nm & h & pf & al & -> & Hruns).
    eexists _, _, _. split; [reflexivity|]. rewrite Hruns. unfold s0. simpl.
    rewrite alter_insert_eq. split_and!; [done|done|done|]. eauto.
  - pose proof (body_raise_runs _ _ _ _ _ _ _ _ _ _ _ _ _ _ _ _ _ _ _ _ _ _ _ _ Hbody)
      as Hruns.
    unfold pipeline_handler, mbind, io_mbind, io_bind, read, complete_pipeline_run,
      mret, io_mret, io_ret. simpl.
    eexists _, _, _. split; [reflexivity|]. rewrite Hruns. unfold s0. simpl.
    rewrite alter_insert_eq. split_and!; [done|done|done|].
    eexists _, _. unfold handled_row. simpl.
    by destruct (String.eqb (exn_str e) "").
Qed.

Lemma next_id_fresh (t : runs_table) :
  ids_issued t -> rows t !! (seq t + 1) = None.
Proof.
  intros Hids. destruct (rows t !! (seq t + 1)) eqn:E; [|done].
  specialize (Hids _ (mk_is_Some _ _ E)). lia.
Qed.

(** X10. Whenever a call of [run_pipeline] returns, it has written one row,
    under the id that follows the sequence, which no row had before (the
    ids of the table have all been issued by the sequence); every other row
    of [pipeline_runs] is as it was.  The row of a run that has returned is
    not "running" any more: it has the start time of the call, an end time
    and the status "completed" or "failed". *)
Theorem run_pipeline_adds_one_row (image_path : option string)
    (s s' : state world) (r : run_result) :
  ids_issued (pipeline_runs world s) ->
  run image_path s = (Ok r, s') ->
  let run_id := seq (pipeline_runs world s) + 1 in
  rows (pipeline_runs world s) !! run_id = None
  /\ (exists row,
        rows (pipeline_runs world s') !! run_id = Some row
        /\ start_time row = utcnow (st_world world s)
        /\ status row ∈ ["completed"; "failed"]
        /\ is_Some (end_time row))
  /\ (forall k, k <> run_id ->
        rows (pipeline_runs world s') !! k = rows (pipeline_runs world s) !! k)
  /\ dom (rows (pipeline_runs world s'))
     = {[ run_id ]} ∪ dom (rows (pipeline_runs world s))
  /\ seq (pipeline_runs world s') = run_id
  /\ ids_issued (pipeline_runs world s').
Proof.
  intros Hids Hret. cbv zeta.
  destruct (run_pipeline_rows image_path s)
    as (r0 & s0 & row & Hrun & Hruns & Hstart & Hr).
  rewrite Hret in Hrun. injection Hrun as <- <-.
  rewrite Hruns. cbn [rows seq].
  pose proof (next_id_fresh _ Hids) as Hfresh.
  split_and!.
  - done.
  - exists row. rewrite lookup_insert_eq. split_and!; [done|done| |].
    + destruct r as [id time nm h pf al|msg id].
      * destruct Hr as (_ & finish & img & elapsed & -> & _). repeat constructor.
      * destruct Hr as (_ & finish & elapsed & ->). unfold handled_row. simpl.
        destruct (String.eqb msg ""); repeat constructor.
    + destruct r as [id time nm h pf al|msg id].
      * destruct Hr as (_ & finish & img & elapsed & -> & _). by eexists.
      * destruct Hr as (_ & finish & elapsed & ->). by eexists.
  - intros k Hk. by rewrite lookup_insert_ne.
  - by rewrite dom_insert_L.
  - done.
  - intros k [x Hk]. cbn [rows seq] in *.
    destruct (decide (k = seq (pipeline_runs world s) + 1)) as [->|Hne]; [lia|].
    rewrite lookup_insert_ne in Hk by done.
    specialize (Hids k (mk_is_Some _ _ Hk)). lia.
Qed.

(** X11. What [run_pipeline] returns and what it records agree on the run id
    and on the outcome.  A "completed" payload goes with a row that is
    completed, has no error message, an imagery id, the five steps, and the
    elapsed time of which the payload carries the rounding.  A "failed"
    payload goes with a row that has the error message of the payload, no
    imagery id and an empty list of steps, whichever steps were done before
    the failure; its status is "failed" unless the message is empty. *)
Theorem run_pipeline_payload_and_row (image_path : option string) (s : state world) :
  exists r s' row,
    run image_path s = (Ok r, s')
    /\ rows (pipeline_runs world s') !! (seq (pipeline_runs world s) + 1) = Some row
    /\ match r with
       | Completed id time _ _ _ _ =>
           id = seq (pipeline_runs world s) + 1
           /\ status row = "completed"
           /\ error_message row = None
           /\ steps_completed row = Some "ingest,weather,ndvi,classify,segment"
           /\ is_Some (imagery_id row)
           /\ exists elapsed,
                processing_time_s row = Some elapsed /\ time = round1 elapsed
       | Failed msg id =>
           id = seq (pipeline_runs world s) + 1
           /\ status row = (if String.eqb msg "" then "completed" else "failed")
           /\ error_message row = Some msg
           /\ steps_completed row = Some ""
           /\ imagery_id row = None
           /\ is_Some (processing_time_s row)
       end.
Proof.
  destruct (run_pipeline_rows image_path s) as (r & s' & row & Hrun & Hruns & _ & Hr).
  exists r, s', row. split; [done|]. rewrite Hruns. cbn [rows].
  split; [by rewrite lookup_insert_eq|].
  destruct r as [id time nm h pf al|msg id].
  - destruct Hr as (-> & finish & img & elapsed & -> & ->).
    split_and!; try done; eauto.
  - destruct Hr as (-> & finish & elapsed & ->).
    split_and!; try done; eauto.
Qed.

Lemma completed_rows_complement (t : runs_table) :
  (size (completed_rows t)
   + size (filter (fun kv => status kv.2 <> "completed") (rows t))
   = size (rows t))%nat.
Proof.
  unfold completed_rows.
  rewrite <- map_size_disj_union by apply map_disjoint_filter_complement.
  f_equal. apply map_filter_union_complement.
Qed.

(** X13. In the dict of [get_pipeline_stats] the completed and the failed
    runs add up to the total; "failed" is the number of rows whose status is
    not "completed", so a run that is still "running" counts as failed.  On
    an empty table every entry is 0: nothing is divided by the total. *)
Theorem pipeline_stats_counts (t : runs_table) :
  let st := get_pipeline_stats sql_avg round2 round1 t in
  completed st + failed st = total_runs st
  /\ 0 <= completed st /\ 0 <= failed st
  /\ completed st
     = Z.of_nat (size (filter (fun kv => status kv.2 = "completed") (rows t)))
  /\ failed st
     = Z.of_nat (size (filter (fun kv => status kv.2 <> "completed") (rows t)))
  /\ (rows t = ∅ ->
      st = PipelineStats 0 0 0 (S754_zero false) (S754_zero false)).
Proof.
  cbv zeta. unfold get_pipeline_stats. cbn [total_runs completed failed].
  pose proof (completed_rows_complement t) as H.
  split_and!; try lia; try done.
  intros E. unfold completed_rows.
  rewrite E, map_filter_empty, map_to_list_empty, map_size_empty. done.
Qed.

Lemma size_filter_insert (P : Z * run_row -> Prop) `{!forall x, Decision (P x)}
    (m : gmap Z run_row) (i : Z) (row : run_row) :
  m !! i = None ->
  size (filter P (<[i := row]> m))
  = (size (filter P m) + if decide (P (i, row)) then 1 else 0)%nat.
Proof.
  intros Hi. destruct (decide (P (i, row))) as [HP|HP].
  - rewrite map_filter_insert_True by done.
    rewrite map_size_insert_None; [lia|]. by apply map_lookup_filter_None_2; left.
  - rewrite map_filter_insert_not' by (done || by intros y; rewrite Hi). lia.
Qed.

(** X14. A call of [run_pipeline] adds one to [total_runs].  It adds one to
    the completed runs when it returns the "completed" payload, and also
    when it returns the "failed" payload with an empty error message; it
    adds one to the failed runs when the error message is not empty. *)
Theorem run_pipeline_stats (image_path : option string) (s : state world) :
  ids_issued (pipeline_runs world s) ->
  exists r s',
    run image_path s = (Ok r, s')
    /\ let before := get_pipeline_stats sql_avg round2 round1 (pipeline_runs world s) in
       let after := get_pipeline_stats sql_avg round2 round1 (pipeline_runs world s') in
       total_runs after = total_runs before + 1
       /\ match r with
          | Completed _ _ _ _ _ _ =>
              completed after = completed before + 1 /\ failed after = failed before
          | Failed msg _ =>
              if String.eqb msg ""
              then completed after = completed before + 1
                   /\ failed after = failed before
              else completed after = completed before
                   /\ failed after = failed before + 1
          end.
Proof.
  intros Hids.
  destruct (run_pipeline_rows image_path s) as (r & s' & row & Hrun & Hruns & _ & Hr).
  exists r, s'. split; [done|]. cbv zeta.
  pose proof (next_id_fresh _ Hids) as Hfresh.
  unfold get_pipeline_stats, completed_rows. cbn [total_runs completed failed].
  rewrite Hruns. cbn [rows].
  rewrite (map_size_insert_None _ _ _ Hfresh).
  rewrite (size_filter_insert _ _ _ _ Hfresh).
  split; [lia|].
  destruct r as [id time nm h pf al|msg id].
  - destruct Hr as (_ & finish & img & elapsed & -> & _).
    rewrite decide_True by done. lia.
  - destruct Hr as (_ & finish & elapsed & ->). unfold handled_row. cbn [snd status].
    destruct (String.eqb msg "").
    + rewrite decide_True by done. lia.
    + rewrite decide_False by done. lia.
Qed.

End OrchestratorMoreProps.

(** ** Worked examples *)

Lemma index_in_unit_range_witness :
  let b := {| NdviCalculator.red := [F32.of_Z 2000; S754_nan; F32.of_Z 0; F32.of_Z 3];
              NdviCalculator.nir := [F32.of_Z 8000; F32.of_Z 1; F32.of_Z 0; F32.of_Z (-5)] |} in
  Forall (fun v => in_unit_range v = true) (NdviCalculator.compute_ndvi b)
  /\ (NdviCalculator.NODATA ∉ NdviCalculator.valid_pixels (NdviCalculator.compute_ndvi b))
  /\ Forall (fun v => in_unit_range v = true /\ v <> NdviCalculator.NODATA)
       (NdviCalculator.valid_pixels (NdviCalculator.compute_ndvi b)).
Proof.
  cbv zeta.
  destruct (index_in_unit_range
              {| NdviCalculator.red := [F32.of_Z 2000; S754_nan; F32.of_Z 0; F32.of_Z 3];
                 NdviCalculator.nir := [F32.of_Z 8000; F32.of_Z 1; F32.of_Z 0;
                                        F32.of_Z (-5)] |})
    as (Hall & Hnodata & Hvalid).
  split_and!; [apply Hall; simpl; repeat constructor|done|done].
Defined.

Lemma percentages_sum_to_100_witness :
  exists r,
    NdviCalculator.calculate_ndvi Example.np_mean Example.np_std Example.np_median
      Example.np_percentile Config.default Example.five_pixels = Ok r
    /\ let valid := NdviCalculator.valid_pixels (NdviCalculator.ndvi_array r) in
       let st := NdviCalculator.stats r in
       0 < NdviCalculator.total_pixels st
       /\ Forall (fun v => class_count (NdviCalculator.T_severe Config.default)
                             (NdviCalculator.T_moderate Config.default)
                             (NdviCalculator.T_healthy Config.default) v = 1) valid
       /\ np_count (NdviCalculator.healthy_mask Config.default valid)
          + np_count (NdviCalculator.moderate_mask Config.default valid)
          + np_count (NdviCalculator.severe_mask Config.default valid)
          + np_count (NdviCalculator.critical_mask Config.default valid)
          = NdviCalculator.total_pixels st
       /\ is_finite (NdviCalculator.healthy_pct st)
          && is_finite (NdviCalculator.moderate_stress_pct st)
          && is_finite (NdviCalculator.severe_stress_pct st)
          && is_finite (NdviCalculator.critical_pct st) = true
       /\ (Qabs (F2Q (NdviCalculator.healthy_pct st)
                 + F2Q (NdviCalculator.moderate_stress_pct st)
                 + F2Q (NdviCalculator.severe_stress_pct st)
                 + F2Q (NdviCalculator.critical_pct st) - 100)
           <= 1 # 10)%Q.
Proof.
  eexists. split; [by vm_compute|].
  apply (percentages_sum_to_100 Example.np_mean Example.np_std Example.np_median
           Example.np_percentile Config.default Example.five_pixels).
  - by vm_compute.
  - by vm_compute.
  - by vm_compute.
  - by vm_compute.
Defined.

Lemma classify_health_empty_raises_witness :
  HealthClassifier.classify_health Example.fmt Example.fmt Example.fmt
    Example.round1 Example.utcnow Example.np_mean Example.np_std Config.default
    "ndvi.tif" [F32.of_Z (-9999); S754_nan] None =
    Raise (PyExn "ValueError"
      "zero-size array to reduction operation minimum which has no identity")
  /\ HealthClassifier._overall_health 0 0 0 0 (np_size (@nil float)) = "No Data"
  /\ HealthClassifier.percentage Example.round1 0 (np_size (@nil float))
     = S754_zero false.
Proof.
  apply classify_health_empty_raises. reflexivity.
Defined.

Lemma missing_weather_keys_no_alerts_witness :
  HealthClassifier._weather_correlated_alerts Example.fmt Example.fmt Example.fmt
    Example.some_classification Example.weather_no_keys = []
  /\ (exists c',
        HealthClassifier.classify_health Example.fmt Example.fmt Example.fmt
          Example.round1 Example.utcnow Example.np_mean Example.np_std
          Config.default "ndvi.tif" [F32.of_f64 (F64.lit 6 10)]
          (Some Example.weather_no_keys) = Ok c'
        /\ HealthClassifier.alerts c' = [])
  /\ forall w' : HealthClassifier.weather,
       let titles :=
         map HealthClassifier.alert_title
           (HealthClassifier._weather_correlated_alerts Example.fmt Example.fmt
              Example.fmt Example.some_classification w') in
       (default ∅ (w' !! "soil") !! "moisture" = None ->
        "Drought Stress Detected" ∉ titles)
       /\ (default ∅ (w' !! "current") !! "humidity_pct" = None ->
           "Disease Risk Elevated" ∉ titles)
       /\ (default ∅ (w' !! "current") !! "temperature_c" = None ->
           "Frost Damage Risk" ∉ titles).
Proof.
  apply (missing_weather_keys_no_alerts Example.fmt Example.fmt Example.fmt
           Example.round1 Example.utcnow Example.np_mean Example.np_std
           Config.default Example.some_classification Example.weather_no_keys
           "ndvi.tif" [F32.of_f64 (F64.lit 6 10)]).
  - split_and!; by vm_compute.
  - by vm_compute.
Defined.

Lemma segment_plots_min_area_witness :
  let result :=
    Segmentation.segment_plots unit unit Example.disk Example.morph Example.morph
      Example.ndimage_label Example.regionprops Example.xy Example.np_mean
      Example.utcnow Config.default "ndvi.tif" [[F32.of_f64 (F64.lit 6 10)]] tt
      "EPSG:4326" 100 in
  let regions :=
    snd (Segmentation.detect_regions unit Example.disk Example.morph Example.morph
           Example.ndimage_label Example.regionprops Config.default
           [[F32.of_f64 (F64.lit 6 10)]]) in
  Forall (fun p => 100 <= Segmentation.area_pixels p) (Segmentation.plots result)
  /\ map Segmentation.id (Segmentation.plots result)
     = map Segmentation.label (kept_regions 100 regions)
  /\ map Segmentation.area_pixels (Segmentation.plots result)
     = map Segmentation.area (kept_regions 100 regions)
  /\ (forall r, r ∈ regions -> Segmentation.area r < 100 ->
             Segmentation.label r ∉ map Segmentation.id (Segmentation.plots result))
  /\ StronglySorted Z.lt (map Segmentation.id (Segmentation.plots result))
  /\ Segmentation.total_plots result
     = Z.of_nat (length (Segmentation.plots result)).
Proof.
  apply segment_plots_min_area.
  intros labeled img. unfold Example.regionprops, Example.regions. simpl.
  repeat constructor.
Defined.

Lemma run_pipeline_empty_message_witness :
  exists s2 row,
    Example.run_pipeline None Example.empty_state
      = (Ok (PipelineScheduler.Failed "" 1), s2)
    /\ PipelineScheduler.rows (PipelineScheduler.pipeline_runs unit s2) !! 1 = Some row
    /\ PipelineScheduler.status row = "completed"
    /\ PipelineScheduler.error_message row = Some ""
    /\ PipelineScheduler.processing_time_s row
       = Some (F64.sub (Example.clock tt) (Example.clock tt)).
Proof.
  apply (run_pipeline_empty_message unit Example.clock Example.now
           (PipelineScheduler.meta_bbox Example.metadata) 512
           Example.fetch_sentinel_imagery Example.fetch_weather
           Example.unreached Example.unreached Example.unreached
           Example.unreached2 Example.unreached Example.unreached
           Example.insert_row Example.insert_row Example.unreached2
           Example.unreached2 Example.round1 None Example.empty_state
           (PipelineScheduler.State unit tt
              (snd (PipelineScheduler.start_pipeline_run unit Example.now
                      Example.empty_state)).(PipelineScheduler.pipeline_runs unit))
           (PyExn "AssertionError" "")).
  - reflexivity.
  - reflexivity.
Defined.

Lemma calculate_ndvi_finite_raster_witness :
  exists d,
    Example.calculate_ndvi_file Example.five_pixel_dataset "raw.tif" None tt = (Ok d, tt)
    /\ NdviCalculator.input_file d = "raw.tif"
    /\ NdviCalculator.output_file d = "ndvi_raw.tif"
    /\ NdviCalculator.valid_pixels Example.five_indices = Example.five_indices
    /\ NdviCalculator.total_pixels (NdviCalculator.statistics_of d) = 5.
Proof.
  apply (calculate_ndvi_finite_raster Example.np_mean Example.np_std
           Example.np_median Example.np_percentile Config.default unit
           (list (list NdviCalculator.sample)) unit
           (fun input => "ndvi_" +:+ input) (fun _ w => (Ok (), w))
           (fun _ _ => Ok Example.five_pixel_dataset)
           Example.read_band (fun _ => tt) (fun _ => "EPSG:4326")
           (fun _ _ _ _ w => (Ok (), w)) (fun _ => Example.utcnow)
           "raw.tif" None tt tt tt Example.five_pixel_dataset
           (map NdviCalculator.IntSample [1000; 500; 2000; 0; 3000])
           (map NdviCalculator.IntSample [9000; 7000; 8000; 0; 1000]));
    try reflexivity; try done; simpl; repeat constructor.
Defined.

Lemma calculate_ndvi_raises_iff_witness :
  let run := Example.calculate_ndvi_file Example.overflow_dataset "raw.tif" None tt in
  let ndvi :=
    NdviCalculator.compute_ndvi
      (NdviCalculator.Bands [S754_infinity false] [S754_infinity false]) in
  ((exists e, run.1 = Raise e) <-> Forall (fun v => is_nan v = true) ndvi)
  /\ (forall e, run.1 = Raise e ->
        e = PyExn "ValueError"
              "zero-size array to reduction operation minimum which has no identity"
        /\ run.2 = tt).
Proof.
  apply (calculate_ndvi_raises_iff Example.np_mean Example.np_std
           Example.np_median Example.np_percentile Config.default unit
           (list (list NdviCalculator.sample)) unit
           (fun input => "ndvi_" +:+ input) (fun _ w => (Ok (), w))
           (fun _ _ => Ok Example.overflow_dataset)
           Example.read_band (fun _ => tt) (fun _ => "EPSG:4326")
           (fun _ _ _ _ w => (Ok (), w)) (fun _ => Example.utcnow)
           "raw.tif" None tt tt tt Example.overflow_dataset
           [NdviCalculator.FloatSample (F64.of_Z (10 ^ 39))]
           [NdviCalculator.FloatSample (F64.of_Z (10 ^ 39))]);
    reflexivity.
Defined.

Lemma statistics_min_max_witness :
  exists r,
    NdviCalculator.calculate_ndvi Example.np_mean Example.np_std Example.np_median
      Example.np_percentile Config.default Example.five_pixels = Ok r
    /\ exists mn mx,
         NdviCalculator.stat_min (NdviCalculator.stats r) = F64.of_f32 mn
         /\ NdviCalculator.stat_max (NdviCalculator.stats r) = F64.of_f32 mx
         /\ mn ∈ NdviCalculator.valid_pixels (NdviCalculator.ndvi_array r)
         /\ mx ∈ NdviCalculator.valid_pixels (NdviCalculator.ndvi_array r)
         /\ Forall (fun v => fle mn v = true /\ fle v mx = true)
              (NdviCalculator.valid_pixels (NdviCalculator.ndvi_array r))
         /\ fle (F32.of_Z (-1)) mn = true /\ fle mn mx = true
         /\ fle mx (F32.of_Z 1) = true.
Proof.
  eexists. split; [by vm_compute|].
  apply (statistics_min_max Example.np_mean Example.np_std Example.np_median
           Example.np_percentile Config.default Example.five_pixels).
  by vm_compute.
Defined.

Lemma ndvi_to_rgb_paints_by_class_witness :
  let v := F32.of_f64 (F64.lit 6 10) in
  let colour := NdviToRgb.ndvi_to_rgb_pixel Config.default 0 v in
  (is_nan v = true -> colour = (0, 0, 0))
  /\ (fle v (NdviCalculator.T_severe Config.default) = true ->
      colour = (142, 68, 173))
  /\ (fgt v (NdviCalculator.T_severe Config.default)
      && fle v (NdviCalculator.T_moderate Config.default) = true ->
      colour = (231, 76, 60))
  /\ (fgt v (NdviCalculator.T_healthy Config.default) = true ->
      colour = (46, 204, 113))
  /\ (fle NdviCalculator.NODATA (NdviCalculator.T_severe Config.default) = true ->
      NdviToRgb.ndvi_to_rgb_pixel Config.default 0 NdviCalculator.NODATA
      = (142, 68, 173))
  /\ (colour = (0, 0, 0) ->
      is_nan v = true
      \/ fgt v (NdviCalculator.T_moderate Config.default)
         && fle v (NdviCalculator.T_healthy Config.default) = true).
Proof.
  apply (ndvi_to_rgb_paints_by_class Config.default 0 (F32.of_f64 (F64.lit 6 10)));
    by vm_compute.
Defined.

Lemma classify_health_counts_sum_witness :
  exists c,
    HealthClassifier.classify_health Example.fmt Example.fmt Example.fmt
      Example.round1 Example.utcnow Example.np_mean Example.np_std Config.default
      "ndvi.tif" Example.five_indices None = Ok c
    /\ let k := HealthClassifier.counts c in
       HealthClassifier.pc_healthy k + HealthClassifier.pc_moderate_stress k
       + HealthClassifier.pc_severe_stress k + HealthClassifier.pc_critical k
         = HealthClassifier.pc_total k
       /\ 0 <= HealthClassifier.pc_healthy k
       /\ 0 <= HealthClassifier.pc_moderate_stress k
       /\ 0 <= HealthClassifier.pc_severe_stress k
       /\ 0 <= HealthClassifier.pc_critical k
       /\ 0 < HealthClassifier.pc_total k <= Z.of_nat (length Example.five_indices).
Proof.
  eexists. split; [by vm_compute|].
  apply (classify_health_counts_sum Example.fmt Example.fmt Example.fmt
           Example.round1 Example.utcnow Example.np_mean Example.np_std
           Config.default "ndvi.tif" Example.five_indices None);
    by vm_compute.
Defined.

Lemma classify_health_never_no_data_witness :
  exists c,
    HealthClassifier.classify_health Example.fmt Example.fmt Example.fmt
      Example.round1 Example.utcnow Example.np_mean Example.np_std Config.default
      "ndvi.tif" Example.five_indices None = Ok c
    /\ let k := HealthClassifier.counts c in
       let ratio n :=
         Example.round1
           (F64.mul (HealthClassifier.int_div n (HealthClassifier.pc_total k))
              (F64.of_Z 100)) in
       0 < HealthClassifier.pc_total k
       /\ HealthClassifier.overall_health c ∈ ["Good"; "Fair"; "Poor"; "Critical"]
       /\ HealthClassifier.overall_health c <> "No Data"
       /\ HealthClassifier.pcts c
          = HealthClassifier.Percentages
              (ratio (HealthClassifier.pc_healthy k))
              (ratio (HealthClassifier.pc_moderate_stress k))
              (ratio (HealthClassifier.pc_severe_stress k))
              (ratio (HealthClassifier.pc_critical k)).
Proof.
  eexists. split; [by vm_compute|].
  apply (classify_health_never_no_data Example.fmt Example.fmt Example.fmt
           Example.round1 Example.utcnow Example.np_mean Example.np_std
           Config.default "ndvi.tif" Example.five_indices None).
  by vm_compute.
Defined.

Lemma segment_plots_threshold_monotone_witness :
  let low :=
    Segmentation.segment_plots unit unit Example.disk Example.morph Example.morph
      Example.ndimage_label Example.regionprops Example.xy Example.np_mean
      Example.utcnow Config.default "ndvi.tif" [[F32.of_f64 (F64.lit 6 10)]] tt
      "EPSG:4326" 50 in
  let high :=
    Segmentation.segment_plots unit unit Example.disk Example.morph Example.morph
      Example.ndimage_label Example.regionprops Example.xy Example.np_mean
      Example.utcnow Config.default "ndvi.tif" [[F32.of_f64 (F64.lit 6 10)]] tt
      "EPSG:4326" 100 in
  Segmentation.plots high
  = List.filter (fun p => 100 <=? Segmentation.area_pixels p) (Segmentation.plots low)
  /\ sublist (Segmentation.plots high) (Segmentation.plots low)
  /\ Segmentation.total_plots high <= Segmentation.total_plots low.
Proof.
  apply segment_plots_threshold_monotone. lia.
Defined.

Lemma run_pipeline_adds_one_row_witness :
  let s := Example.busy_state in
  let s' := (Example.run_pipeline None Example.busy_state).2 in
  let run_id := PipelineScheduler.seq (PipelineScheduler.pipeline_runs unit s) + 1 in
  PipelineScheduler.rows (PipelineScheduler.pipeline_runs unit s) !! run_id = None
  /\ (exists row,
        PipelineScheduler.rows (PipelineScheduler.pipeline_runs unit s') !! run_id
        = Some row
        /\ PipelineScheduler.start_time row = Example.now tt
        /\ PipelineScheduler.status row ∈ ["completed"; "failed"]
        /\ is_Some (PipelineScheduler.end_time row))
  /\ (forall k, k <> run_id ->
        PipelineScheduler.rows (PipelineScheduler.pipeline_runs unit s') !! k
        = PipelineScheduler.rows (PipelineScheduler.pipeline_runs unit s) !! k)
  /\ dom (PipelineScheduler.rows (PipelineScheduler.pipeline_runs unit s'))
     = {[ run_id ]} ∪ dom (PipelineScheduler.rows (PipelineScheduler.pipeline_runs unit s))
  /\ PipelineScheduler.seq (PipelineScheduler.pipeline_runs unit s') = run_id
  /\ ids_issued (PipelineScheduler.pipeline_runs unit s').
Proof.
  apply (run_pipeline_adds_one_row unit Example.clock Example.now
           (PipelineScheduler.meta_bbox Example.metadata) 512
           Example.fetch_sentinel_imagery Example.fetch_weather
           Example.unreached Example.unreached Example.unreached
           Example.unreached2 Example.unreached Example.unreached
           Example.insert_row Example.insert_row Example.unreached2
           Example.unreached2 Example.round1 None Example.busy_state
           (Example.run_pipeline None Example.busy_state).2
           (PipelineScheduler.Failed "" 3)).
  - intros k [row Hk]. simpl in Hk.
    destruct (decide (k = 1)) as [->|H1]; [done|].
    destruct (decide (k = 2)) as [->|H2]; [done|].
    by rewrite !lookup_insert_ne, lookup_empty in Hk.
  - reflexivity.
Defined.

Lemma run_pipeline_stats_witness :
  exists r s',
    Example.run_pipeline None Example.empty_state = (Ok r, s')
    /\ let before :=
         DatabaseManager.get_pipeline_stats Example.sql_avg Example.round2
           Example.round1 (PipelineScheduler.pipeline_runs unit Example.empty_state) in
       let after :=
         DatabaseManager.get_pipeline_stats Example.sql_avg Example.round2
           Example.round1 (PipelineScheduler.pipeline_runs unit s') in
       DatabaseManager.total_runs after = DatabaseManager.total_runs before + 1
       /\ match r with
          | PipelineScheduler.Completed _ _ _ _ _ _ =>
              DatabaseManager.completed after = DatabaseManager.completed before + 1
              /\ DatabaseManager.failed after = DatabaseManager.failed before
          | PipelineScheduler.Failed msg _ =>
              if String.eqb msg ""
              then DatabaseManager.completed after
                   = DatabaseManager.completed before + 1
                   /\ DatabaseManager.failed after = DatabaseManager.failed before
              else DatabaseManager.completed after = DatabaseManager.completed before
                   /\ DatabaseManager.failed after
                      = DatabaseManager.failed before + 1
          end.
Proof.
  apply (run_pipeline_stats unit Example.clock Example.now
           (PipelineScheduler.meta_bbox Example.metadata) 512
           Example.fetch_sentinel_imagery Example.fetch_weather
           Example.unreached Example.unreached Example.unreached
           Example.unreached2 Example.unreached Example.unreached
           Example.insert_row Example.insert_row Example.unreached2
           Example.unreached2 Example.round1 Example.sql_avg Example.round2
           None Example.empty_state).
  intros k [row Hk]. simpl in Hk. by rewrite lookup_empty in Hk.
Defined.

Lemma ndvi_pixel_accuracy_witness :
  let v := NdviCalculator.ndvi_pixel (F32.of_Z 8000) (F32.of_Z 2000) in
  is_finite v = true
  /\ (Qabs (F2Q v - inject_Z (8000 - 2000) / inject_Z (8000 + 2000))
      <= 1 # 2097152)%Q.
Proof.
  apply (ndvi_pixel_accuracy 8000 2000); lia.
Defined.
